(** * ShapeMeshes: a shallow embedding of the primitive mesh generators

    The generators of [ShapeMeshes.cpp] build an interleaved vertex buffer
    (8 floats per vertex: position, normal, texture coordinate) and an
    index buffer.  Floats are modelled as real numbers ([R]); [int]
    parameters and loop counters as [Z] (no overflow); a pushed [GLuint]
    index as the [Z] value of the [int] converted modulo 2^32. *)

From Stdlib Require Import Reals Lra ZArith Lia List.
Import ListNotations.
From Stdlib Require Strings.String.
Import (notations) Strings.String.

Local Open Scope R_scope.

(** ** Floats, vectors and the glm helpers used by the generators *)

(** [constexpr float Pi = 3.141592653589793]: the literal is rounded to
    the nearest float, [13176795 * 2^-22 = 3.1415927410125732421875]. *)
Definition Pi : R := 13176795 / 4194304.

Record vec3 := V3 { vx : R; vy : R; vz : R }.

Definition vadd (a b : vec3) : vec3 := V3 (vx a + vx b) (vy a + vy b) (vz a + vz b).
Definition vsub (a b : vec3) : vec3 := V3 (vx a - vx b) (vy a - vy b) (vz a - vz b).
Definition vscale (a : vec3) (s : R) : vec3 := V3 (vx a * s) (vy a * s) (vz a * s).
Definition vdot (a b : vec3) : R := vx a * vx b + vy a * vy b + vz a * vz b.
Definition vcross (a b : vec3) : vec3 :=
  V3 (vy a * vz b - vz a * vy b) (vz a * vx b - vx a * vz b) (vx a * vy b - vy a * vx b).
(** [glm::length] *)
Definition vlength (a : vec3) : R := sqrt (vdot a a).
(** [glm::inversesqrt]; at 0 a float gives +inf, the real model gives 0. *)
Definition inversesqrt (x : R) : R := / sqrt x.
(** [glm::normalize(v) = v * inversesqrt(dot(v, v))] *)
Definition normalize (a : vec3) : vec3 := vscale a (inversesqrt (vdot a a)).
Definition vzero : vec3 := V3 0 0 0.

(** Conversion of an [int] to [float]. *)
Definition fl (z : Z) : R := IZR z.

(** ** Integer loops *)

Local Open Scope Z_scope.

(** [range a b] lists the values of a counter running [a <= k < b]. *)
Definition range (a b : Z) : list Z :=
  map (fun k => a + Z.of_nat k) (seq 0 (Z.to_nat (b - a))).

(** Conversion of a non-negative [int] to [GLuint]. *)
Definition u32 (z : Z) : Z := z mod 2 ^ 32.

(** [std::max(a, b)] on ints. *)
Definition imax (a b : Z) : Z := Z.max a b.

(** [if (n < 3) n = 3;] *)
Definition clamp3 (n : Z) : Z := if n <? 3 then 3 else n.

(** Float count of a buffer, divided by 8 as [InitializeMesh] does. *)
Definition floats (l : list R) : Z := Z.of_nat (length l).

Local Open Scope R_scope.

(** One interleaved vertex: position, normal, texture coordinate. *)
Definition vtx (x y z nx ny nz u v : R) : list R := [x; y; z; nx; ny; nz; u; v].

(** Host-side buffers passed to [InitializeMesh]. *)
Record MeshData := { verts : list R; indices : list Z }.

Definition vertex_count (m : MeshData) : Z := (floats (verts m) / 8)%Z.

(** The index invariant: every index is below the vertex count. *)
Definition indices_in_range (m : MeshData) : Prop :=
  Forall (fun k => (0 <= k < vertex_count m)%Z) (indices m).


(** ** LoadConeMesh *)

Definition LoadConeMesh_data (radius height : R) (numSlices0 : Z) : MeshData :=
  let numSlices := clamp3 numSlices0 in
  let angleStep := 2 * Pi / fl numSlices in
  let bottomCenterIndex := 0%Z in
  let v_center := vtx 0 0 0 0 (-1) 0 0.5 0.5 in
  let v_rim := flat_map (fun i =>
      let a := fl i * angleStep in
      let x := radius * cos a in let z := radius * sin a in
      vtx x 0 z 0 (-1) 0 (0.5 + 0.5 * cos a) (0.5 + 0.5 * sin a))
    (range 0 numSlices) in
  let i_fan := flat_map (fun i =>
      [u32 bottomCenterIndex;
       u32 (bottomCenterIndex + ((i + 1) mod numSlices) + 1);
       u32 (bottomCenterIndex + i + 1)]) (range 0 numSlices) in
  let vs1 := v_center ++ v_rim in
  let apexIndex := (floats vs1 / 8)%Z in
  let v_apex := vtx 0 height 0 0 1 0 0.5 0.5 in
  let sideStart := (apexIndex + 1)%Z in
  let v_side := flat_map (fun i =>
      let a0 := fl i * angleStep in
      let a1 := fl (i + 1) * angleStep in
      let p0 := V3 (radius * cos a0) 0 (radius * sin a0) in
      let p1 := V3 (radius * cos a1) 0 (radius * sin a1) in
      let n := normalize (V3 ((vx p0 + vx p1) * 0.5) (height * 0.5)
                             ((vz p0 + vz p1) * 0.5)) in
      vtx (vx p0) (vy p0) (vz p0) (vx n) (vy n) (vz n) (fl i / fl numSlices) 1
      ++ vtx (vx p1) (vy p1) (vz p1) (vx n) (vy n) (vz n)
             (fl (i + 1) / fl numSlices) 1)
    (range 0 numSlices) in
  let i_side := flat_map (fun i =>
      [u32 apexIndex; u32 (sideStart + 2 * i); u32 (sideStart + 2 * i + 1)])
    (range 0 numSlices) in
  {| verts := vs1 ++ v_apex ++ v_side; indices := i_fan ++ i_side |}.

(** ** LoadBoxMesh *)

Definition LoadBoxMesh_data : MeshData :=
  {| verts :=
       (* Back Face *)
       vtx 0.5 0.5 (-0.5) 0 0 (-1) 0 1 ++ vtx 0.5 (-0.5) (-0.5) 0 0 (-1) 0 0 ++
       vtx (-0.5) (-0.5) (-0.5) 0 0 (-1) 1 0 ++ vtx (-0.5) 0.5 (-0.5) 0 0 (-1) 1 1 ++
       (* Bottom Face *)
       vtx (-0.5) (-0.5) 0.5 0 (-1) 0 0 1 ++ vtx (-0.5) (-0.5) (-0.5) 0 (-1) 0 0 0 ++
       vtx 0.5 (-0.5) (-0.5) 0 (-1) 0 1 0 ++ vtx 0.5 (-0.5) 0.5 0 (-1) 0 1 1 ++
       (* Left Face *)
       vtx (-0.5) 0.5 (-0.5) (-1) 0 0 0 1 ++ vtx (-0.5) (-0.5) (-0.5) (-1) 0 0 0 0 ++
       vtx (-0.5) (-0.5) 0.5 (-1) 0 0 1 0 ++ vtx (-0.5) 0.5 0.5 (-1) 0 0 1 1 ++
       (* Right Face *)
       vtx 0.5 0.5 0.5 1 0 0 0 1 ++ vtx 0.5 (-0.5) 0.5 1 0 0 0 0 ++
       vtx 0.5 (-0.5) (-0.5) 1 0 0 1 0 ++ vtx 0.5 0.5 (-0.5) 1 0 0 1 1 ++
       (* Top Face *)
       vtx (-0.5) 0.5 (-0.5) 0 1 0 0 1 ++ vtx (-0.5) 0.5 0.5 0 1 0 0 0 ++
       vtx 0.5 0.5 0.5 0 1 0 1 0 ++ vtx 0.5 0.5 (-0.5) 0 1 0 1 1 ++
       (* Front Face *)
       vtx (-0.5) 0.5 0.5 0 0 1 0 1 ++ vtx (-0.5) (-0.5) 0.5 0 0 1 0 0 ++
       vtx 0.5 (-0.5) 0.5 0 0 1 1 0 ++ vtx 0.5 0.5 0.5 0 0 1 1 1;
     indices :=
       [0; 1; 2; 2; 3; 0;  4; 5; 6; 6; 7; 4;  8; 9; 10; 10; 11; 8;
        12; 13; 14; 14; 15; 12;  16; 17; 18; 18; 19; 16;  20; 21; 22; 22; 23; 20]%Z |}.

(** ** LoadCylinderMesh *)

Definition LoadCylinderMesh_data (radius height : R) (numSlices0 : Z) : MeshData :=
  let numSlices := clamp3 numSlices0 in
  let angleStep := 2 * Pi / fl numSlices in
  let bottomCenterIndex := 0%Z in
  let vb := vtx 0 0 0 0 (-1) 0 0.5 0.5 ++
    flat_map (fun i =>
      let angle := fl i * angleStep in
      let x := radius * cos angle in let z := radius * sin angle in
      vtx x 0 z 0 (-1) 0 (0.5 + 0.5 * cos angle) (0.5 + 0.5 * sin angle))
    (range 0 (numSlices + 1)) in
  let ib := flat_map (fun i =>
      if (i <? numSlices)%Z then
        [u32 bottomCenterIndex; u32 (bottomCenterIndex + i + 1);
         u32 (bottomCenterIndex + (i + 1) mod numSlices + 1)]
      else []) (range 0 (numSlices + 1)) in
  let topCenterIndex := (floats vb / 8)%Z in
  let vt := vtx 0 height 0 0 1 0 0.5 0.5 ++
    flat_map (fun i =>
      let angle := fl i * angleStep in
      let x := radius * cos angle in let z := radius * sin angle in
      vtx x height z 0 1 0 (0.5 + 0.5 * cos angle) (0.5 + 0.5 * sin angle))
    (range 0 (numSlices + 1)) in
  let it := flat_map (fun i =>
      if (i <? numSlices)%Z then
        [u32 topCenterIndex; u32 (topCenterIndex + i + 1);
         u32 (topCenterIndex + (i + 1) mod numSlices + 1)]
      else []) (range 0 (numSlices + 1)) in
  let sideStartIndex := (floats (vb ++ vt) / 8)%Z in
  let vs := flat_map (fun i =>
      let angle := fl i * angleStep in
      let x := radius * cos angle in let z := radius * sin angle in
      let nx := cos angle in let nz := sin angle in
      vtx x 0 z nx 0 nz (fl i / fl numSlices) 1 ++
      vtx x height z nx 0 nz (fl i / fl numSlices) 0)
    (range 0 (numSlices + 1)) in
  let is := flat_map (fun i =>
      if (i <? numSlices)%Z then
        [u32 (sideStartIndex + i * 2); u32 (sideStartIndex + i * 2 + 1);
         u32 (sideStartIndex + (i + 1) * 2);
         u32 (sideStartIndex + i * 2 + 1); u32 (sideStartIndex + (i + 1) * 2);
         u32 (sideStartIndex + (i + 1) * 2 + 1)]
      else []) (range 0 (numSlices + 1)) in
  {| verts := vb ++ vt ++ vs; indices := ib ++ it ++ is |}.

(** ** LoadPlaneMesh *)

Definition LoadPlaneMesh_data (width height : R) : MeshData :=
  let halfWidth := width / 2 in
  let halfHeight := height / 2 in
  {| verts := vtx (- halfWidth) 0 halfHeight 0 1 0 0 0 ++
              vtx halfWidth 0 halfHeight 0 1 0 1 0 ++
              vtx halfWidth 0 (- halfHeight) 0 1 0 1 1 ++
              vtx (- halfWidth) 0 (- halfHeight) 0 1 0 0 1;
     indices := [0; 1; 2; 0; 2; 3]%Z |}.

(** ** LoadPrismMesh *)

Definition LoadPrismMesh_data : MeshData :=
  let ln := 0.894427180 in let lz := -0.447213590 in
  {| verts :=
       (* Back Face *)
       vtx 0.5 0.5 (-0.5) 0 0 (-1) 0 1 ++ vtx 0.5 (-0.5) (-0.5) 0 0 (-1) 0 0 ++
       vtx (-0.5) (-0.5) (-0.5) 0 0 (-1) 1 0 ++ vtx 0.5 0.5 (-0.5) 0 0 (-1) 0 1 ++
       vtx 0.5 0.5 (-0.5) 0 0 (-1) 0 1 ++ vtx (-0.5) 0.5 (-0.5) 0 0 (-1) 1 1 ++
       vtx (-0.5) (-0.5) (-0.5) 0 0 (-1) 1 0 ++ vtx 0.5 0.5 (-0.5) 0 0 (-1) 0 1 ++
       (* Bottom Face *)
       vtx 0.5 (-0.5) (-0.5) 0 (-1) 0 0 0 ++ vtx (-0.5) (-0.5) (-0.5) 0 (-1) 0 1 0 ++
       vtx 0 (-0.5) 0.5 0 (-1) 0 0.5 1 ++ vtx (-0.5) (-0.5) (-0.5) 0 (-1) 0 0 0 ++
       (* Left Face / slanted *)
       vtx (-0.5) (-0.5) (-0.5) ln 0 lz 0 0 ++ vtx (-0.5) 0.5 (-0.5) ln 0 lz 0 1 ++
       vtx 0 0.5 0.5 ln 0 lz 1 1 ++ vtx (-0.5) (-0.5) (-0.5) ln 0 lz 0 0 ++
       vtx (-0.5) (-0.5) (-0.5) ln 0 lz 0 0 ++ vtx 0 (-0.5) 0.5 ln 0 lz 1 0 ++
       vtx 0 0.5 0.5 ln 0 lz 1 1 ++ vtx (-0.5) (-0.5) (-0.5) ln 0 lz 0 0 ++
       (* Right Face / slanted *)
       vtx 0 0.5 0.5 (- ln) 0 lz 0 1 ++ vtx 0.5 0.5 (-0.5) (- ln) 0 lz 1 1 ++
       vtx 0.5 (-0.5) (-0.5) (- ln) 0 lz 1 0 ++ vtx 0 0.5 0.5 (- ln) 0 lz 0 1 ++
       vtx 0 0.5 0.5 (- ln) 0 lz 0 1 ++ vtx 0 (-0.5) 0.5 (- ln) 0 lz 0 0 ++
       vtx 0.5 (-0.5) (-0.5) (- ln) 0 lz 1 0 ++ vtx 0 0.5 0.5 (- ln) 0 lz 0 1 ++
       (* Top Face *)
       vtx 0.5 0.5 (-0.5) 0 1 0 0 0 ++ vtx 0 0.5 0.5 0 1 0 0.5 1 ++
       vtx (-0.5) 0.5 (-0.5) 0 1 0 1 0 ++ vtx 0.5 0.5 (-0.5) 0 1 0 0 0;
     indices := [0; 1; 2]%Z |}.

(** ** LoadPyramid3Mesh (no index buffer) *)

(** The [calculateNormal] lambda: normalized cross product. *)
Definition calculateNormal (x1 y1 z1 x2 y2 z2 : R) : vec3 :=
  let nx := y1 * z2 - z1 * y2 in
  let ny := z1 * x2 - x1 * z2 in
  let nz := x1 * y2 - y1 * x2 in
  let length := sqrt (nx * nx + ny * ny + nz * nz) in
  V3 (nx / length) (ny / length) (nz / length).

Record Face3 := { f_top : vec3; f_bottom1 : vec3; f_bottom2 : vec3; f_normal : vec3 }.

Definition LoadPyramid3Mesh_data : MeshData :=
  let halfBase := 0.5 in let height := 0.5 in
  let faces := [
    {| f_top := V3 0 height 0; f_bottom1 := V3 (- halfBase) (- height) halfBase;
       f_bottom2 := V3 0 (- height) (- halfBase);
       f_normal := calculateNormal (- halfBase) (- height - height) (halfBase - 0)
                     0 (- height - height) (- halfBase - halfBase) |};
    {| f_top := V3 0 height 0; f_bottom1 := V3 0 (- height) (- halfBase);
       f_bottom2 := V3 halfBase (- height) halfBase;
       f_normal := calculateNormal 0 (- height - height) (- halfBase - 0)
                     halfBase (- height - height) (halfBase - - halfBase) |};
    {| f_top := V3 0 height 0; f_bottom1 := V3 halfBase (- height) halfBase;
       f_bottom2 := V3 (- halfBase) (- height) halfBase;
       f_normal := calculateNormal halfBase (- height - height) (halfBase - 0)
                     (- halfBase) (- height - height) (halfBase - halfBase) |} ] in
  let vface := flat_map (fun f =>
      let n := f_normal f in
      vtx (vx (f_top f)) (vy (f_top f)) (vz (f_top f)) (vx n) (vy n) (vz n) 0.5 1 ++
      vtx (vx (f_bottom1 f)) (vy (f_bottom1 f)) (vz (f_bottom1 f)) (vx n) (vy n) (vz n) 0 0 ++
      vtx (vx (f_bottom2 f)) (vy (f_bottom2 f)) (vz (f_bottom2 f)) (vx n) (vy n) (vz n) 1 0)
    faces in
  {| verts := vface ++
       vtx (- halfBase) (- height) halfBase 0 (-1) 0 0 1 ++
       vtx halfBase (- height) halfBase 0 (-1) 0 1 1 ++
       vtx 0 (- height) (- halfBase) 0 (-1) 0 0.5 0;
     indices := [] |}.

(** ** LoadPyramid4Mesh (no index buffer) *)

Definition LoadPyramid4Mesh_data (baseSize height : R) : MeshData :=
  let halfBase := baseSize / 2 in
  let bn := V3 0 (-1) 0 in
  let vbottom :=
    vtx (- halfBase) (- halfBase) halfBase (vx bn) (vy bn) (vz bn) 0 1 ++
    vtx (- halfBase) (- halfBase) (- halfBase) (vx bn) (vy bn) (vz bn) 0 0 ++
    vtx halfBase (- halfBase) (- halfBase) (vx bn) (vy bn) (vz bn) 1 0 ++
    vtx (- halfBase) (- halfBase) halfBase (vx bn) (vy bn) (vz bn) 0 1 ++
    vtx halfBase (- halfBase) (- halfBase) (vx bn) (vy bn) (vz bn) 1 0 ++
    vtx halfBase (- halfBase) halfBase (vx bn) (vy bn) (vz bn) 1 1 in
  let top := V3 0 (height / 2) 0 in
  (* faces as (top, bottomLeft, bottomRight) *)
  let faces := [
    (top, V3 (- halfBase) (- halfBase) (- halfBase), V3 (- halfBase) (- halfBase) halfBase);
    (top, V3 halfBase (- halfBase) (- halfBase), V3 (- halfBase) (- halfBase) (- halfBase));
    (top, V3 halfBase (- halfBase) halfBase, V3 halfBase (- halfBase) (- halfBase));
    (top, V3 (- halfBase) (- halfBase) halfBase, V3 halfBase (- halfBase) halfBase) ] in
  let vface := flat_map (fun f =>
      let '(t, bl, br) := f in
      let u := vsub br bl in let v := vsub t bl in
      let n := normalize (vcross u v) in
      vtx (vx t) (vy t) (vz t) (vx n) (vy n) (vz n) 0.5 1 ++
      vtx (vx bl) (vy bl) (vz bl) (vx n) (vy n) (vz n) 0 0 ++
      vtx (vx br) (vy br) (vz br) (vx n) (vy n) (vz n) 1 0) faces in
  {| verts := vbottom ++ vface; indices := [] |}.

(** ** LoadSphereMesh and LoadHemisphereMesh *)

(** The latitude/longitude grid shared by the sphere and hemisphere:
    for each cell, the two triangles
    [(first, second, first + 1)] and [(second, second + 1, first + 1)]. *)
Definition sphere_grid_indices (rows longitudeSegments : Z) : list Z :=
  flat_map (fun lat => flat_map (fun lon =>
      let first := (lat * (longitudeSegments + 1) + lon)%Z in
      let second := (first + longitudeSegments + 1)%Z in
      [u32 first; u32 second; u32 (first + 1);
       u32 second; u32 (second + 1); u32 (first + 1)])
    (range 0 longitudeSegments)) (range 0 rows).

Definition sphere_vertex (radius theta : R) (lon longitudeSegments : Z) (v : R) : list R :=
  let phi := fl (lon * 2) * Pi / fl longitudeSegments in
  let x := radius * sin theta * cos phi in
  let y := radius * cos theta in
  let z := radius * sin theta * sin phi in
  let nx := sin theta * cos phi in
  let ny := cos theta in
  let nz := sin theta * sin phi in
  let u := 1 - fl lon / fl longitudeSegments in
  vtx x y z nx ny nz u v.

Definition LoadSphereMesh_data (latitudeSegments longitudeSegments : Z) (radius : R)
  : MeshData :=
  {| verts := flat_map (fun lat =>
        let theta := fl lat * Pi / fl latitudeSegments in
        flat_map (fun lon =>
          sphere_vertex radius theta lon longitudeSegments
            (1 - fl lat / fl latitudeSegments))
        (range 0 (longitudeSegments + 1))) (range 0 (latitudeSegments + 1));
     indices := sphere_grid_indices latitudeSegments longitudeSegments |}.

Definition LoadHemisphereMesh_data (latitudeSegments longitudeSegments : Z) (radius : R)
  : MeshData :=
  let hemiLatSegments := Z.quot latitudeSegments 2 in
  {| verts := flat_map (fun lat =>
        let theta := fl lat * Pi / fl latitudeSegments in
        flat_map (fun lon =>
          sphere_vertex radius theta lon longitudeSegments
            (1 - fl lat / fl hemiLatSegments))
        (range 0 (longitudeSegments + 1))) (range 0 (hemiLatSegments + 1));
     indices := sphere_grid_indices hemiLatSegments longitudeSegments |}.

(** ** LoadTaperedCylinderMesh *)

Definition LoadTaperedCylinderMesh_data (bottomRadius topRadius height : R)
  (numSlices0 : Z) : MeshData :=
  let numSlices := clamp3 numSlices0 in
  let angleStep := 2 * Pi / fl numSlices in
  let bottomCenterIndex := 0%Z in
  let vb := vtx 0 0 0 0 (-1) 0 0.5 0.5 ++
    flat_map (fun i =>
      let a := fl i * angleStep in
      vtx (bottomRadius * cos a) 0 (bottomRadius * sin a) 0 (-1) 0
          (0.5 + 0.5 * cos a) (0.5 + 0.5 * sin a)) (range 0 numSlices) in
  let ib := flat_map (fun i =>
      [u32 bottomCenterIndex; u32 (bottomCenterIndex + 1 + i);
       u32 (bottomCenterIndex + 1 + (i + 1) mod numSlices)]) (range 0 numSlices) in
  let topCenterIndex := (floats vb / 8)%Z in
  let vt := vtx 0 height 0 0 1 0 0.5 0.5 ++
    flat_map (fun i =>
      let a := fl i * angleStep in
      vtx (topRadius * cos a) height (topRadius * sin a) 0 1 0
          (0.5 + 0.5 * cos a) (0.5 + 0.5 * sin a)) (range 0 numSlices) in
  let it := flat_map (fun i =>
      [u32 topCenterIndex; u32 (topCenterIndex + 1 + (i + 1) mod numSlices);
       u32 (topCenterIndex + 1 + i)]) (range 0 numSlices) in
  let sideStartIndex := (floats (vb ++ vt) / 8)%Z in
  let slope := (bottomRadius - topRadius) / height in
  let vs := flat_map (fun i =>
      let a := fl i * angleStep in
      let cb := cos a in let sb := sin a in
      let n := normalize (V3 cb slope sb) in
      vtx (bottomRadius * cb) 0 (bottomRadius * sb) (vx n) (vy n) (vz n)
          (fl i / fl numSlices) 1 ++
      vtx (topRadius * cb) height (topRadius * sb) (vx n) (vy n) (vz n)
          (fl i / fl numSlices) 0) (range 0 numSlices) in
  let is := flat_map (fun i =>
      let iNext := ((i + 1) mod numSlices)%Z in
      let B := u32 (sideStartIndex + 2 * i) in
      let T := u32 (B + 1) in
      let Bn := u32 (sideStartIndex + 2 * iNext) in
      let Tn := u32 (Bn + 1) in
      [B; Bn; T; T; Bn; Tn]) (range 0 numSlices) in
  {| verts := vb ++ vt ++ vs; indices := ib ++ it ++ is |}.

(** ** LoadTorusMesh *)

(** The rectangular grid of the torus, spring, curved cone and tapered
    torus: rows [0 <= i < rowCount], columns [0 <= j < cols], row stride
    [cols + 1]. *)
Definition grid_indices (rowCount cols : Z) : list Z :=
  flat_map (fun i => flat_map (fun j =>
      let current := (i * (cols + 1) + j)%Z in
      let next := ((i + 1) * (cols + 1) + j)%Z in
      [u32 current; u32 next; u32 (current + 1);
       u32 (current + 1); u32 next; u32 (next + 1)])
    (range 0 cols)) (range 0 rowCount).

Definition LoadTorusMesh_data (mainRadius tubeRadius0 : R)
  (mainSegments0 tubeSegments0 : Z) : MeshData :=
  let mainSegments := imax 3 mainSegments0 in
  let tubeSegments := imax 3 tubeSegments0 in
  let tubeRadius := Rmax 0.01 tubeRadius0 in
  let mainSegmentStep := 2 * Pi / fl mainSegments in
  let tubeSegmentStep := 2 * Pi / fl tubeSegments in
  {| verts := flat_map (fun i =>
        let mainAngle := fl i * mainSegmentStep in
        let cosMain := cos mainAngle in let sinMain := sin mainAngle in
        flat_map (fun j =>
          let tubeAngle := fl j * tubeSegmentStep in
          let cosTube := cos tubeAngle in let sinTube := sin tubeAngle in
          let x := (mainRadius + tubeRadius * cosTube) * cosMain in
          let y := (mainRadius + tubeRadius * cosTube) * sinMain in
          let z := tubeRadius * sinTube in
          let center := V3 (mainRadius * cosMain) (mainRadius * sinMain) 0 in
          let normal := normalize (vsub (V3 x y z) center) in
          vtx x y z (vx normal) (vy normal) (vz normal)
              (fl i / fl mainSegments) (fl j / fl tubeSegments))
        (range 0 (tubeSegments + 1))) (range 0 (mainSegments + 1));
     indices := grid_indices mainSegments tubeSegments |}.

(** ** LoadSpringMesh *)

Definition LoadSpringMesh_data (mainRadius tubeRadius : R)
  (mainSegments0 tubeSegments0 : Z) (springLength : R) : MeshData :=
  let mainSegments := imax 1 mainSegments0 in
  let tubeSegments := imax 8 tubeSegments0 in
  let mainAngleStep := 2 * Pi / fl tubeSegments in
  let heightStep := springLength / fl (mainSegments * tubeSegments) in
  {| verts := flat_map (fun i =>
        let mainAngle := fl i * mainAngleStep in
        let centerX := mainRadius * cos mainAngle in
        let centerY := mainRadius * sin mainAngle in
        let centerZ := fl i * heightStep in
        let tangent := normalize (V3 (- mainRadius * sin mainAngle)
                                     (mainRadius * cos mainAngle) heightStep) in
        let normal := normalize (V3 (- vy tangent) (vx tangent) 0) in
        let binormal := vcross tangent normal in
        flat_map (fun j =>
          let tubeAngle := fl j * 2 * Pi / fl tubeSegments in
          let tx := tubeRadius * cos tubeAngle in
          let ty := tubeRadius * sin tubeAngle in
          let point := vadd (vadd (V3 centerX centerY centerZ) (vscale normal tx))
                            (vscale binormal ty) in
          let normalVector := normalize (vadd (vscale normal tx) (vscale binormal ty)) in
          vtx (vx point) (vy point) (vz point)
              (vx normalVector) (vy normalVector) (vz normalVector)
              (fl i / fl (mainSegments * tubeSegments)) (fl j / fl tubeSegments))
        (range 0 (tubeSegments + 1))) (range 0 (mainSegments * tubeSegments + 1));
     indices := grid_indices (mainSegments * tubeSegments) tubeSegments |}.

(** ** LoadTubeMesh *)

Definition LoadTubeMesh_data (outerRadius innerRadius height : R) (numSlices0 : Z)
  : MeshData :=
  let numSlices := clamp3 numSlices0 in
  let angleStep := 2 * Pi / fl numSlices in
  let v := flat_map (fun i =>
      let angle := fl i * angleStep in
      let x := cos angle in let z := sin angle in
      vtx (outerRadius * x) 0 (outerRadius * z) 0 (-1) 0 (fl i / fl numSlices) 1 ++
      vtx (outerRadius * x) height (outerRadius * z) 0 1 0 (fl i / fl numSlices) 0 ++
      vtx (innerRadius * x) 0 (innerRadius * z) 0 (-1) 0 (fl i / fl numSlices) 1 ++
      vtx (innerRadius * x) height (innerRadius * z) 0 1 0 (fl i / fl numSlices) 0)
    (range 0 (numSlices + 1)) in
  let walls := flat_map (fun i =>
      let outerBottom1 := u32 (i * 4) in
      let outerTop1 := u32 (outerBottom1 + 1) in
      let outerBottom2 := u32 (outerBottom1 + 4) in
      let outerTop2 := u32 (outerTop1 + 4) in
      let innerBottom1 := u32 (outerBottom1 + 2) in
      let innerTop1 := u32 (outerTop1 + 2) in
      let innerBottom2 := u32 (innerBottom1 + 4) in
      let innerTop2 := u32 (innerTop1 + 4) in
      [outerBottom1; outerBottom2; outerTop1; outerTop1; outerBottom2; outerTop2;
       innerBottom1; innerTop1; innerBottom2; innerTop1; innerTop2; innerBottom2])
    (range 0 numSlices) in
  let caps := flat_map (fun i =>
      let outerBottom1 := u32 (i * 4) in
      let innerBottom1 := u32 (outerBottom1 + 2) in
      let outerBottom2 := u32 (outerBottom1 + 4) in
      let innerBottom2 := u32 (innerBottom1 + 4) in
      let outerTop1 := u32 (outerBottom1 + 1) in
      let innerTop1 := u32 (innerBottom1 + 1) in
      let outerTop2 := u32 (outerBottom2 + 1) in
      let innerTop2 := u32 (innerBottom2 + 1) in
      [outerBottom1; outerBottom2; innerBottom1; innerBottom1; outerBottom2; innerBottom2;
       innerTop1; outerTop1; innerTop2; innerTop2; outerTop1; outerTop2])
    (range 0 numSlices) in
  {| verts := v; indices := walls ++ caps |}.

(** ** LoadFinMesh *)

Definition LoadFinMesh_data (baseLength topLength height thickness : R) : MeshData :=
  let halfThickness := thickness / 2 in
  let v0 := V3 0 0 (- halfThickness) in
  let v1 := V3 baseLength 0 (- halfThickness) in
  let v2 := V3 0 height (- halfThickness) in
  let v3 := V3 topLength height (- halfThickness) in
  let v4 := V3 0 0 halfThickness in
  let v5 := V3 baseLength 0 halfThickness in
  let v6 := V3 0 height halfThickness in
  let v7 := V3 topLength height halfThickness in
  let addVertex (p n : vec3) (tu tv : R) :=
    vtx (vx p) (vy p) (vz p) (vx n) (vy n) (vz n) tu tv in
  {| verts :=
       addVertex v0 (V3 0 0 (-1)) 0 0 ++ addVertex v1 (V3 0 0 (-1)) 1 0 ++
       addVertex v2 (V3 0 0 (-1)) 0 1 ++ addVertex v3 (V3 0 0 (-1)) 1 1 ++
       addVertex v4 (V3 0 0 1) 0 0 ++ addVertex v5 (V3 0 0 1) 1 0 ++
       addVertex v6 (V3 0 0 1) 0 1 ++ addVertex v7 (V3 0 0 1) 1 1 ++
       addVertex v2 (V3 0 1 0) 0 0 ++ addVertex v3 (V3 0 1 0) 0 0 ++
       addVertex v6 (V3 0 1 0) 0 0 ++ addVertex v7 (V3 0 1 0) 0 0 ++
       addVertex v0 (V3 0 (-1) 0) 0 0 ++ addVertex v1 (V3 0 (-1) 0) 0 0 ++
       addVertex v4 (V3 0 (-1) 0) 0 0 ++ addVertex v5 (V3 0 (-1) 0) 0 0 ++
       addVertex v0 (V3 (-1) 0 0) 0 0 ++ addVertex v2 (V3 (-1) 0 0) 0 0 ++
       addVertex v4 (V3 (-1) 0 0) 0 0 ++ addVertex v6 (V3 (-1) 0 0) 0 0 ++
       addVertex v1 (V3 1 0 0) 0 0 ++ addVertex v3 (V3 1 0 0) 0 0 ++
       addVertex v5 (V3 1 0 0) 0 0 ++ addVertex v7 (V3 1 0 0) 0 0;
     indices :=
       [0; 1; 2; 1; 3; 2;  4; 6; 5; 5; 6; 7;  8; 9; 10; 9; 11; 10;
        12; 14; 13; 14; 15; 13;  16; 18; 17; 17; 18; 19;  20; 21; 22; 21; 23; 22]%Z |}.

(** ** LoadCurvedConeMesh *)

Definition LoadCurvedConeMesh_data (numSlices0 curveSteps0 : Z)
  (radius height bendRadius : R) : MeshData :=
  let numSlices := clamp3 numSlices0 in
  let curveSteps := if (curveSteps0 <? 1)%Z then 1%Z else curveSteps0 in
  let angleStep := 2 * Pi / fl numSlices in
  let bendAngle := height / bendRadius in
  {| verts := flat_map (fun step =>
        let t := fl step / fl curveSteps in
        let arcTheta := t * bendAngle in
        let centerX := bendRadius * sin arcTheta in
        let centerY := bendRadius * (1 - cos arcTheta) in
        let centerZ := 0 in
        let tangent := V3 (cos arcTheta) (sin arcTheta) 0 in
        let normalDir := normalize (V3 (- vy tangent) (vx tangent) 0) in
        let coneRadius := radius * (1 - t) in
        flat_map (fun slice =>
          let angle := fl slice * angleStep in
          let localX := coneRadius * cos angle in
          let localZ := coneRadius * sin angle in
          let offset := vadd (vscale normalDir localX) (V3 0 0 localZ) in
          let position := vadd (V3 centerX centerY centerZ) offset in
          let normal := normalize offset in
          vtx (vx position) (vy position) (vz position)
              (vx normal) (vy normal) (vz normal) (fl slice / fl numSlices) t)
        (range 0 (numSlices + 1))) (range 0 (curveSteps + 1));
     indices := grid_indices curveSteps numSlices |}.

(** ** DrawPartialConeMesh (buffers built on every draw) *)

(** [glm::clamp] and [glm::radians]. *)
Definition fclamp (x lo hi : R) : R := Rmin (Rmax x lo) hi.
Definition radians (deg : R) : R := deg * 0.01745329251994329576923690768489.

Definition DrawPartialConeMesh_data (radius height : R) (numSlices0 : Z)
  (arcDegrees0 : R) : MeshData :=
  let numSlices := clamp3 numSlices0 in
  let arcDegrees := fclamp arcDegrees0 0 360 in
  let arcRadians := radians arcDegrees in
  let angleStep := arcRadians / fl numSlices in
  let halfArc := arcRadians * 0.5 in
  {| verts := flat_map (fun i =>
        let angle := - halfArc + fl i * angleStep in
        let x := radius * cos angle in let z := radius * sin angle in
        let u := fl i / fl numSlices in
        let n := normalize (V3 (cos angle) (radius / height) (sin angle)) in
        vtx x 0 z (vx n) (vy n) (vz n) u 1 ++
        vtx 0 height 0 (vx n) (vy n) (vz n) u 0) (range 0 (numSlices + 1));
     indices := flat_map (fun i =>
        let b0 := (2 * i)%Z in let a0 := (b0 + 1)%Z in
        let b1 := (2 * (i + 1))%Z in let a1 := (b1 + 1)%Z in
        [u32 b0; u32 a1; u32 a0; u32 b0; u32 b1; u32 a1]) (range 0 numSlices) |}.

(** ** DrawTaperedTorusMesh (buffers built on every draw) *)

(** [glm::mix(x, y, a) = x * (1 - a) + y * a] *)
Definition mix (x y a : R) : R := x * (1 - a) + y * a.

Definition DrawTaperedTorusMesh_data (mainRadius tubeRadiusStart tubeRadiusEnd : R)
  (mainSegments tubeSegments : Z) (sweepAngleRadians : R) : MeshData :=
  let mainStep := sweepAngleRadians / fl mainSegments in
  let tubeStep := 2 * Pi / fl tubeSegments in
  {| verts := flat_map (fun i =>
        let theta := fl i * mainStep in
        let sweepT := fl i / fl mainSegments in
        let tubeRadius := mix tubeRadiusStart tubeRadiusEnd sweepT in
        let center := V3 (mainRadius * cos theta) (mainRadius * sin theta) 0 in
        flat_map (fun j =>
          let phi := fl j * tubeStep in
          let normal := V3 (cos phi * cos theta) (cos phi * sin theta) (sin phi) in
          let position := vadd center (vscale normal tubeRadius) in
          let normalized := normalize normal in
          vtx (vx position) (vy position) (vz position)
              (vx normalized) (vy normalized) (vz normalized)
              (fl j / fl tubeSegments) sweepT)
        (range 0 (tubeSegments + 1))) (range 0 (mainSegments + 1));
     indices := grid_indices mainSegments tubeSegments |}.

(** ** DrawSineConeMesh (buffers built on every draw) *)

(** [pow(x, y)] for the arguments it receives here ([x >= 0], [y > 0]). *)
Definition cpow (x y : R) : R := if Rle_dec x 0 then 0 else Rpower x y.

(** [v[k] += d] on a [std::vector<glm::vec3>] (the index is in range). *)
Fixpoint add_at (l : list vec3) (k : nat) (d : vec3) : list vec3 :=
  match l, k with
  | [], _ => []
  | x :: r, O => vadd x d :: r
  | x :: r, S k' => x :: add_at r k' d
  end.

Definition sine_positions (baseRadius height flattenFactor sineAmplitude sineFrequency
  sinePhase : R) (radialSegments heightSegments : Z) : list vec3 :=
  let radialStep := 2 * (13176795 / 4194304) / fl radialSegments in (* [3.14159265f] *)
  let heightStep := height / fl heightSegments in
  flat_map (fun i =>
    let h := fl i * heightStep in
    let t := fl i / fl heightSegments in
    let taper := cpow (1 - t) 0.65 in
    let radius := baseRadius * taper in
    let sineOffset :=
      sineAmplitude * sin (sineFrequency * t * 2 * (13176795 / 4194304) + sinePhase) in (* [3.14159265f] *)
    map (fun j =>
      let theta := fl j * radialStep in
      let y := cos theta in let z := sin theta in
      let radial := normalize (V3 0 y z) in
      let offset := vscale radial radius in
      let oy := vy offset * (1 - flattenFactor) + sineOffset in
      V3 h oy (vz offset))
    (range 0 (radialSegments + 1))) (range 0 (heightSegments + 1)).

(** The cells [(i, j)] of the index loop, in loop order. *)
Definition sine_cells (radialSegments heightSegments : Z) : list (Z * Z) :=
  flat_map (fun i => map (fun j => (i, j)) (range 0 radialSegments))
    (range 0 heightSegments).

Definition pos_at (positions : list vec3) (k : Z) : vec3 := nth (Z.to_nat k) positions vzero.

(** One iteration of the index loop: accumulate the weighted face normals. *)
Definition sine_accumulate_cell (radialSegments : Z) (positions : list vec3)
  (normals : list vec3) (c : Z * Z) : list vec3 :=
  let '(i, j) := c in
  let curr := (i * (radialSegments + 1) + j)%Z in
  let next := ((i + 1) * (radialSegments + 1) + j)%Z in
  let i0 := curr in let i1 := next in let i2 := (curr + 1)%Z in let i3 := (next + 1)%Z in
  let p0 := pos_at positions i0 in let p1 := pos_at positions i1 in
  let p2 := pos_at positions i2 in let p3 := pos_at positions i3 in
  let n0 := vcross (vsub p1 p0) (vsub p2 p0) in
  let n1 := vcross (vsub p3 p2) (vsub p1 p2) in
  let area0 := vlength n0 in
  let area1 := vlength n1 in
  let nm := add_at normals (Z.to_nat i0) (vscale n0 area0) in
  let nm := add_at nm (Z.to_nat i1) (vscale (vscale (vadd n0 n1) 0.5) (area0 + area1)) in
  let nm := add_at nm (Z.to_nat i2) (vscale (vscale (vadd n0 n1) 0.5) (area0 + area1)) in
  add_at nm (Z.to_nat i3) (vscale n1 area1).

Definition sine_normals (radialSegments heightSegments : Z) (positions : list vec3)
  : list vec3 :=
  fold_left (sine_accumulate_cell radialSegments positions)
    (sine_cells radialSegments heightSegments) (map (fun _ => vzero) positions).

Definition DrawSineConeMesh_data (baseRadius height flattenFactor sineAmplitude
  sineFrequency sinePhase : R) (radialSegments heightSegments : Z) : MeshData :=
  let positions := sine_positions baseRadius height flattenFactor sineAmplitude
                     sineFrequency sinePhase radialSegments heightSegments in
  let normals := sine_normals radialSegments heightSegments positions in
  let idx := flat_map (fun c =>
      let '(i, j) := c in
      let curr := (i * (radialSegments + 1) + j)%Z in
      let next := ((i + 1) * (radialSegments + 1) + j)%Z in
      [u32 curr; u32 next; u32 (curr + 1); u32 (curr + 1); u32 next; u32 (next + 1)])
    (sine_cells radialSegments heightSegments) in
  {| verts := flat_map (fun k =>
        let pos := nth k positions vzero in
        let norm := normalize (nth k normals vzero) in
        let u := fl ((Z.of_nat k) mod (radialSegments + 1)) / fl radialSegments in
        let v := fl ((Z.of_nat k) / (radialSegments + 1)) / fl heightSegments in
        vtx (vx pos) (vy pos) (vz pos) (vx norm) (vy norm) (vz norm) u v)
      (seq 0 (length positions));
     indices := idx |}.

(** ** DrawSuperellipsoidMesh (buffers built on every draw) *)

(** The [sign] lambda: [(x > 0) - (x < 0)]. *)
Definition fsign (x : R) : R :=
  (if Rlt_dec 0 x then 1 else 0) - (if Rlt_dec x 0 then 1 else 0).

(** [if (x <= 0.0f) x = d;] *)
Definition clamp_pos (x d : R) : R := if Rle_dec x 0 then d else x.

Definition DrawSuperellipsoidMesh_data (scaleX0 scaleY0 scaleZ0 verticalExponent0
  horizontalExponent0 : R) (uSegments0 vSegments0 : Z) : MeshData :=
  let uSegments := clamp3 uSegments0 in
  let vSegments := clamp3 vSegments0 in
  let scaleX := clamp_pos scaleX0 0.1 in
  let scaleY := clamp_pos scaleY0 0.1 in
  let scaleZ := clamp_pos scaleZ0 0.1 in
  let verticalExponent := clamp_pos verticalExponent0 0.1 in
  let horizontalExponent := clamp_pos horizontalExponent0 0.1 in
  let PI := 13176795 / 4194304 in (* [3.14159265359f] *)
  let uAngle i := - PI * 0.5 + (fl i / fl uSegments) * PI in
  let vAngle j := - PI + (fl j / fl vSegments) * (2 * PI) in
  let cosU i := cos (uAngle i) in let sinU i := sin (uAngle i) in
  let cosV j := cos (vAngle j) in let sinV j := sin (vAngle j) in
  let vs := flat_map (fun i => flat_map (fun j =>
      let cu := cosU i in let su := sinU i in
      let cv := cosV j in let sv := sinV j in
      let cu_e := fsign cu * cpow (Rabs cu) verticalExponent in
      let su_e := fsign su * cpow (Rabs su) verticalExponent in
      let cv_e := fsign cv * cpow (Rabs cv) horizontalExponent in
      let sv_e := fsign sv * cpow (Rabs sv) horizontalExponent in
      let x := scaleX * cu_e * cv_e in
      let y := scaleY * cu_e * sv_e in
      let z := scaleZ * su_e in
      let normal := normalize (V3 (cu_e * cv_e / scaleX) (cu_e * sv_e / scaleY)
                                  (su_e / scaleZ)) in
      vtx x y z (vx normal) (vy normal) (vz normal)
          (fl j / fl vSegments) (fl i / fl uSegments))
    (range 0 (vSegments + 1))) (range 0 (uSegments + 1)) in
  let is := flat_map (fun i => flat_map (fun j =>
      let idx0 := u32 (i * (vSegments + 1) + j) in
      let idx1 := u32 ((i + 1) * (vSegments + 1) + j) in
      let idx2 := u32 (i * (vSegments + 1) + (j + 1)) in
      let idx3 := u32 ((i + 1) * (vSegments + 1) + (j + 1)) in
      [idx0; idx1; idx2; idx2; idx1; idx3])
    (range 0 vSegments)) (range 0 uSegments) in
  {| verts := vs; indices := is |}.

(** ** DrawSpiralMesh (buffers built on every draw) *)

(** [static_cast<int>] of a float: truncation toward zero. *)
Definition ftrunc (r : R) : Z := if Rle_dec 0 r then Int_part r else (- Int_part (- r))%Z.

(** [glm::clamp] on a scalar. *)
Definition vclamp (x lo hi : R) : R := Rmin (Rmax x lo) hi.

(** [glm::mat3(glm::rotate(glm::mat4(1.0f), angle, axis)) * p]. *)
Definition rotate_apply (angle : R) (v p : vec3) : vec3 :=
  let c := cos angle in let s := sin angle in
  let axis := normalize v in
  let temp := vscale axis (1 - c) in
  let r00 := c + vx temp * vx axis in
  let r01 := vx temp * vy axis + s * vz axis in
  let r02 := vx temp * vz axis - s * vy axis in
  let r10 := vy temp * vx axis - s * vz axis in
  let r11 := c + vy temp * vy axis in
  let r12 := vy temp * vz axis + s * vx axis in
  let r20 := vz temp * vx axis + s * vy axis in
  let r21 := vz temp * vy axis - s * vx axis in
  let r22 := c + vz temp * vz axis in
  V3 (r00 * vx p + r10 * vy p + r20 * vz p)
     (r01 * vx p + r11 * vy p + r21 * vz p)
     (r02 * vx p + r12 * vy p + r22 * vz p).

(** The centerline loop, with its [break] once [theta > totalAngle]. *)
Fixpoint spiral_centers (spiralStep totalAngle loopSpacing PI : R) (is : list Z)
  : list vec3 :=
  match is with
  | [] => []
  | i :: rest =>
      let theta := fl i * spiralStep in
      if Rlt_dec totalAngle theta then []
      else
        let radius := loopSpacing * theta / (2 * PI) in
        V3 (radius * cos theta) (radius * sin theta) 0
        :: spiral_centers spiralStep totalAngle loopSpacing PI rest
  end.

(** The frame loop: [(normal, binormal)] of each ring; ring 0 builds it from
    [worldUp], ring [i > 0] rotates [prevNormal] from [tangents[i-1]] onto
    [tangents[i]]. *)
Fixpoint spiral_frames (worldUp : vec3) (tangents : list vec3)
  (prevTangent : option vec3) (prevNormal : vec3) : list (vec3 * vec3) :=
  match tangents with
  | [] => []
  | tangent :: rest =>
      let fr :=
        match prevTangent with
        | None =>
            let binormal := normalize (vcross tangent worldUp) in
            let normal := normalize (vcross binormal tangent) in
            (normal, binormal)
        | Some v =>
            let w := tangent in
            let axis := normalize (vcross v w) in
            let angle := acos (vclamp (vdot v w) (-1) 1) in
            let normal := normalize (rotate_apply angle axis prevNormal) in
            let binormal := normalize (vcross tangent normal) in
            (normal, binormal)
        end in
      fr :: spiral_frames worldUp rest (Some tangent) (fst fr)
  end.

(** The ring loop of DrawSpiralMesh: [tubeSegments] vertices per ring. *)
Definition spiral_tube_verts (tubeRadius flattenFactor tubeStep : R)
  (tubeSegments ringCount : Z) (centers : list vec3) (frames : list (vec3 * vec3))
  : list R :=
  flat_map (fun i =>
    let sweepT := fl i / fl (ringCount - 1)%Z in
    let center := nth (Z.to_nat i) centers vzero in
    let fr := nth (Z.to_nat i) frames (vzero, vzero) in
    let normal := fst fr in let binormal := snd fr in
    flat_map (fun j =>
      let phi := fl j * tubeStep in
      let x := cos phi in let y := sin phi in
      let offset := vadd (vscale (vscale normal x) (1 - flattenFactor))
                         (vscale binormal y) in
      let position := vadd center (vscale offset tubeRadius) in
      let normalVec := normalize offset in
      vtx (vx position) (vy position) (vz position)
          (vx normalVec) (vy normalVec) (vz normalVec)
          (fl j / fl tubeSegments) sweepT)
    (range 0 tubeSegments)) (range 0 ringCount).

(** The hemisphere cap loop of DrawSpiralMesh: rings [1 .. capRings]. *)
Definition spiral_cap_verts (tubeRadius flattenFactor tubeStep PI : R)
  (capRings capSegments : Z) (capCenter capTangent capNormal capBinormal : vec3)
  : list R :=
  flat_map (fun i =>
    let theta := (fl i * PI * 0.5) / fl capRings in
    let r := sin theta in let z := cos theta in
    flat_map (fun j =>
      let phi := fl j * tubeStep in
      let x := cos phi in let y := sin phi in
      let radial := vadd (vscale (vscale capNormal x) (1 - flattenFactor))
                         (vscale capBinormal y) in
      let offset := vadd (vscale (vscale radial r) tubeRadius)
                         (vscale (vscale capTangent z) tubeRadius) in
      let position := vsub capCenter offset in
      let normalVec := normalize (vscale offset (-1)) in
      vtx (vx position) (vy position) (vz position)
          (vx normalVec) (vy normalVec) (vz normalVec)
          (fl j / fl capSegments) (- z))
    (range 0 capSegments)) (range 1 (capRings + 1)%Z).

Local Open Scope Z_scope.

(** "Connect tube rings with triangles". *)
Definition spiral_tube_indices (ringCount ringStride tubeSegments : Z) : list Z :=
  flat_map (fun i => flat_map (fun j =>
      let curr := i * ringStride + j in
      let next := (i + 1) * ringStride + j in
      let currNext := i * ringStride + Z.rem (j + 1) tubeSegments in
      let nextNext := (i + 1) * ringStride + Z.rem (j + 1) tubeSegments in
      map u32 [curr; next; currNext; currNext; next; nextNext])
    (range 0 tubeSegments)) (range 0 (ringCount - 1)).

(** "Stitch hemisphere rings together". *)
Definition spiral_cap_indices (baseIndex capRings capSegments : Z) : list Z :=
  flat_map (fun i => flat_map (fun j =>
      let curr := baseIndex + i * capSegments + j in
      let next := baseIndex + (i + 1) * capSegments + j in
      let currNext := baseIndex + i * capSegments + Z.rem (j + 1) capSegments in
      let nextNext := baseIndex + (i + 1) * capSegments + Z.rem (j + 1) capSegments in
      map u32 [curr; next; currNext; currNext; next; nextNext])
    (range 0 capSegments)) (range 0 (capRings - 1)).

(** "Connect hemisphere to first tube ring". *)
Definition spiral_seam_indices (baseIndex capRings capSegments : Z)
  (ringStartIndices : list Z) : list Z :=
  let rsi k := nth (Z.to_nat k) ringStartIndices 0 in
  flat_map (fun j =>
      let capRing := baseIndex + (capRings - 1) * capSegments + j in
      let tubeRing := rsi j in
      let capNext := baseIndex + (capRings - 1) * capSegments + Z.rem (j + 1) capSegments in
      let tubeNext := rsi (Z.rem (j + 1) capSegments) in
      map u32 [capRing; tubeRing; capNext; capNext; tubeRing; tubeNext])
    (range 0 capSegments).

Local Open Scope R_scope.

(** DrawSpiralMesh.  The tangent loop reads [centers[1]] and the cap reads
    [centers[0]] and [tangents[0]] whatever the ring count, and the
    cap-to-tube seam reads [ringStartIndices[j]], which is filled only by
    ring 0: with fewer than two rings the source reads out of bounds
    (undefined behaviour), modelled as [None]. *)
Definition DrawSpiralMesh_data (tubeRadius flattenFactor loopSpacing numLoops : R)
  (tubeSegments spiralSegments : Z) : option MeshData :=
  let PI := 13176795 / 4194304 in (* [3.14159265f] *)
  let totalAngle := numLoops * 2 * PI in
  let spiralStep := totalAngle / fl spiralSegments in
  let tubeStep := 2 * PI / fl tubeSegments in
  let startAngle := PI in
  let startSegment := ftrunc (startAngle / spiralStep) in
  let worldUp := V3 1 0 0 in
  let centers := spiral_centers spiralStep totalAngle loopSpacing PI
                   (range startSegment (spiralSegments + 1)) in
  let ringCount := Z.of_nat (length centers) in
  if (ringCount <? 2)%Z then None else
  let c k := nth (Z.to_nat k) centers vzero in
  let tangents := map (fun i =>
      if (i =? 0)%Z then normalize (vsub (c 1%Z) (c 0%Z))
      else if (i =? ringCount - 1)%Z then
        normalize (vsub (c (ringCount - 1)%Z) (c (ringCount - 2)%Z))
      else normalize (vsub (c (i + 1)%Z) (c (i - 1)%Z)))
    (range 0 ringCount) in
  let ringStride := tubeSegments in
  let frames := spiral_frames worldUp tangents None vzero in
  let tube_vs := spiral_tube_verts tubeRadius flattenFactor tubeStep tubeSegments
                   ringCount centers frames in
  let ringStartIndices := flat_map (fun i =>
      if (i =? 0)%Z then range 0 tubeSegments else []) (range 0 ringCount) in
  let tube_is := spiral_tube_indices ringCount ringStride tubeSegments in
  let capCenter := c 0%Z in
  let capTangent := nth 0 tangents vzero in
  let capBinormal := normalize (vcross capTangent worldUp) in
  let capNormal := normalize (vcross capBinormal capTangent) in
  let capRings := 8%Z in
  let capSegments := tubeSegments in
  let baseIndex := (floats tube_vs / 8)%Z in
  let cap_vs := spiral_cap_verts tubeRadius flattenFactor tubeStep PI capRings
                  capSegments capCenter capTangent capNormal capBinormal in
  let stitch_is := spiral_cap_indices baseIndex capRings capSegments in
  let seam_is := spiral_seam_indices baseIndex capRings capSegments ringStartIndices in
  Some {| verts := tube_vs ++ cap_vs; indices := tube_is ++ stitch_is ++ seam_is |}.

(** ** The generators as one dispatch *)

(** One call of a shape generator, with its parameters.  The two extra tori
    ([LoadExtraTorusMesh1/2]) build no index buffer ([nIndices = 0]) and are
    drawn with [glDrawArrays]; they are not embedded. *)
Inductive ShapeCall :=
| CallLoadBoxMesh
| CallLoadConeMesh (radius height : R) (numSlices : Z)
| CallLoadCylinderMesh (radius height : R) (numSlices : Z)
| CallLoadPlaneMesh (width height : R)
| CallLoadPrismMesh
| CallLoadPyramid3Mesh
| CallLoadPyramid4Mesh (baseSize height : R)
| CallLoadSphereMesh (latitudeSegments longitudeSegments : Z) (radius : R)
| CallLoadHemisphereMesh (latitudeSegments longitudeSegments : Z) (radius : R)
| CallLoadTaperedCylinderMesh (bottomRadius topRadius height : R) (numSlices : Z)
| CallLoadTorusMesh (mainRadius tubeRadius : R) (mainSegments tubeSegments : Z)
| CallLoadSpringMesh (mainRadius tubeRadius : R) (mainSegments tubeSegments : Z)
    (springLength : R)
| CallLoadTubeMesh (outerRadius innerRadius height : R) (numSlices : Z)
| CallLoadFinMesh (baseLength topLength height thickness : R)
| CallLoadCurvedConeMesh (numSlices curveSteps : Z) (radius height bendRadius : R)
| CallDrawPartialConeMesh (radius height : R) (numSlices : Z) (arcDegrees : R)
| CallDrawTaperedTorusMesh (mainRadius tubeRadiusStart tubeRadiusEnd : R)
    (mainSegments tubeSegments : Z) (sweepAngleRadians : R)
| CallDrawSineConeMesh (baseRadius height flattenFactor sineAmplitude sineFrequency
    sinePhase : R) (radialSegments heightSegments : Z)
| CallDrawSuperellipsoidMesh (scaleX scaleY scaleZ verticalExponent horizontalExponent : R)
    (uSegments vSegments : Z)
| CallDrawSpiralMesh (tubeRadius flattenFactor loopSpacing numLoops : R)
    (tubeSegments spiralSegments : Z).

(** The buffers a call emits; [None] where the source has undefined behaviour. *)
Definition generate (c : ShapeCall) : option MeshData :=
  match c with
  | CallLoadBoxMesh => Some LoadBoxMesh_data
  | CallLoadConeMesh r h n => Some (LoadConeMesh_data r h n)
  | CallLoadCylinderMesh r h n => Some (LoadCylinderMesh_data r h n)
  | CallLoadPlaneMesh w h => Some (LoadPlaneMesh_data w h)
  | CallLoadPrismMesh => Some LoadPrismMesh_data
  | CallLoadPyramid3Mesh => Some LoadPyramid3Mesh_data
  | CallLoadPyramid4Mesh b h => Some (LoadPyramid4Mesh_data b h)
  | CallLoadSphereMesh la lo r => Some (LoadSphereMesh_data la lo r)
  | CallLoadHemisphereMesh la lo r => Some (LoadHemisphereMesh_data la lo r)
  | CallLoadTaperedCylinderMesh b t h n => Some (LoadTaperedCylinderMesh_data b t h n)
  | CallLoadTorusMesh mr tr ms ts => Some (LoadTorusMesh_data mr tr ms ts)
  | CallLoadSpringMesh mr tr ms ts l => Some (LoadSpringMesh_data mr tr ms ts l)
  | CallLoadTubeMesh o i h n => Some (LoadTubeMesh_data o i h n)
  | CallLoadFinMesh b t h th => Some (LoadFinMesh_data b t h th)
  | CallLoadCurvedConeMesh n cs r h b => Some (LoadCurvedConeMesh_data n cs r h b)
  | CallDrawPartialConeMesh r h n a => Some (DrawPartialConeMesh_data r h n a)
  | CallDrawTaperedTorusMesh mr t0 t1 ms ts sw =>
      Some (DrawTaperedTorusMesh_data mr t0 t1 ms ts sw)
  | CallDrawSineConeMesh br h f sa sf sp rs hs =>
      Some (DrawSineConeMesh_data br h f sa sf sp rs hs)
  | CallDrawSuperellipsoidMesh sx sy sz ve he us vs =>
      Some (DrawSuperellipsoidMesh_data sx sy sz ve he us vs)
  | CallDrawSpiralMesh tr ff ls nl ts ss => DrawSpiralMesh_data tr ff ls nl ts ss
  end.

(** ** The ShapeMeshes object: mesh records and the memory-layout flag *)

(** The fields of [GLMesh] the claims are about, with the buffers uploaded
    by [glBufferData]. *)
Record GLMesh := {
  nVertices : Z;
  nIndices : Z;
  vertex_buffer : list R;
  index_buffer : list Z }.

(** Size in bytes of the [GL_ARRAY_BUFFER] upload:
    [verts.size() * sizeof(GLfloat)]. *)
Definition byte_length (g : GLMesh) : Z := (4 * floats (vertex_buffer g))%Z.

(** The object state the claims are about: [m_bMemoryLayoutDone], and the
    number of times [SetShaderMemoryLayout] has run. *)
Record ShapeMeshesState := {
  m_bMemoryLayoutDone : bool;
  layout_calls : nat }.

(** [ShapeMeshes()]: the header initialises [m_bMemoryLayoutDone = false]. *)
Definition ShapeMeshes_new : ShapeMeshesState :=
  {| m_bMemoryLayoutDone := false; layout_calls := 0 |}.

(** [SetShaderMemoryLayout]: three [glVertexAttribPointer] bindings; it does
    not assign [m_bMemoryLayoutDone]. *)
Definition SetShaderMemoryLayout (s : ShapeMeshesState) : ShapeMeshesState :=
  {| m_bMemoryLayoutDone := m_bMemoryLayoutDone s; layout_calls := S (layout_calls s) |}.

(** [InitializeMesh(mesh, verts, indices)]. *)
Definition InitializeMesh (s : ShapeMeshesState) (verts : list R) (indices : list Z)
  : ShapeMeshesState * GLMesh :=
  let mesh := {| nVertices := u32 (floats verts / 8);
                 nIndices := u32 (Z.of_nat (length indices));
                 vertex_buffer := verts; index_buffer := indices |} in
  let s := if negb (m_bMemoryLayoutDone s) then SetShaderMemoryLayout s else s in
  (s, mesh).

(** The generators that finish with [InitializeMesh]. *)
Definition uses_InitializeMesh (c : ShapeCall) : bool :=
  match c with
  | CallLoadBoxMesh | CallLoadConeMesh _ _ _ | CallLoadCylinderMesh _ _ _
  | CallLoadPlaneMesh _ _ | CallLoadPrismMesh | CallLoadPyramid3Mesh
  | CallLoadPyramid4Mesh _ _ | CallLoadSphereMesh _ _ _ | CallLoadHemisphereMesh _ _ _
  | CallLoadTaperedCylinderMesh _ _ _ _ | CallLoadTorusMesh _ _ _ _
  | CallLoadSpringMesh _ _ _ _ _ | CallLoadTubeMesh _ _ _ _
  | CallLoadCurvedConeMesh _ _ _ _ _ => true
  | _ => false
  end.

(** A [Load*Mesh] call that goes through [InitializeMesh]: the object state
    after it and the mesh record it fills. *)
Definition load_mesh (s : ShapeMeshesState) (c : ShapeCall)
  : option (ShapeMeshesState * GLMesh) :=
  if uses_InitializeMesh c then
    match generate c with
    | Some m => Some (InitializeMesh s (verts m) (indices m))
    | None => None
    end
  else None.

(** A sequence of such calls on one object. *)
Fixpoint load_meshes (s : ShapeMeshesState) (cs : list ShapeCall) : ShapeMeshesState :=
  match cs with
  | [] => s
  | c :: rest =>
      match load_mesh s c with
      | Some (s', _) => load_meshes s' rest
      | None => load_meshes s rest
      end
  end.

(** ** Views of the emitted buffers *)

(** The interleaved vertex buffer read back vertex by vertex (stride 8):
    for each vertex, its position [y] and its normal. *)
Fixpoint vertex_attrs (l : list R) : list (R * vec3) :=
  match l with
  | _ :: y :: _ :: nx :: ny :: nz :: _ :: _ :: r => (y, V3 nx ny nz) :: vertex_attrs r
  | _ => []
  end.

(** The eight floats of vertex [k] of an interleaved buffer. *)
Definition vertex_at (l : list R) (k : nat) : list R := firstn 8 (skipn (8 * k) l).

(** The index buffer read as [GL_TRIANGLES]. *)
Fixpoint triangles (l : list Z) : list (Z * Z * Z) :=
  match l with
  | a :: b :: c :: r => (a, b, c) :: triangles r
  | _ => []
  end.

(** DrawPartialConeMesh pushes two vertices (base, apex) per angular sample
    [i = 0 .. numSlices]: vertex [k] belongs to sample [k / 2]. *)
Definition partial_cone_column (k : Z) : Z := (k / 2)%Z.

Local Open Scope Z_scope.


(** ** Drawing: the GL calls issued by the Draw functions *)

(** The GL calls of the Draw functions, in the order they are issued.
    [glPolygonMode true] is [GL_LINE], [false] is [GL_FILL]; the
    [glDrawElements] offset is counted in indices (the source passes it
    in bytes, [offset * sizeof(GLuint)]); a [cerr] is a line written to
    [std::cerr]. *)
Inductive GLenum := GL_TRIANGLES | GL_TRIANGLE_STRIP.

Inductive GLCall :=
| glPolygonMode (line : bool)
| glBindVertexArray (vao : Z)
| glDrawElements (mode : GLenum) (count offset : Z)
| glDrawArrays (mode : GLenum) (first count : Z)
| cerr (msg : String.string).

(** A [GLMesh] member of [ShapeMeshes] with the fields the Draw functions
    read: its VAO name, [numSlices], and the counts and buffers. *)
Record MeshSlot := { vao : Z; numSlices : Z; mesh : GLMesh }.

(** [GLMesh m_XMesh;] before its Load function runs: every field is 0
    and no buffer is attached. *)
Definition empty_slot : MeshSlot :=
  {| vao := 0; numSlices := 0;
     mesh := {| nVertices := 0; nIndices := 0; vertex_buffer := []; index_buffer := [] |} |}.

(** A Load function ending in [InitializeMesh(m_XMesh, verts, indices)]:
    [glGenVertexArrays] gives the name [vao]; [numSlices] is the value the
    Load function stored, or the previous one. *)
Definition slot_of (s : ShapeMeshesState) (vao numSlices : Z) (m : MeshData) : MeshSlot :=
  {| vao := vao; numSlices := numSlices;
     mesh := snd (InitializeMesh s (verts m) (indices m)) |}.

(** [LoadConeMesh], [LoadCylinderMesh], [LoadTaperedCylinderMesh] store the
    clamped [numSlices] in the mesh before [InitializeMesh]. *)
Definition LoadConeMesh_slot (s : ShapeMeshesState) (vao : Z) (radius height : R)
  (numSlices : Z) : MeshSlot :=
  slot_of s vao (clamp3 numSlices) (LoadConeMesh_data radius height numSlices).

Definition LoadCylinderMesh_slot (s : ShapeMeshesState) (vao : Z) (radius height : R)
  (numSlices : Z) : MeshSlot :=
  slot_of s vao (clamp3 numSlices) (LoadCylinderMesh_data radius height numSlices).

Definition LoadTaperedCylinderMesh_slot (s : ShapeMeshesState) (vao : Z)
  (bottomRadius topRadius height : R) (numSlices : Z) : MeshSlot :=
  slot_of s vao (clamp3 numSlices)
    (LoadTaperedCylinderMesh_data bottomRadius topRadius height numSlices).

(** [LoadBoxMesh] does not touch [numSlices]. *)
Definition LoadBoxMesh_slot (s : ShapeMeshesState) (vao numSlices : Z) : MeshSlot :=
  slot_of s vao numSlices LoadBoxMesh_data.

(** [LoadFinMesh] does not call [InitializeMesh]: it uploads both buffers
    itself and sets [nIndices] only; [nVertices] keeps its value. *)
Definition LoadFinMesh_slot (old : MeshSlot) (vao : Z)
  (baseLength topLength height thickness : R) : MeshSlot :=
  let m := LoadFinMesh_data baseLength topLength height thickness in
  {| vao := vao; numSlices := numSlices old;
     mesh := {| nVertices := nVertices (mesh old);
                nIndices := Z.of_nat (length (indices m));
                vertex_buffer := verts m; index_buffer := indices m |} |}.

(** [SetWireframeMode]: [glPolygonMode(GL_FRONT_AND_BACK, wireframe ? GL_LINE : GL_FILL)]. *)
Definition SetWireframeMode (wireframe : bool) : list GLCall := [glPolygonMode wireframe].

(** The guard [if (m.vao == 0 || m.nIndices == 0) { std::cerr << msg; return; }]. *)
Definition not_initialized (m : MeshSlot) : bool :=
  orb (vao m =? 0) (nIndices (mesh m) =? 0).

(** Bind, one indexed draw of [count] indices from offset 0, unbind. *)
Definition draw_indexed (m : MeshSlot) (mode : GLenum) (count : Z) : list GLCall :=
  [glBindVertexArray (vao m); glDrawElements mode count 0; glBindVertexArray 0].

Definition DrawBoxMesh (m : MeshSlot) (wireframe : bool) : list GLCall :=
  if not_initialized m then [cerr "Error: Torus mesh not initialized properly."%string]
  else SetWireframeMode wireframe ++ draw_indexed m GL_TRIANGLES (nIndices (mesh m)).

(** [enum class BoxSide { back, bottom, left, right, top, front };] *)
Module BoxSide.
Inductive t := back | bottom | left | right | top | front.
End BoxSide.

Definition DrawBoxMeshSide (m : MeshSlot) (side : BoxSide.t) (wireframe : bool)
  : list GLCall :=
  if not_initialized m then [cerr "Error: BoxSide mesh not initialized properly."%string]
  else
    let indicesPerFace := 6 in
    let offset := match side with
      | BoxSide.front => 0 * indicesPerFace
      | BoxSide.back => 1 * indicesPerFace
      | BoxSide.left => 2 * indicesPerFace
      | BoxSide.right => 3 * indicesPerFace
      | BoxSide.top => 4 * indicesPerFace
      | BoxSide.bottom => 5 * indicesPerFace
      end in
    SetWireframeMode wireframe ++
    [glBindVertexArray (vao m); glDrawElements GL_TRIANGLES indicesPerFace offset;
     glBindVertexArray 0].

Definition DrawConeMesh (m : MeshSlot) (bDrawBottom wireframe : bool) : list GLCall :=
  if vao m =? 0 then []
  else
    let bottomCount := numSlices m * 3 in
    let sideCount := numSlices m * 3 in
    SetWireframeMode wireframe ++ [glBindVertexArray (vao m)] ++
    (if bDrawBottom then [glDrawElements GL_TRIANGLES bottomCount 0] else []) ++
    [glDrawElements GL_TRIANGLES sideCount bottomCount; glBindVertexArray 0].

Definition DrawCylinderMesh (m : MeshSlot) (bDrawTop bDrawBottom bDrawSides wireframe : bool)
  : list GLCall :=
  SetWireframeMode wireframe ++ [glBindVertexArray (vao m)] ++
  (if bDrawBottom then [glDrawElements GL_TRIANGLES (numSlices m * 3) 0] else []) ++
  (if bDrawTop then [glDrawElements GL_TRIANGLES (numSlices m * 3) (numSlices m * 3)]
   else []) ++
  (if bDrawSides then [glDrawElements GL_TRIANGLES (numSlices m * 6) (numSlices m * 6)]
   else []) ++
  [glBindVertexArray 0].

Definition DrawPlaneMesh (m : MeshSlot) (wireframe : bool) : list GLCall :=
  SetWireframeMode wireframe ++ draw_indexed m GL_TRIANGLE_STRIP (nIndices (mesh m)).

(** Bind, [glDrawArrays(mode, 0, nVertices)], unbind. *)
Definition draw_arrays (m : MeshSlot) (mode : GLenum) : list GLCall :=
  [glBindVertexArray (vao m); glDrawArrays mode 0 (nVertices (mesh m)); glBindVertexArray 0].

Definition DrawPrismMesh (m : MeshSlot) (wireframe : bool) : list GLCall :=
  SetWireframeMode wireframe ++ draw_arrays m GL_TRIANGLE_STRIP.

Definition DrawPyramid3Mesh (m : MeshSlot) (wireframe : bool) : list GLCall :=
  if nVertices (mesh m) =? 0 then [cerr "Error: Pyramid mesh not loaded or empty!"%string]
  else SetWireframeMode wireframe ++ draw_arrays m GL_TRIANGLE_STRIP.

Definition DrawPyramid4Mesh (m : MeshSlot) (wireframe : bool) : list GLCall :=
  if nVertices (mesh m) =? 0 then [cerr "Error: Pyramid mesh not loaded or has no vertices!"%string]
  else SetWireframeMode wireframe ++ draw_arrays m GL_TRIANGLE_STRIP.

Definition DrawSphereMesh (m : MeshSlot) (wireframe : bool) : list GLCall :=
  SetWireframeMode wireframe ++ draw_indexed m GL_TRIANGLES (nIndices (mesh m)).

Definition DrawHemisphereMesh (m : MeshSlot) (wireframe : bool) : list GLCall :=
  SetWireframeMode wireframe ++ draw_indexed m GL_TRIANGLES (nIndices (mesh m)).

(** [m_SphereMesh.nIndices / 2] is an unsigned division. *)
Definition DrawHalfSphereMesh (m : MeshSlot) (wireframe : bool) : list GLCall :=
  if not_initialized m
  then [cerr "Error: Half-Sphere mesh VAO or indices not properly initialized."%string]
  else SetWireframeMode wireframe ++ draw_indexed m GL_TRIANGLES (nIndices (mesh m) / 2).

Definition DrawFinMesh (m : MeshSlot) (wireframe : bool) : list GLCall :=
  [glPolygonMode wireframe] ++ draw_indexed m GL_TRIANGLES (nIndices (mesh m)) ++
  [glPolygonMode false].

Definition DrawFinSides (m : MeshSlot) : list GLCall :=
  [glBindVertexArray (vao m); glDrawElements GL_TRIANGLES 6 0;
   glDrawElements GL_TRIANGLES 6 6; glBindVertexArray 0].

Definition DrawFinFrontOnly (m : MeshSlot) : list GLCall :=
  [glBindVertexArray (vao m); glDrawElements GL_TRIANGLES 6 0; glBindVertexArray 0].

Definition DrawFinBackOnly (m : MeshSlot) : list GLCall :=
  [glBindVertexArray (vao m); glDrawElements GL_TRIANGLES 6 6; glBindVertexArray 0].

Definition DrawFinUntexturedSides (m : MeshSlot) : list GLCall :=
  [glBindVertexArray (vao m); glDrawElements GL_TRIANGLES 24 12; glBindVertexArray 0].

Definition DrawTaperedCylinderMesh (m : MeshSlot)
  (bDrawTop bDrawBottom bDrawSides wireframe : bool) : list GLCall :=
  let n := numSlices m in
  let bottomCount := n * 3 in let topCount := n * 3 in let sideCount := n * 6 in
  let bottomOff := 0 in let topOff := bottomCount in let sideOff := bottomCount + topCount in
  SetWireframeMode wireframe ++ [glBindVertexArray (vao m)] ++
  (if bDrawBottom then [glDrawElements GL_TRIANGLES bottomCount bottomOff] else []) ++
  (if bDrawTop then [glDrawElements GL_TRIANGLES topCount topOff] else []) ++
  (if bDrawSides then [glDrawElements GL_TRIANGLES sideCount sideOff] else []) ++
  [glBindVertexArray 0].

Definition DrawTorusMesh (m : MeshSlot) (wireframe : bool) : list GLCall :=
  if not_initialized m
  then [cerr "Error: Torus mesh VAO or indices not properly initialized."%string]
  else SetWireframeMode wireframe ++ draw_indexed m GL_TRIANGLES (nIndices (mesh m)).

Definition DrawHalfTorusMesh (m : MeshSlot) (wireframe : bool) : list GLCall :=
  if not_initialized m
  then [cerr "Error: Torus mesh VAO or indices not properly initialized."%string]
  else SetWireframeMode wireframe ++ draw_indexed m GL_TRIANGLES (nIndices (mesh m) / 2).

Definition DrawSpringMesh (m : MeshSlot) (wireframe : bool) : list GLCall :=
  if orb (vao m =? 0) (nVertices (mesh m) =? 0)
  then [cerr "Error: Spring mesh not initialized properly."%string]
  else SetWireframeMode wireframe ++ draw_indexed m GL_TRIANGLES (nIndices (mesh m)).

Definition DrawTubeMesh (m : MeshSlot) (wireframe : bool) : list GLCall :=
  if not_initialized m then [cerr "Error: Tube mesh not initialized properly."%string]
  else SetWireframeMode wireframe ++ draw_indexed m GL_TRIANGLES (nIndices (mesh m)).

(** [DrawCurvedConeMesh]: no wireframe argument and no guard. *)
Definition DrawCurvedConeMesh (m : MeshSlot) : list GLCall :=
  draw_indexed m GL_TRIANGLES (nIndices (mesh m)).

(** The deprecated wrappers: [if (!xWarned) { std::cerr << msg; xWarned = true; }]
    followed by the call; the flag is threaded through. *)
Definition deprecated (msg : String.string) (body : list GLCall) (warned : bool)
  : bool * list GLCall :=
  (true, (if negb warned then [cerr msg] else []) ++ body).

Definition DrawBoxMeshLines (box : MeshSlot) (boxWarned : bool) :=
  deprecated "Warning: DrawBoxMeshLines() is deprecated. Use DrawBoxMesh(true) instead."%string
    (DrawBoxMesh box true) boxWarned.

(** [DrawConeMesh(true)]: [bDrawBottom = true], [wireframe] at its default [false]. *)
Definition DrawConeMeshLines (cone : MeshSlot) (coneWarned : bool) :=
  deprecated "Warning: DrawConeMeshLines() is deprecated. Use DrawConeMesh(true) instead."%string
    (DrawConeMesh cone true false) coneWarned.

(** [DrawCylinderMesh(true)]: [bDrawTop = true], the others at their defaults. *)
Definition DrawCylinderMeshLines (cyl : MeshSlot) (cylinderWarned : bool) :=
  deprecated
    "Warning: DrawCylinderMeshLines() is deprecated. Use DrawCylinderMesh(true) instead."%string
    (DrawCylinderMesh cyl true true true false) cylinderWarned.

Definition DrawPlaneMeshLines (plane : MeshSlot) (planeWarned : bool) :=
  deprecated "Warning: DrawPlaneMeshLines() is deprecated. Use DrawPlaneMesh(true) instead."%string
    (DrawPlaneMesh plane true) planeWarned.

Definition DrawPrismMeshLines (prism : MeshSlot) (prismWarned : bool) :=
  deprecated "Warning: DrawPrismMeshLines() is deprecated. Use DrawPrismMesh(true) instead."%string
    (DrawPrismMesh prism true) prismWarned.

Definition DrawPyramid3MeshLines (p : MeshSlot) (pyramid3Warned : bool) :=
  deprecated
    "Warning: DrawPyramid3MeshLines() is deprecated. Use DrawPyramid3Mesh(true) instead."%string
    (DrawPyramid3Mesh p true) pyramid3Warned.

Definition DrawPyramid4MeshLines (p : MeshSlot) (pyramid4Warned : bool) :=
  deprecated
    "Warning: DrawPyramid4MeshLines() is deprecated. Use DrawPyramid4Mesh(true) instead."%string
    (DrawPyramid4Mesh p true) pyramid4Warned.

Definition DrawSphereMeshLines (sphere : MeshSlot) (sphereWarned : bool) :=
  deprecated "Warning: DrawSphereMeshLines() is deprecated. Use DrawSphereMesh(true) instead."%string
    (DrawSphereMesh sphere true) sphereWarned.

(** It calls [DrawHemisphereMesh(true)], on [m_HemisphereMesh]. *)
Definition DrawHalfSphereMeshLines (hemisphere : MeshSlot) (halfSphereWarned : bool) :=
  deprecated
    "Warning: DrawHalfSphereMeshLines() is deprecated. Use DrawHalfSphereMesh(true) instead."%string
    (DrawHemisphereMesh hemisphere true) halfSphereWarned.

Definition DrawTaperedCylinderMeshLines (tc : MeshSlot) (taperedCylinderWarned : bool) :=
  deprecated
    "Warning: DrawTaperedCylinderMeshLines() is deprecated. Use DrawTaperedCylinderMesh(true) instead."%string
    (DrawTaperedCylinderMesh tc true true true false) taperedCylinderWarned.

Definition DrawTorusMeshLines (torus : MeshSlot) (torusWarned : bool) :=
  deprecated "Warning: DrawTorusMeshLines() is deprecated. Use DrawTorusMesh(true) instead."%string
    (DrawTorusMesh torus true) torusWarned.

Definition DrawHalfTorusMeshLines (torus : MeshSlot) (halfTorusWarned : bool) :=
  deprecated
    "Warning: DrawHalfTorusMeshLines() is deprecated. Use DrawHalfTorusMesh(true) instead."%string
    (DrawHalfTorusMesh torus true) halfTorusWarned.

(** [k] successive calls of a wrapper, from the flag [warned]. *)
Fixpoint call_n (k : nat) (f : bool -> bool * list GLCall) (warned : bool)
  : bool * list GLCall :=
  match k with
  | O => (warned, [])
  | S k => let '(w, out) := f warned in
           let '(w', out') := call_n k f w in (w', out ++ out')
  end.

(** ** Glm helpers declared in ShapeMeshes.h *)

(** [n1 + n2], the vector [QuadCrossProduct] hands to [glm::normalize]. *)
Definition QuadCrossProduct_sum (p1 p2 p3 p4 : vec3) : vec3 :=
  let n1 := vcross (vsub p2 p1) (vsub p3 p1) in
  let n2 := vcross (vsub p4 p1) (vsub p3 p1) in
  vadd n1 n2.

Definition QuadCrossProduct (p1 p2 p3 p4 : vec3) : vec3 :=
  normalize (QuadCrossProduct_sum p1 p2 p3 p4).

Definition CalculateTriangleNormal (p1 p2 p3 : vec3) : vec3 :=
  normalize (vcross (vsub p2 p1) (vsub p3 p1)).

(** ** What a draw call reads *)

(** The indices [glDrawElements(mode, count, ..., offset)] reads from the
    element buffer [ebo]. *)
Definition elements (ebo : list Z) (count offset : Z) : list Z :=
  firstn (Z.to_nat count) (skipn (Z.to_nat offset) ebo).

(** All indices read by the indexed draws of a call sequence on [m]. *)
Definition drawn_elements (m : MeshSlot) (cs : list GLCall) : list Z :=
  flat_map (fun c => match c with
    | glDrawElements _ count offset => elements (index_buffer (mesh m)) count offset
    | _ => [] end) cs.

(** Every draw of the sequence stays within the buffers of [m]. *)
Definition draws_in_bounds (m : MeshSlot) (cs : list GLCall) : Prop :=
  Forall (fun c => match c with
    | glDrawElements _ count offset =>
        0 <= offset /\ 0 <= count /\
        offset + count <= Z.of_nat (length (index_buffer (mesh m)))
    | glDrawArrays _ first count =>
        0 <= first /\ 0 <= count /\ first + count <= floats (vertex_buffer (mesh m)) / 8
    | _ => True end) cs.

(** The draw calls of a sequence. *)
Definition draw_calls (cs : list GLCall) : list GLCall :=
  filter (fun c => match c with glDrawElements _ _ _ | glDrawArrays _ _ _ => true
                                | _ => false end) cs.

(** The polygon modes set by a sequence ([true] is [GL_LINE]). *)
Definition polygon_modes (cs : list GLCall) : list bool :=
  flat_map (fun c => match c with glPolygonMode b => [b] | _ => [] end) cs.

(** The number of times [msg] is written to [std::cerr]. *)
Definition messages (msg : String.string) (cs : list GLCall) : nat :=
  length (filter (fun c => match c with cerr m => String.eqb m msg | _ => false end) cs).

(** The normal of vertex [k] of an interleaved buffer. *)
Definition vertex_normal (vb : list R) (k : Z) : vec3 :=
  snd (nth (Z.to_nat k) (vertex_attrs vb) (0%R, vzero)).

(** The three parts of a buffer pair: the index part [i] refers to the vertex
    part [v] only. *)
Definition part_ok (P : vec3 -> Prop) (lo : Z) (i : list Z) (v : list R) : Prop :=
  Forall (fun k => lo <= k < lo + floats v / 8) i /\
  Forall (fun a => P (snd a)) (vertex_attrs v).

(** ** Loop and buffer lemmas *)

Local Open Scope Z_scope.

Lemma range_length (a b : Z) : length (range a b) = Z.to_nat (b - a).
Proof. unfold range. now rewrite length_map, length_seq. Qed.

Lemma in_range (a b k : Z) : In k (range a b) <-> a <= k < b.
Proof.
  unfold range. rewrite in_map_iff. split.
  - intros [n [<- Hn]]. apply in_seq in Hn. lia.
  - intros Hk. exists (Z.to_nat (k - a)). split; [lia|].
    apply in_seq. lia.
Qed.


Lemma flat_map_length_const {A B : Type} (f : A -> list B) (c : nat) (l : list A) :
  (forall x, In x l -> length (f x) = c) -> length (flat_map f l) = (c * length l)%nat.
Proof.
  induction l as [|x l IH]; intros H; simpl; [lia|].
  rewrite length_app, H by (left; reflexivity).
  rewrite IH by (intros; apply H; right; assumption). lia.
Qed.


Lemma Forall_flat_map {A B : Type} (P : B -> Prop) (f : A -> list B) (l : list A) :
  (forall x, In x l -> Forall P (f x)) -> Forall P (flat_map f l).
Proof.
  induction l as [|x l IH]; intros H; simpl; [constructor|].
  apply Forall_app. split; [apply H; left; reflexivity|].
  apply IH. intros; apply H; right; assumption.
Qed.


Lemma u32_bound (z n : Z) : 0 <= z < n -> 0 <= u32 z < n.
Proof.
  intros Hz. unfold u32.
  pose proof (Z.mod_le z (2 ^ 32) (proj1 Hz) ltac:(lia)).
  pose proof (Z.mod_pos_bound z (2 ^ 32) ltac:(lia)). lia.
Qed.


Lemma clamp3_ge (n : Z) : 3 <= clamp3 n.
Proof. unfold clamp3. destruct (Z.ltb_spec n 3); lia. Qed.

Lemma clamp3_idem (n : Z) : clamp3 (clamp3 n) = clamp3 n.
Proof. unfold clamp3. destruct (Z.ltb_spec n 3); simpl; [reflexivity|].
  destruct (Z.ltb_spec n 3); lia. Qed.

Lemma mod_bound (a n : Z) : 0 < n -> 0 <= a mod n < n.
Proof. intros; apply Z.mod_pos_bound; lia. Qed.

Lemma rem_bound (a n : Z) : 0 <= a -> 0 < n -> 0 <= Z.rem a n < n.
Proof. intros; rewrite Z.rem_mod_nonneg by lia; apply Z.mod_pos_bound; lia. Qed.

Lemma u32_le (z : Z) : 0 <= u32 z /\ (0 <= z -> u32 z <= z).
Proof.
  unfold u32. split; [apply Z.mod_pos_bound; lia|].
  intros; apply Z.mod_le; lia.
Qed.

Lemma sphere_vertex_length r t lon l v : length (sphere_vertex r t lon l v) = 8%nat.
Proof. reflexivity. Qed.

Lemma vertex_count_of (m : MeshData) (n : nat) :
  length (verts m) = (8 * n)%nat -> vertex_count m = Z.of_nat n.
Proof.
  intros H. unfold vertex_count, floats. rewrite H.
  rewrite Nat2Z.inj_mul. change (Z.of_nat 8) with 8.
  rewrite Z.mul_comm, Z.div_mul by lia. reflexivity.
Qed.


Lemma vertex_count_eq (m : MeshData) (n : Z) :
  0 <= n -> length (verts m) = (8 * Z.to_nat n)%nat -> vertex_count m = n.
Proof. intros Hn H. rewrite (vertex_count_of m _ H). lia. Qed.

Lemma vtx_length x y z nx ny nz u v : length (vtx x y z nx ny nz u v) = 8%nat.
Proof. reflexivity. Qed.

(** Solve [length (flat_map ...)] goals built from [vtx] blocks. *)
Ltac len_solve :=
  repeat first
    [ rewrite length_app
    | rewrite vtx_length
    | rewrite sphere_vertex_length
    | rewrite range_length
    | rewrite length_map
    | rewrite length_seq
    | erewrite flat_map_length_const
        by (let x := fresh in let Hx := fresh in intros x Hx; cbv beta zeta;
            len_solve; reflexivity) ].

(** Solve [Forall bound (flat_map ...)] goals for index lists. *)
Ltac idx_solve :=
  repeat (apply Forall_app; split);
  try (apply Forall_flat_map; intros ?i Hi%in_range);
  repeat (apply Forall_cons; [apply u32_bound|]); try apply Forall_nil.

(** Close linear goals with [/ 8] and [mod] by constants. *)
Ltac zsolve := Z.div_mod_to_equations; nia.

(** Replace every [u32 x] of the goal by a fresh [y] with [0 <= y] and
    [0 <= x -> y <= x]. *)
Ltac u32_elim :=
  repeat match goal with
  | |- context [u32 ?x] =>
      let y := fresh "y" in let Hy := fresh "Hy" in
      pose proof (u32_le x) as Hy; set (y := u32 x) in *; clearbody y
  | H : context [u32 ?x] |- _ =>
      let y := fresh "y" in let Hy := fresh "Hy" in
      pose proof (u32_le x) as Hy; set (y := u32 x) in *; clearbody y
  end.

Local Open Scope R_scope.

Lemma cone_count (r h : R) (n : Z) :
  vertex_count (LoadConeMesh_data r h n) = (3 * clamp3 n + 2)%Z.
Proof.
  pose proof (clamp3_ge n).
  apply vertex_count_eq; [lia|]. cbn [verts LoadConeMesh_data]. len_solve. lia.
Qed.


Lemma cone_indices (r h : R) (n : Z) : indices_in_range (LoadConeMesh_data r h n).
Proof.
  unfold indices_in_range. rewrite cone_count. pose proof (clamp3_ge n).
  cbn [indices LoadConeMesh_data]. unfold floats. len_solve.
  idx_solve; try (pose proof (mod_bound (i + 1) (clamp3 n)); lia).
  all: zsolve.
Qed.


Lemma box_indices : indices_in_range LoadBoxMesh_data.
Proof.
  unfold indices_in_range. replace (vertex_count LoadBoxMesh_data) with 24%Z
    by reflexivity. cbn [indices LoadBoxMesh_data]. repeat constructor; lia.
Qed.

Lemma cylinder_count (r h : R) (n : Z) :
  vertex_count (LoadCylinderMesh_data r h n) = (4 * clamp3 n + 6)%Z.
Proof.
  pose proof (clamp3_ge n).
  apply vertex_count_eq; [lia|]. cbn [verts LoadCylinderMesh_data]. len_solve. lia.
Qed.

Lemma cylinder_indices (r h : R) (n : Z) : indices_in_range (LoadCylinderMesh_data r h n).
Proof.
  unfold indices_in_range. rewrite cylinder_count. pose proof (clamp3_ge n).
  cbn [indices LoadCylinderMesh_data]. unfold floats. len_solve.
  repeat (apply Forall_app; split); apply Forall_flat_map; intros i Hi%in_range;
    destruct (Z.ltb_spec i (clamp3 n)); try apply Forall_nil;
    repeat (apply Forall_cons; [apply u32_bound|]); try apply Forall_nil;
    try (pose proof (mod_bound (i + 1) (clamp3 n)); lia).
  all: zsolve.
Qed.

Lemma plane_indices (w h : R) : indices_in_range (LoadPlaneMesh_data w h).
Proof.
  unfold indices_in_range. replace (vertex_count (LoadPlaneMesh_data w h)) with 4%Z
    by reflexivity. cbn [indices LoadPlaneMesh_data]. repeat constructor; lia.
Qed.

Lemma prism_indices : indices_in_range LoadPrismMesh_data.
Proof.
  unfold indices_in_range. replace (vertex_count LoadPrismMesh_data) with 32%Z
    by reflexivity. cbn [indices LoadPrismMesh_data]. repeat constructor; lia.
Qed.

Lemma pyramid3_indices : indices_in_range LoadPyramid3Mesh_data.
Proof. constructor. Qed.

Lemma pyramid4_indices (b h : R) : indices_in_range (LoadPyramid4Mesh_data b h).
Proof. constructor. Qed.

Lemma fin_indices (b t h th : R) : indices_in_range (LoadFinMesh_data b t h th).
Proof.
  unfold indices_in_range. replace (vertex_count (LoadFinMesh_data b t h th)) with 24%Z
    by reflexivity. cbn [indices LoadFinMesh_data]. repeat constructor; lia.
Qed.

Lemma sphere_indices (lat lon : Z) (r : R) :
  indices_in_range (LoadSphereMesh_data lat lon r).
Proof.
  unfold indices_in_range, vertex_count, floats.
  cbn [indices verts LoadSphereMesh_data]. len_solve.
  unfold sphere_grid_indices.
  apply Forall_flat_map; intros i Hi%in_range.
  apply Forall_flat_map; intros j Hj%in_range.
  repeat (apply Forall_cons; [apply u32_bound|]); try apply Forall_nil.
  all: zsolve.
Qed.

Lemma hemisphere_indices (lat lon : Z) (r : R) :
  indices_in_range (LoadHemisphereMesh_data lat lon r).
Proof.
  unfold indices_in_range, vertex_count, floats.
  cbn [indices verts LoadHemisphereMesh_data]. len_solve.
  unfold sphere_grid_indices.
  apply Forall_flat_map; intros i Hi%in_range.
  apply Forall_flat_map; intros j Hj%in_range.
  repeat (apply Forall_cons; [apply u32_bound|]); try apply Forall_nil.
  all: zsolve.
Qed.

Lemma grid_indices_bound (rows cols N : Z) :
  (0 <= cols -> (rows + 1) * (cols + 1) <= N ->
  Forall (fun k => 0 <= k < N) (grid_indices rows cols))%Z.
Proof.
  intros Hc HN. unfold grid_indices.
  apply Forall_flat_map; intros i Hi%in_range.
  apply Forall_flat_map; intros j Hj%in_range.
  repeat (apply Forall_cons; [apply u32_bound|]); try apply Forall_nil.
  all: nia.
Qed.

Lemma tapered_cylinder_indices (b t h : R) (n : Z) :
  indices_in_range (LoadTaperedCylinderMesh_data b t h n).
Proof.
  unfold indices_in_range, vertex_count, floats. pose proof (clamp3_ge n).
  cbn [indices verts LoadTaperedCylinderMesh_data]. unfold floats. len_solve.
  repeat (apply Forall_app; split); apply Forall_flat_map; intros i Hi%in_range;
    repeat (apply Forall_cons; [apply u32_bound|]); try apply Forall_nil;
    u32_elim; try (pose proof (mod_bound (i + 1) (clamp3 n)); zsolve).
Qed.

(** Shared shape of the grid meshes: a vertex buffer of [(rows + 1) * (cols + 1)]
    vertices and the index buffer [grid_indices rows cols]. *)
Lemma grid_mesh_indices (m : MeshData) (rows cols : Z) :
  (0 <= rows -> 0 <= cols ->
   length (verts m) = (8 * (Z.to_nat (rows + 1) * Z.to_nat (cols + 1)))%nat ->
   indices m = grid_indices rows cols -> indices_in_range m)%Z.
Proof.
  intros Hr Hc Hl Hi. unfold indices_in_range. rewrite Hi.
  apply grid_indices_bound; [lia|].
  unfold vertex_count, floats. rewrite Hl. zsolve.
Qed.

Lemma torus_indices (mr tr : R) (ms ts : Z) :
  indices_in_range (LoadTorusMesh_data mr tr ms ts).
Proof.
  apply (grid_mesh_indices _ (imax 3 ms) (imax 3 ts)); unfold imax; try lia.
  - cbn [verts LoadTorusMesh_data]. len_solve. unfold imax. nia.
  - reflexivity.
Qed.

Lemma spring_indices (mr tr : R) (ms ts : Z) (len : R) :
  indices_in_range (LoadSpringMesh_data mr tr ms ts len).
Proof.
  apply (grid_mesh_indices _ (imax 1 ms * imax 8 ts) (imax 8 ts)); unfold imax;
    try nia.
  - cbn [verts LoadSpringMesh_data]. len_solve. unfold imax. nia.
  - reflexivity.
Qed.

Lemma curved_cone_indices (n c : Z) (r h b : R) :
  indices_in_range (LoadCurvedConeMesh_data n c r h b).
Proof.
  pose proof (clamp3_ge n).
  apply (grid_mesh_indices _ (if (c <? 1)%Z then 1%Z else c) (clamp3 n));
    try (destruct (Z.ltb_spec c 1); lia).
  - cbn [verts LoadCurvedConeMesh_data]. len_solve. destruct (Z.ltb_spec c 1); lia.
  - reflexivity.
Qed.

Lemma tapered_torus_indices (mr t0 t1 : R) (ms ts : Z) (sw : R) :
  indices_in_range (DrawTaperedTorusMesh_data mr t0 t1 ms ts sw).
Proof.
  unfold indices_in_range, vertex_count, floats.
  cbn [indices verts DrawTaperedTorusMesh_data]. len_solve.
  unfold grid_indices.
  apply Forall_flat_map; intros i Hi%in_range.
  apply Forall_flat_map; intros j Hj%in_range.
  repeat (apply Forall_cons; [apply u32_bound|]); try apply Forall_nil.
  all: zsolve.
Qed.

Lemma tube_indices (o i h : R) (n : Z) : indices_in_range (LoadTubeMesh_data o i h n).
Proof.
  unfold indices_in_range, vertex_count, floats. pose proof (clamp3_ge n).
  cbn [indices verts LoadTubeMesh_data]. len_solve.
  repeat (apply Forall_app; split); apply Forall_flat_map; intros k Hk%in_range;
    repeat (apply Forall_cons; [apply u32_bound|]); try apply Forall_nil;
    u32_elim; zsolve.
Qed.

Lemma partial_cone_indices (r h : R) (n : Z) (arc : R) :
  indices_in_range (DrawPartialConeMesh_data r h n arc).
Proof.
  unfold indices_in_range, vertex_count, floats. pose proof (clamp3_ge n).
  cbn [indices verts DrawPartialConeMesh_data]. len_solve.
  apply Forall_flat_map; intros k Hk%in_range.
  repeat (apply Forall_cons; [apply u32_bound|]); try apply Forall_nil.
  all: zsolve.
Qed.

Lemma in_sine_cells (rs hs i j : Z) :
  In (i, j) (sine_cells rs hs) -> (0 <= i < hs /\ 0 <= j < rs)%Z.
Proof.
  unfold sine_cells. rewrite in_flat_map. intros [i' [Hi' Hj]].
  apply in_map_iff in Hj as [j' [Heq Hj']]. injection Heq as <- <-.
  apply in_range in Hi', Hj'. lia.
Qed.

Lemma sine_cone_indices (br h fl0 sa sf sp : R) (rs hs : Z) :
  indices_in_range (DrawSineConeMesh_data br h fl0 sa sf sp rs hs).
Proof.
  unfold indices_in_range, vertex_count, floats.
  cbn [indices verts DrawSineConeMesh_data]. unfold sine_positions. len_solve.
  apply Forall_flat_map; intros [i j] Hij%in_sine_cells.
  repeat (apply Forall_cons; [apply u32_bound|]); try apply Forall_nil.
  all: zsolve.
Qed.

Lemma superellipsoid_indices (sx sy sz ve he : R) (us vs : Z) :
  indices_in_range (DrawSuperellipsoidMesh_data sx sy sz ve he us vs).
Proof.
  unfold indices_in_range, vertex_count, floats.
  pose proof (clamp3_ge us). pose proof (clamp3_ge vs).
  cbn [indices verts DrawSuperellipsoidMesh_data]. len_solve.
  apply Forall_flat_map; intros i Hi%in_range.
  apply Forall_flat_map; intros j Hj%in_range.
  repeat (apply Forall_cons; [apply u32_bound|]); try apply Forall_nil.
  all: zsolve.
Qed.

Lemma range_cons (a b : Z) : (a < b)%Z -> range a b = a :: range (a + 1) b.
Proof.
  intros H. unfold range.
  replace (Z.to_nat (b - a)) with (S (Z.to_nat (b - (a + 1)))) by lia.
  cbn [seq map]. f_equal; [lia|].
  rewrite <- seq_shift, map_map. apply map_ext. intros; lia.
Qed.

Lemma flat_map_nil {A B : Type} (f : A -> list B) (l : list A) :
  (forall x, In x l -> f x = []) -> flat_map f l = [].
Proof.
  induction l as [|x l IH]; intros H; [reflexivity|].
  cbn. rewrite H by (left; reflexivity). apply IH. intros; apply H; right; assumption.
Qed.

Lemma nth_range (T k : Z) (d : Z) :
  (0 <= k < T)%Z -> nth (Z.to_nat k) (range 0 T) d = k.
Proof.
  intros Hk. unfold range.
  rewrite (nth_indep _ d ((fun k => 0 + Z.of_nat k) 0%nat)%Z)
    by (rewrite length_map, length_seq; lia).
  pose proof (map_nth (fun k => (0 + Z.of_nat k)%Z) (seq 0 (Z.to_nat (T - 0)))
                0%nat (Z.to_nat k)) as E.
  cbv beta in E |- *. rewrite E, seq_nth by lia. lia.
Qed.

(** The seam loop reads [ringStartIndices], which ring 0 fills with
    [0 .. tubeSegments - 1]. *)
Lemma ring_start_indices (rc T : Z) : (1 <= rc)%Z ->
  flat_map (fun i => if (i =? 0)%Z then range 0 T else []) (range 0 rc) = range 0 T.
Proof.
  intros H. rewrite (range_cons 0 rc) by lia. cbn [flat_map Z.eqb].
  rewrite flat_map_nil, app_nil_r; [reflexivity|].
  intros x Hx%in_range. destruct (Z.eqb_spec x 0); [lia|reflexivity].
Qed.


Local Open Scope Z_scope.

Lemma spiral_tube_verts_length tr ff st T rc cs frs :
  length (spiral_tube_verts tr ff st T rc cs frs) = (8 * Z.to_nat T * Z.to_nat rc)%nat.
Proof. unfold spiral_tube_verts. len_solve. lia. Qed.

Lemma spiral_cap_verts_length tr ff st p cr cs a b c d :
  length (spiral_cap_verts tr ff st p cr cs a b c d) = (8 * Z.to_nat cs * Z.to_nat cr)%nat.
Proof. unfold spiral_cap_verts. len_solve. lia. Qed.

Lemma spiral_tube_indices_bound rc T N :
  0 < rc -> rc * T <= N -> Forall (fun k => 0 <= k < N) (spiral_tube_indices rc T T).
Proof.
  intros Hrc HN. unfold spiral_tube_indices.
  apply Forall_flat_map; intros i Hi%in_range.
  apply Forall_flat_map; intros j Hj%in_range.
  pose proof (rem_bound (j + 1) T ltac:(lia) ltac:(lia)).
  repeat (apply Forall_cons; [apply u32_bound|]); try apply Forall_nil; nia.
Qed.

Lemma spiral_cap_indices_bound b cr cs N :
  0 <= b -> 1 <= cr -> b + cr * cs <= N ->
  Forall (fun k => 0 <= k < N) (spiral_cap_indices b cr cs).
Proof.
  intros Hb Hcr HN. unfold spiral_cap_indices.
  apply Forall_flat_map; intros i Hi%in_range.
  apply Forall_flat_map; intros j Hj%in_range.
  pose proof (rem_bound (j + 1) cs ltac:(lia) ltac:(lia)).
  repeat (apply Forall_cons; [apply u32_bound|]); try apply Forall_nil; nia.
Qed.

Lemma spiral_seam_indices_bound b cr cs N :
  0 <= b -> 1 <= cr -> cs <= b -> b + cr * cs <= N ->
  Forall (fun k => 0 <= k < N) (spiral_seam_indices b cr cs (range 0 cs)).
Proof.
  intros Hb Hcr Hcs HN. unfold spiral_seam_indices.
  apply Forall_flat_map; intros j Hj%in_range.
  pose proof (rem_bound (j + 1) cs ltac:(lia) ltac:(lia)).
  rewrite !nth_range by lia.
  repeat (apply Forall_cons; [apply u32_bound|]); try apply Forall_nil; nia.
Qed.

Local Open Scope R_scope.

Lemma spiral_indices (tr ff ls nl : R) (ts ss : Z) (m : MeshData) :
  DrawSpiralMesh_data tr ff ls nl ts ss = Some m -> indices_in_range m.
Proof.
  intros H. unfold DrawSpiralMesh_data in H. cbv zeta in H.
  match type of H with context [ (Z.of_nat (length ?c) <? 2)%Z ] =>
    destruct (Z.ltb_spec (Z.of_nat (length c)) 2) as [_|Hrc]; [discriminate|];
    injection H as <-;
    generalize dependent (Z.of_nat (length c)); intros rc Hrc
  end.
  unfold indices_in_range, vertex_count, floats.
  cbn [indices verts]. rewrite ring_start_indices by lia.
  rewrite length_app, spiral_tube_verts_length, spiral_cap_verts_length.
  apply Forall_app; split; [|apply Forall_app; split].
  - apply spiral_tube_indices_bound; [lia|]. zsolve.
  - apply spiral_cap_indices_bound; zsolve.
  - apply spiral_seam_indices_bound; zsolve.
Qed.

(** ** Claims *)

(** C1: for every shape generator and all parameters, every value of the
    emitted index buffer is below the number of vertices of the emitted
    vertex buffer (interleaved floats divided by 8).  Integer arithmetic is
    exact ([int] overflow is not modelled); indices are converted to [GLuint]
    as the source does.  A call that reads out of bounds (a spiral with fewer
    than two rings) emits nothing. *)
Theorem generate_indices_in_range (c : ShapeCall) (m : MeshData) :
  generate c = Some m -> indices_in_range m.
Proof.
  destruct c; cbn [generate]; intros H;
    try (injection H as <-);
    [ apply box_indices | apply cone_indices | apply cylinder_indices
    | apply plane_indices | apply prism_indices | apply pyramid3_indices
    | apply pyramid4_indices | apply sphere_indices
    | apply hemisphere_indices | apply tapered_cylinder_indices
    | apply torus_indices | apply spring_indices | apply tube_indices
    | apply fin_indices | apply curved_cone_indices
    | apply partial_cone_indices | apply tapered_torus_indices
    | apply sine_cone_indices | apply superellipsoid_indices
    | eapply spiral_indices; eassumption ].
Qed.

Lemma generate_indices_in_range_witness :
  generate (CallLoadConeMesh 1 1 3) = Some (LoadConeMesh_data 1 1 3) /\
  indices_in_range (LoadConeMesh_data 1 1 3).
Proof.
  split; [reflexivity|].
  apply (generate_indices_in_range (CallLoadConeMesh 1 1 3)). reflexivity.
Defined.

(** C4: LoadConeMesh with [numSlices = 3] emits 11 vertices
    (1 bottom centre + 3 bottom ring + 1 apex + 2 * 3 side ring) and 18
    indices (3 * 3 for the bottom fan + 3 * 3 for the sides), whatever the
    radius and height. *)
Theorem cone_three_slices_counts (radius height : R) :
  vertex_count (LoadConeMesh_data radius height 3) = (1 + 3 + 1 + 2 * 3)%Z /\
  length (indices (LoadConeMesh_data radius height 3)) = (3 * 3 + 3 * 3)%nat.
Proof.
  split; [rewrite cone_count; reflexivity | reflexivity].
Qed.

Lemma sphere_count (lat lon : Z) (r : R) : (0 <= lat)%Z -> (0 <= lon)%Z ->
  vertex_count (LoadSphereMesh_data lat lon r) = ((lat + 1) * (lon + 1))%Z.
Proof.
  intros. apply vertex_count_eq; [nia|]. cbn [verts LoadSphereMesh_data]. len_solve. nia.
Qed.

Lemma spring_count (mr tr : R) (ms ts : Z) (l : R) :
  vertex_count (LoadSpringMesh_data mr tr ms ts l) =
  ((imax 1 ms * imax 8 ts + 1) * (imax 8 ts + 1))%Z.
Proof.
  unfold imax. apply vertex_count_eq; [nia|]. cbn [verts LoadSpringMesh_data].
  len_solve. unfold imax. nia.
Qed.

Lemma Rmax_idem_l (a x : R) : Rmax a (Rmax a x) = Rmax a x.
Proof. unfold Rmax. repeat destruct Rle_dec; lra. Qed.

Lemma fclamp_idem (x lo hi : R) : lo <= hi -> fclamp (fclamp x lo hi) lo hi = fclamp x lo hi.
Proof. intros. unfold fclamp, Rmin, Rmax. repeat destruct Rle_dec; lra. Qed.

Lemma clamp_pos_idem (x d : R) : 0 < d -> clamp_pos (clamp_pos x d) d = clamp_pos x d.
Proof. intros. unfold clamp_pos. repeat destruct Rle_dec; lra. Qed.

Lemma clamp3_max (n : Z) : clamp3 n = Z.max 3 n.
Proof. unfold clamp3. destruct (Z.ltb_spec n 3); lia. Qed.

(** C2 (counterexample): segment counts below 3 are not raised to 3 by
    every generator: the spring keeps [mainSegments = 1] (its minimum is 1)
    and the sphere keeps [latitudeSegments = 2] (it clamps nothing); both give
    other meshes than with 3. *)
Lemma segment_clamp_counterexample :
  vertex_count (LoadSpringMesh_data 1 0.1 1 8 1) = 81%Z /\
  vertex_count (LoadSpringMesh_data 1 0.1 3 8 1) = 225%Z /\
  vertex_count (LoadSphereMesh_data 2 4 1) = 15%Z /\
  vertex_count (LoadSphereMesh_data 3 4 1) = 20%Z.
Proof.
  rewrite !spring_count, !sphere_count by lia. unfold imax. repeat split; reflexivity.
Qed.

(** C2 (amended): the generators that clamp their parameters do so silently,
    each with its own bound, and the mesh is the one of the clamped value:
    [numSlices] below 3 becomes 3 for the cone, cylinder, tapered cylinder,
    tube, curved cone and partial cone; the curved cone raises [curveSteps]
    below 1 to 1; the partial cone clamps [arcDegrees] into [0, 360]; the torus
    raises both segment counts below 3 to 3 and [tubeRadius] below 0.01 to
    0.01; the spring raises [mainSegments] below 1 to 1 and [tubeSegments]
    below 8 to 8; the superellipsoid raises both segment counts below 3 to 3
    and replaces non-positive scales and exponents by 0.1.  Each generator is
    a total function of its parameters (no error result). *)
Theorem generators_clamp_parameters :
  (forall r h n, LoadConeMesh_data r h n = LoadConeMesh_data r h (Z.max 3 n)) /\
  (forall r h n, LoadCylinderMesh_data r h n = LoadCylinderMesh_data r h (Z.max 3 n)) /\
  (forall b t h n,
     LoadTaperedCylinderMesh_data b t h n = LoadTaperedCylinderMesh_data b t h (Z.max 3 n)) /\
  (forall o i h n, LoadTubeMesh_data o i h n = LoadTubeMesh_data o i h (Z.max 3 n)) /\
  (forall n c r h b,
     LoadCurvedConeMesh_data n c r h b = LoadCurvedConeMesh_data (Z.max 3 n) (Z.max 1 c) r h b) /\
  (forall r h n a,
     DrawPartialConeMesh_data r h n a =
     DrawPartialConeMesh_data r h (Z.max 3 n) (Rmin (Rmax a 0) 360)) /\
  (forall mr tr ms ts,
     LoadTorusMesh_data mr tr ms ts = LoadTorusMesh_data mr (Rmax 0.01 tr) (Z.max 3 ms) (Z.max 3 ts)) /\
  (forall mr tr ms ts l,
     LoadSpringMesh_data mr tr ms ts l = LoadSpringMesh_data mr tr (Z.max 1 ms) (Z.max 8 ts) l) /\
  (forall sx sy sz ve he us vs,
     DrawSuperellipsoidMesh_data sx sy sz ve he us vs =
     DrawSuperellipsoidMesh_data (clamp_pos sx 0.1) (clamp_pos sy 0.1) (clamp_pos sz 0.1)
       (clamp_pos ve 0.1) (clamp_pos he 0.1) (Z.max 3 us) (Z.max 3 vs)).
Proof.
  repeat split; intros.
  - unfold LoadConeMesh_data. rewrite <- clamp3_max, clamp3_idem. reflexivity.
  - unfold LoadCylinderMesh_data. rewrite <- clamp3_max, clamp3_idem. reflexivity.
  - unfold LoadTaperedCylinderMesh_data. rewrite <- clamp3_max, clamp3_idem. reflexivity.
  - unfold LoadTubeMesh_data. rewrite <- clamp3_max, clamp3_idem. reflexivity.
  - unfold LoadCurvedConeMesh_data. rewrite <- clamp3_max, clamp3_idem.
    replace (if (Z.max 1 c <? 1)%Z then 1%Z else Z.max 1 c)
      with (if (c <? 1)%Z then 1%Z else c)
      by (destruct (Z.ltb_spec c 1), (Z.ltb_spec (Z.max 1 c) 1); lia).
    reflexivity.
  - unfold DrawPartialConeMesh_data. rewrite <- clamp3_max, clamp3_idem.
    change (Rmin (Rmax a 0) 360) with (fclamp a 0 360).
    rewrite fclamp_idem by lra. reflexivity.
  - unfold LoadTorusMesh_data, imax. rewrite Rmax_idem_l.
    replace (Z.max 3 (Z.max 3 ms)) with (Z.max 3 ms) by lia.
    replace (Z.max 3 (Z.max 3 ts)) with (Z.max 3 ts) by lia. reflexivity.
  - unfold LoadSpringMesh_data, imax.
    replace (Z.max 1 (Z.max 1 ms)) with (Z.max 1 ms) by lia.
    replace (Z.max 8 (Z.max 8 ts)) with (Z.max 8 ts) by lia. reflexivity.
  - unfold DrawSuperellipsoidMesh_data. rewrite <- !clamp3_max, !clamp3_idem.
    rewrite !clamp_pos_idem by lra. reflexivity.
Qed.

Lemma InitializeMesh_flag (s : ShapeMeshesState) (v : list R) (i : list Z) :
  m_bMemoryLayoutDone s = false ->
  m_bMemoryLayoutDone (fst (InitializeMesh s v i)) = false /\
  layout_calls (fst (InitializeMesh s v i)) = S (layout_calls s).
Proof. intros H. unfold InitializeMesh. rewrite H. cbn. split; [exact H | reflexivity]. Qed.

Lemma load_meshes_layout (s : ShapeMeshesState) (cs : list ShapeCall) :
  m_bMemoryLayoutDone s = false ->
  m_bMemoryLayoutDone (load_meshes s cs) = false /\
  layout_calls (load_meshes s cs) = (layout_calls s + length (filter uses_InitializeMesh cs))%nat.
Proof.
  revert s. induction cs as [|c cs IH]; intros s Hs; cbn [load_meshes filter].
  - split; [assumption | cbn; lia].
  - unfold load_mesh. destruct (uses_InitializeMesh c) eqn:Hc.
    + assert (Hg : exists m, generate c = Some m)
        by (destruct c; try discriminate; eexists; reflexivity).
      destruct Hg as [m Hm]. rewrite Hm.
      destruct (InitializeMesh s (verts m) (indices m)) as [s' g] eqn:Hi.
      pose proof (InitializeMesh_flag s (verts m) (indices m) Hs) as [H1 H2].
      rewrite Hi in H1, H2. cbn [fst] in H1, H2.
      destruct (IH s' H1) as [IH1 IH2]. split; [assumption|].
      rewrite IH2, H2. cbn [length]. lia.
    + apply IH, Hs.
Qed.

(** C3: the memory-layout flag [m_bMemoryLayoutDone] is never set, so on a
    fresh ShapeMeshes object every mesh initialisation through InitializeMesh
    runs SetShaderMemoryLayout again: after any sequence of [Load*Mesh] calls
    the layout has run once per call, and the flag is still false. *)
Theorem memory_layout_runs_every_time (cs : list ShapeCall) :
  m_bMemoryLayoutDone (load_meshes ShapeMeshes_new cs) = false /\
  layout_calls (load_meshes ShapeMeshes_new cs) = length (filter uses_InitializeMesh cs).
Proof. apply load_meshes_layout. reflexivity. Qed.

(** C9 (counterexample): the cone with 3 slices stores 11 vertices, while its
    vertex buffer is 352 bytes long, and 352 / 8 = 44. *)
Lemma vertex_count_bytes_counterexample :
  let g := snd (InitializeMesh ShapeMeshes_new (verts (LoadConeMesh_data 1 1 3))
                  (indices (LoadConeMesh_data 1 1 3))) in
  nVertices g = 11%Z /\ byte_length g = 352%Z /\ (byte_length g / 8)%Z = 44%Z.
Proof. repeat split; reflexivity. Qed.

(** C9 (amended): for every mesh loaded through InitializeMesh, the stored
    vertex count is the byte length of the interleaved buffer divided by 32
    (8 floats of 4 bytes per vertex), i.e. the number of floats divided by 8,
    as long as that count fits in a [GLuint]. *)
Theorem stored_vertex_count (s s' : ShapeMeshesState) (c : ShapeCall) (g : GLMesh) :
  load_mesh s c = Some (s', g) ->
  (floats (vertex_buffer g) < 8 * 2 ^ 32)%Z ->
  nVertices g = (byte_length g / 32)%Z /\ nVertices g = (floats (vertex_buffer g) / 8)%Z.
Proof.
  unfold load_mesh. destruct (uses_InitializeMesh c); [|discriminate].
  destruct (generate c) as [m|]; [|discriminate].
  intros H. injection H as _ <-. cbn [nVertices vertex_buffer byte_length].
  intros Hlt. unfold byte_length, u32. cbn [vertex_buffer].
  assert (Hf : (0 <= floats (verts m))%Z) by (unfold floats; lia).
  rewrite Z.mod_small by zsolve.
  replace (4 * floats (verts m) / 32)%Z with (floats (verts m) / 8)%Z by zsolve.
  split; reflexivity.
Qed.

Lemma stored_vertex_count_witness :
  load_mesh ShapeMeshes_new (CallLoadConeMesh 1 1 3) =
    Some (InitializeMesh ShapeMeshes_new (verts (LoadConeMesh_data 1 1 3))
            (indices (LoadConeMesh_data 1 1 3))) /\
  (floats (vertex_buffer (snd (InitializeMesh ShapeMeshes_new (verts (LoadConeMesh_data 1 1 3))
            (indices (LoadConeMesh_data 1 1 3))))) < 8 * 2 ^ 32)%Z /\
  nVertices (snd (InitializeMesh ShapeMeshes_new (verts (LoadConeMesh_data 1 1 3))
            (indices (LoadConeMesh_data 1 1 3)))) =
  (byte_length (snd (InitializeMesh ShapeMeshes_new (verts (LoadConeMesh_data 1 1 3))
            (indices (LoadConeMesh_data 1 1 3)))) / 32)%Z.
Proof.
  split; [reflexivity|]. split; [vm_compute; reflexivity|].
  apply (proj1 (stored_vertex_count ShapeMeshes_new
    (fst (InitializeMesh ShapeMeshes_new (verts (LoadConeMesh_data 1 1 3))
            (indices (LoadConeMesh_data 1 1 3))))
    (CallLoadConeMesh 1 1 3)
    (snd (InitializeMesh ShapeMeshes_new (verts (LoadConeMesh_data 1 1 3))
            (indices (LoadConeMesh_data 1 1 3)))) eq_refl ltac:(vm_compute; reflexivity))).
Defined.

Lemma vertex_attrs_app (n : nat) (a b : list R) :
  length a = (8 * n)%nat -> vertex_attrs (a ++ b) = vertex_attrs a ++ vertex_attrs b.
Proof.
  revert a. induction n as [|n IH]; intros a H.
  - destruct a; [reflexivity | cbn in H; lia].
  - do 8 (destruct a as [|? a]; [cbn in H; lia|]).
    cbn [app vertex_attrs]. rewrite IH; [reflexivity | cbn in H; lia].
Qed.

Lemma Forall_vertex_attrs_flat_map {A : Type} (P : R * vec3 -> Prop) (f : A -> list R)
  (k : nat) (l : list A) :
  (forall x, In x l -> length (f x) = (8 * k)%nat /\ Forall P (vertex_attrs (f x))) ->
  Forall P (vertex_attrs (flat_map f l)).
Proof.
  induction l as [|x l IH]; intros H; [constructor|].
  cbn [flat_map]. destruct (H x (or_introl eq_refl)) as [Hl Hx].
  rewrite (vertex_attrs_app k) by exact Hl.
  apply Forall_app. split; [exact Hx|].
  apply IH. intros; apply H; right; assumption.
Qed.

(** C10: every vertex of LoadTubeMesh carries a vertical normal: the
    bottom-ring vertices ([y = 0]) carry [(0, -1, 0)] and the top-ring
    vertices ([y = height]) carry [(0, 1, 0)], for the outer and the inner
    wall alike; no radial normal is emitted. *)
Theorem tube_normals_vertical (outerRadius innerRadius height : R) (numSlices : Z) :
  Forall (fun '(y, nrm) => (y = 0 /\ nrm = V3 0 (-1) 0) \/ (y = height /\ nrm = V3 0 1 0))
    (vertex_attrs (verts (LoadTubeMesh_data outerRadius innerRadius height numSlices))).
Proof.
  cbn [verts LoadTubeMesh_data].
  apply (Forall_vertex_attrs_flat_map _ _ 4). intros i _. split; [reflexivity|].
  cbn [vtx app vertex_attrs].
  repeat apply Forall_cons; try apply Forall_nil;
    first [ left; split; reflexivity | right; split; reflexivity ].
Qed.

Lemma triangles_app (n : nat) (a b : list Z) :
  length a = (3 * n)%nat -> triangles (a ++ b) = triangles a ++ triangles b.
Proof.
  revert a. induction n as [|n IH]; intros a H.
  - destruct a; [reflexivity | cbn in H; lia].
  - do 3 (destruct a as [|? a]; [cbn in H; lia|]).
    cbn [app triangles]. rewrite IH; [reflexivity | cbn in H; lia].
Qed.

Lemma Forall_triangles_flat_map {A : Type} (P : Z * Z * Z -> Prop) (f : A -> list Z)
  (k : nat) (l : list A) :
  (forall x, In x l -> length (f x) = (3 * k)%nat /\ Forall P (triangles (f x))) ->
  Forall P (triangles (flat_map f l)).
Proof.
  induction l as [|x l IH]; intros H; [constructor|].
  cbn [flat_map]. destruct (H x (or_introl eq_refl)) as [Hl Hx].
  rewrite (triangles_app k) by exact Hl.
  apply Forall_app. split; [exact Hx|].
  apply IH. intros; apply H; right; assumption.
Qed.

(** C6: for the partial cone with [arcDegrees < 360], no emitted triangle has
    a vertex of the first angular sample ([i = 0]) and a vertex of the last
    one ([i = numSlices], after the clamp of [numSlices] to at least 3): the
    two boundary edges stay unconnected. *)
Theorem partial_cone_open (radius height : R) (numSlices : Z) (arcDegrees : R) :
  arcDegrees < 360 ->
  Forall (fun '(a, b, c) =>
      ~ (In 0%Z (map partial_cone_column [a; b; c]) /\
         In (clamp3 numSlices) (map partial_cone_column [a; b; c])))
    (triangles (indices (DrawPartialConeMesh_data radius height numSlices arcDegrees))).
Proof.
  intros _. pose proof (clamp3_ge numSlices) as Hn.
  cbn [indices DrawPartialConeMesh_data].
  apply (Forall_triangles_flat_map _ _ 2). intros i Hi%in_range. split; [reflexivity|].
  cbn [triangles]. unfold partial_cone_column, u32.
  repeat apply Forall_cons; try apply Forall_nil; cbn [map In];
    intros [H0 HN];
    destruct H0 as [H0|[H0|[H0|[]]]]; destruct HN as [HN|[HN|[HN|[]]]]; zsolve.
Qed.

Lemma partial_cone_open_witness :
  180 < 360 /\
  Forall (fun '(a, b, c) =>
      ~ (In 0%Z (map partial_cone_column [a; b; c]) /\
         In (clamp3 3) (map partial_cone_column [a; b; c])))
    (triangles (indices (DrawPartialConeMesh_data 1 1 3 180))).
Proof. split; [lra | apply (partial_cone_open 1 1 3 180); lra]. Defined.

(** ** Sine cone normal accumulation *)

Local Open Scope Z_scope.

Lemma length_add_at (l : list vec3) (k : nat) (d : vec3) :
  length (add_at l k d) = length l.
Proof. revert k; induction l as [|x r IH]; intros [|k]; cbn; auto. Qed.

Lemma nth_add_at_other (l : list vec3) (k n : nat) (d : vec3) :
  k <> n -> nth k (add_at l n d) vzero = nth k l vzero.
Proof.
  revert k n; induction l as [|x r IH]; intros k n Hkn; [reflexivity|].
  destruct n as [|n], k as [|k]; cbn; try reflexivity; try lia.
  apply IH; lia.
Qed.

Lemma nth_add_at_same (l : list vec3) (n : nat) (d : vec3) :
  (n < length l)%nat -> nth n (add_at l n d) vzero = vadd (nth n l vzero) d.
Proof.
  revert n; induction l as [|x r IH]; intros n Hn; cbn in Hn; [lia|].
  destruct n as [|n]; cbn; [reflexivity|]. apply IH; lia.
Qed.

Lemma range_snoc (a b : Z) : a < b -> range a b = range a (b - 1) ++ [b - 1].
Proof.
  intros H. unfold range.
  replace (Z.to_nat (b - a)) with (S (Z.to_nat (b - 1 - a))) by lia.
  rewrite seq_S, map_app. cbn. do 2 f_equal. lia.
Qed.

Lemma nth_flat_map_const {A B : Type} (f : A -> list B) (c : nat) (l : list A)
  (i j : nat) (d : B) (da : A) :
  (forall x, length (f x) = c) -> (i < length l)%nat -> (j < c)%nat ->
  nth (i * c + j) (flat_map f l) d = nth j (f (nth i l da)) d.
Proof.
  intros Hc. revert i; induction l as [|x r IH]; intros i Hi Hj; cbn in Hi; [lia|].
  cbn [flat_map]. destruct i as [|i].
  - cbn. rewrite app_nth1; [reflexivity | rewrite Hc; lia].
  - rewrite app_nth2 by (rewrite Hc; nia).
    rewrite Hc. replace (S i * c + j - c)%nat with (i * c + j)%nat by nia.
    cbn. now apply IH; [lia|].
Qed.

Lemma nth_map_range {B : Type} (f : Z -> B) (T j : Z) (d : B) :
  0 <= j < T -> nth (Z.to_nat j) (map f (range 0 T)) d = f j.
Proof.
  intros Hj. rewrite nth_indep with (d' := f 0%Z)
    by (rewrite length_map, range_length; lia).
  rewrite map_nth. now rewrite nth_range.
Qed.

Lemma cpow_0 (y : R) : cpow 0 y = 0%R.
Proof. unfold cpow. destruct (Rle_dec 0 0); [reflexivity | lra]. Qed.

Lemma sine_positions_length br h f sa sfr sp rs hs :
  0 <= rs -> 0 <= hs ->
  length (sine_positions br h f sa sfr sp rs hs) = (Z.to_nat (hs + 1) * Z.to_nat (rs + 1))%nat.
Proof.
  intros Hr Hh. unfold sine_positions.
  rewrite flat_map_length_const with (c := Z.to_nat (rs + 1)).
  - rewrite range_length. lia.
  - intros x _. cbv zeta. rewrite length_map, range_length. f_equal; lia.
Qed.

(** The top row of positions: every column sits at the same point. *)
Lemma sine_tip_position br h f sa sfr sp rs hs j :
  0 <= rs -> 1 <= hs -> 0 <= j <= rs ->
  pos_at (sine_positions br h f sa sfr sp rs hs) (hs * (rs + 1) + j) =
  V3 (fl hs * (h / fl hs)) (0 * (1 - f)
     + sa * sin (sfr * (fl hs / fl hs) * 2 * (13176795 / 4194304) + sp))%R 0.
Proof.
  intros Hr Hh Hj. unfold pos_at, sine_positions.
  replace (Z.to_nat (hs * (rs + 1) + j)) with
    (Z.to_nat hs * Z.to_nat (rs + 1) + Z.to_nat j)%nat by lia.
  rewrite nth_flat_map_const with (c := Z.to_nat (rs + 1)) (da := 0%Z).
  - rewrite nth_range by lia. cbv zeta. rewrite nth_map_range by lia.
    replace (1 - fl hs / fl hs)%R with 0%R
      by (unfold fl; field; apply not_0_IZR; lia).
    rewrite cpow_0. cbn [vscale vy vz]. f_equal; ring.
  - intros x. cbv zeta. rewrite length_map, range_length. f_equal; lia.
  - rewrite range_length. lia.
  - lia.
Qed.

Lemma sine_cells_last (rs hs : Z) : 1 <= rs -> 1 <= hs ->
  exists pre, sine_cells rs hs = pre ++ [(hs - 1, rs - 1)] /\
    forall i j, In (i, j) pre ->
      0 <= i /\ 0 <= j /\ (i + 1) * (rs + 1) + j + 1 < hs * (rs + 1) + rs.
Proof.
  intros Hr Hh. unfold sine_cells.
  rewrite (range_snoc 0 hs) by lia. rewrite flat_map_app. cbn [flat_map].
  rewrite (range_snoc 0 rs) by lia. rewrite map_app, app_nil_r. cbn [map].
  eexists. rewrite app_assoc. split; [reflexivity|].
  rewrite <- (range_snoc 0 rs) by lia.
  intros i j Hin. apply in_app_or in Hin as [Hin | Hin].
  - apply in_flat_map in Hin as [i' [Hi' Hin]].
    apply in_map_iff in Hin as [j' [Heq Hj']]. injection Heq as <- <-.
    apply in_range in Hi', Hj'. nia.
  - apply in_map_iff in Hin as [j' [Heq Hj']]. injection Heq as <- <-.
    apply in_range in Hj'. nia.
Qed.

Lemma sine_cell_length rs P nm c :
  length (sine_accumulate_cell rs P nm c) = length nm.
Proof.
  destruct c as [i j]. unfold sine_accumulate_cell. cbv zeta.
  now rewrite !length_add_at.
Qed.

Lemma sine_cell_other rs P nm i j k : 0 <= i -> 0 <= j -> 0 <= rs ->
  (Z.to_nat ((i + 1) * (rs + 1) + j + 1) < k)%nat ->
  nth k (sine_accumulate_cell rs P nm (i, j)) vzero = nth k nm vzero.
Proof.
  intros Hi Hj Hr Hk. unfold sine_accumulate_cell. cbv zeta.
  rewrite !nth_add_at_other by nia. reflexivity.
Qed.

Lemma sine_cell_last rs P nm i j : 0 <= i -> 0 <= j -> 0 <= rs ->
  (Z.to_nat ((i + 1) * (rs + 1) + j + 1) < length nm)%nat ->
  let i1 := (i + 1) * (rs + 1) + j in
  let i2 := i * (rs + 1) + j + 1 in
  let i3 := (i + 1) * (rs + 1) + j + 1 in
  let n1 := vcross (vsub (pos_at P i3) (pos_at P i2)) (vsub (pos_at P i1) (pos_at P i2)) in
  nth (Z.to_nat i3) (sine_accumulate_cell rs P nm (i, j)) vzero =
  vadd (nth (Z.to_nat i3) nm vzero) (vscale n1 (vlength n1)).
Proof.
  intros Hi Hj Hr Hk. unfold sine_accumulate_cell. cbv zeta.
  rewrite nth_add_at_same by (rewrite !length_add_at; lia).
  rewrite !nth_add_at_other by nia. reflexivity.
Qed.

Lemma sine_fold_other rs P cs nm k :
  (forall i j, In (i, j) cs -> 0 <= i /\ 0 <= j /\ 0 <= rs /\
     (Z.to_nat ((i + 1) * (rs + 1) + j + 1) < k)%nat) ->
  nth k (fold_left (sine_accumulate_cell rs P) cs nm) vzero = nth k nm vzero.
Proof.
  revert nm; induction cs as [|[i j] cs IH]; intros nm Hcs; [reflexivity|].
  cbn [fold_left]. rewrite IH by (intros; apply Hcs; right; assumption).
  destruct (Hcs i j (or_introl eq_refl)) as (? & ? & ? & ?).
  now apply sine_cell_other.
Qed.

Lemma sine_fold_length rs P cs nm :
  length (fold_left (sine_accumulate_cell rs P) cs nm) = length nm.
Proof.
  revert nm; induction cs as [|c cs IH]; intros nm; [reflexivity|].
  cbn [fold_left]. now rewrite IH, sine_cell_length.
Qed.

Lemma nth_map_const_vzero {A : Type} (l : list A) (k : nat) :
  nth k (map (fun _ => vzero) l) vzero = vzero.
Proof. revert k; induction l as [|x l IH]; intros [|k]; cbn; auto. Qed.

Lemma vcross_self (a : vec3) : vcross a a = vzero.
Proof. destruct a; unfold vcross, vzero; cbn; f_equal; ring. Qed.

(** The accumulated normal of the last vertex of the top row is zero. *)
Lemma sine_tip_normal_zero br h f sa sfr sp rs hs : 1 <= rs -> 1 <= hs ->
  nth (Z.to_nat (hs * (rs + 1) + rs))
    (sine_normals rs hs (sine_positions br h f sa sfr sp rs hs)) vzero = vzero.
Proof.
  intros Hr Hh. unfold sine_normals.
  destruct (sine_cells_last rs hs Hr Hh) as [pre [-> Hpre]].
  rewrite fold_left_app. cbn [fold_left].
  set (P := sine_positions br h f sa sfr sp rs hs).
  set (acc := fold_left (sine_accumulate_cell rs P) pre (map (fun _ => vzero) P)).
  assert (Hlen : length acc = (Z.to_nat (hs + 1) * Z.to_nat (rs + 1))%nat).
  { unfold acc. rewrite sine_fold_length, length_map.
    apply sine_positions_length; lia. }
  assert (Hacc : nth (Z.to_nat (hs * (rs + 1) + rs)) acc vzero = vzero).
  { unfold acc. rewrite sine_fold_other.
    - apply nth_map_const_vzero.
    - intros i j Hin. destruct (Hpre i j Hin) as (? & ? & ?).
      repeat split; try lia. }
  pose proof (sine_cell_last rs P acc (hs - 1) (rs - 1)) as Hl. cbv zeta in Hl.
  replace ((hs - 1 + 1) * (rs + 1) + (rs - 1) + 1) with (hs * (rs + 1) + rs) in Hl by lia.
  replace ((hs - 1 + 1) * (rs + 1) + (rs - 1)) with (hs * (rs + 1) + (rs - 1)) in Hl by lia.
  rewrite Hl by (try lia; rewrite Hlen; nia).
  unfold P. rewrite !sine_tip_position by lia. rewrite vcross_self. fold P.
  rewrite Hacc. unfold vadd, vscale, vzero. cbn. f_equal; ring.
Qed.

Lemma vertex_attrs_flat_map {A : Type} (f : A -> list R) (l : list A) :
  (forall x, length (f x) = 8%nat) ->
  vertex_attrs (flat_map f l) = flat_map (fun x => vertex_attrs (f x)) l.
Proof.
  intros Hf. induction l as [|x l IH]; [reflexivity|].
  cbn [flat_map]. rewrite (vertex_attrs_app 1) by (rewrite Hf; lia).
  now rewrite IH.
Qed.

(** C7 (area-weighted normals of the sine cone): for every
    [radialSegments >= 1] and [heightSegments >= 1], the last vertex of the
    top row, index [heightSegments * (radialSegments + 1) + radialSegments],
    is touched only by the last cell's second triangle, whose two top corners
    coincide (the taper [pow(1 - 1, 0.65)] is 0). Its accumulated normal is
    therefore the zero vector, and the emitted normal [normalize(0)] has
    length 0 in the real model (NaN components in [float]), not length 1. *)
Theorem sine_cone_tip_normal_degenerate (baseRadius height flattenFactor sineAmplitude
  sineFrequency sinePhase : R) (radialSegments heightSegments : Z) :
  1 <= radialSegments -> 1 <= heightSegments ->
  exists y nrm,
    nth_error (vertex_attrs (verts (DrawSineConeMesh_data baseRadius height flattenFactor
      sineAmplitude sineFrequency sinePhase radialSegments heightSegments)))
      (Z.to_nat (heightSegments * (radialSegments + 1) + radialSegments)) = Some (y, nrm)
    /\ vlength nrm = 0%R.
Proof.
  intros Hr Hh. cbn [verts DrawSineConeMesh_data].
  rewrite vertex_attrs_flat_map by (intros; reflexivity).
  set (P := sine_positions baseRadius height flattenFactor sineAmplitude sineFrequency
              sinePhase radialSegments heightSegments).
  set (L := Z.to_nat (heightSegments * (radialSegments + 1) + radialSegments)).
  assert (HL : (L < length P)%nat).
  { unfold L, P. rewrite sine_positions_length by lia. nia. }
  match goal with |- context [nth_error (flat_map ?g ?l) _] =>
    assert (E := nth_flat_map_const g 1 l L 0 (0%R, vzero) 0%nat
                   (fun _ => eq_refl) ltac:(rewrite length_seq; lia) ltac:(lia));
    rewrite (nth_error_nth' (flat_map g l) (0%R, vzero))
      by (rewrite flat_map_length_const with (c := 1%nat) by reflexivity;
          rewrite length_seq; lia)
  end.
  rewrite Nat.mul_1_r, Nat.add_0_r in E. rewrite E, seq_nth by lia.
  cbn [nth vertex_attrs vtx]. do 2 eexists. split; [reflexivity|].
  cbv beta. rewrite Nat.add_0_l. unfold L, P. rewrite sine_tip_normal_zero by lia.
  unfold vlength, normalize, vscale, vdot, vzero. cbn [vx vy vz].
  match goal with |- sqrt ?x = 0%R => replace x with 0%R by ring; exact sqrt_0 end.
Qed.

Lemma sine_cone_tip_normal_degenerate_witness :
  exists y nrm,
    nth_error (vertex_attrs (verts (DrawSineConeMesh_data 1 1 0 0 1 0 3 1))) 7 = Some (y, nrm)
    /\ vlength nrm = 0%R.
Proof. apply (sine_cone_tip_normal_degenerate 1 1 0 0 1 0 3 1); lia. Defined.

(** ** Sphere seam *)

Local Open Scope R_scope.

Lemma firstn_skipn_flat_map {A B : Type} (f : A -> list B) (c : nat) (l : list A)
  (i j n : nat) (d : A) :
  (forall x, In x l -> length (f x) = c) -> (i < length l)%nat -> (j + n <= c)%nat ->
  firstn n (skipn (i * c + j) (flat_map f l)) = firstn n (skipn j (f (nth i l d))).
Proof.
  intros Hc. revert i; induction l as [|x r IH]; intros i Hi Hj; cbn in Hi; [lia|].
  cbn [flat_map]. pose proof (Hc x (or_introl eq_refl)) as Hx.
  destruct i as [|i].
  - cbn [Nat.mul nth Nat.add]. rewrite skipn_app, firstn_app, length_skipn, Hx.
    replace (n - (c - j))%nat with 0%nat by lia. now rewrite firstn_O, app_nil_r.
  - rewrite skipn_app, skipn_all2 by (rewrite Hx; nia). rewrite Hx. cbn [app nth].
    replace (S i * c + j - c)%nat with (i * c + j)%nat by nia.
    apply IH; [intros; apply Hc; right; assumption | lia | lia].
Qed.

Lemma sphere_vertex_at (latitudeSegments longitudeSegments : Z) (radius : R) (lat lon : Z) :
  (0 <= lat <= latitudeSegments)%Z -> (0 <= lon <= longitudeSegments)%Z ->
  vertex_at (verts (LoadSphereMesh_data latitudeSegments longitudeSegments radius))
    (Z.to_nat (lat * (longitudeSegments + 1) + lon)) =
  sphere_vertex radius (fl lat * Pi / fl latitudeSegments) lon longitudeSegments
    (1 - fl lat / fl latitudeSegments).
Proof.
  intros Hlat Hlon. unfold vertex_at. cbn [verts LoadSphereMesh_data].
  replace (8 * Z.to_nat (lat * (longitudeSegments + 1) + lon))%nat with
    (Z.to_nat lat * (8 * Z.to_nat (longitudeSegments + 1)) + 8 * Z.to_nat lon)%nat by lia.
  rewrite firstn_skipn_flat_map with (d := 0%Z).
  - rewrite nth_range by lia. cbv beta zeta.
    replace (8 * Z.to_nat lon)%nat with (Z.to_nat lon * 8 + 0)%nat by lia.
    rewrite firstn_skipn_flat_map with (d := 0%Z).
    + rewrite nth_range by lia. cbn [skipn]. apply firstn_all2.
      rewrite sphere_vertex_length. lia.
    + intros; apply sphere_vertex_length.
    + rewrite range_length. lia.
    + lia.
  - intros x _. rewrite flat_map_length_const with (c := 8%nat)
      by (intros; apply sphere_vertex_length).
    rewrite range_length. f_equal. lia.
  - rewrite range_length. lia.
  - lia.
Qed.

(** The program's float [Pi] lies just above [PI] (Machin's series). *)
Lemma PI_lt_Pi : PI < Pi.
Proof.
  pose proof (proj2 (PI_2_3_7_ineq 9)) as H.
  unfold tg_alt, PI_2_3_7_tg, Ratan_seq in H. cbn [sum_f_R0 Nat.mul Nat.add pow] in H.
  cbn -[Rmult Rplus Rinv Rdiv Ropp IZR] in H.
  unfold Pi. lra.
Qed.

Lemma Pi_lt_3PI_2 : 2 * Pi < 3 * PI.
Proof.
  pose proof (proj1 (PI_2_3_7_ineq 1)) as H.
  unfold tg_alt, PI_2_3_7_tg, Ratan_seq in H. cbn [sum_f_R0 Nat.mul Nat.add pow] in H.
  cbn -[Rmult Rplus Rinv Rdiv Ropp IZR] in H.
  unfold Pi. lra.
Qed.

Lemma sin_2Pi_pos : 0 < sin (2 * Pi).
Proof.
  replace (2 * Pi) with ((2 * Pi - 2 * PI) + 2 * INR 1 * PI)
    by (cbn [INR]; ring).
  rewrite sin_period.
  pose proof PI_lt_Pi. pose proof Pi_lt_3PI_2.
  apply sin_gt_0; lra.
Qed.

(** C5 counterexample: sphere with 2 latitude and 4 longitude segments,
    radius 1, row [lat = 1]: the [z] of the vertex at [lon = 0] (vertex 5) is
    0 and the [z] of the vertex at [lon = 4] (vertex 9) is
    [sin(Pi / 2) * sin(2 * Pi) > 0]. *)
Lemma sphere_seam_counterexample :
  nth 2 (vertex_at (verts (LoadSphereMesh_data 2 4 1)) 5) 0 <>
  nth 2 (vertex_at (verts (LoadSphereMesh_data 2 4 1)) 9) 0.
Proof.
  change (vertex_at ?l 9) with (vertex_at l (Z.to_nat (1 * (4 + 1) + 4))).
  change (vertex_at ?l 5) with (vertex_at l (Z.to_nat (1 * (4 + 1) + 0))).
  rewrite (sphere_vertex_at 2 4 1 1 0) by lia.
  rewrite (sphere_vertex_at 2 4 1 1 4) by lia.
  unfold sphere_vertex, fl. cbn [vtx nth].
  replace (IZR (0 * 2) * Pi / IZR 4) with 0 by (cbn; field).
  replace (IZR (4 * 2) * Pi / IZR 4) with (2 * Pi) by (cbn; field).
  rewrite sin_0.
  assert (Hs : 0 < sin (IZR 1 * Pi / IZR 2)).
  { apply sin_gt_0; pose proof PI_lt_Pi; pose proof Pi_lt_3PI_2; cbn; lra. }
  pose proof sin_2Pi_pos. nra.
Qed.

(** C5 (amended): along the seam of a full sphere, the vertex at [lon = 0]
    and the vertex at [lon = longitudeSegments] of any row share [y], [ny]
    and [v], and their [u] are exactly 1 and 0. Their [x], [z], [nx] and [nz]
    are those of the angles 0 and [2 * Pi], with the program's float
    constant [Pi = 3.1415927410125732], slightly above pi; as
    [sin (2 * Pi) > 0], the two positions coincide only where
    [radius * sin theta = 0] (the poles). *)
Theorem sphere_seam_vertices (latitudeSegments longitudeSegments : Z) (radius : R) (lat : Z) :
  (1 <= longitudeSegments)%Z -> (0 <= lat <= latitudeSegments)%Z ->
  let m := LoadSphereMesh_data latitudeSegments longitudeSegments radius in
  let theta := fl lat * Pi / fl latitudeSegments in
  let v := 1 - fl lat / fl latitudeSegments in
  vertex_at (verts m) (Z.to_nat (lat * (longitudeSegments + 1))) =
    vtx (radius * sin theta) (radius * cos theta) 0 (sin theta) (cos theta) 0 1 v /\
  vertex_at (verts m) (Z.to_nat (lat * (longitudeSegments + 1) + longitudeSegments)) =
    vtx (radius * sin theta * cos (2 * Pi)) (radius * cos theta)
        (radius * sin theta * sin (2 * Pi))
        (sin theta * cos (2 * Pi)) (cos theta) (sin theta * sin (2 * Pi)) 0 v /\
  0 < sin (2 * Pi).
Proof.
  intros Hl Hlat m theta v. subst m theta v.
  split; [|split; [|exact sin_2Pi_pos]].
  - replace (lat * (longitudeSegments + 1))%Z with
      (lat * (longitudeSegments + 1) + 0)%Z by ring.
    rewrite sphere_vertex_at by lia. unfold sphere_vertex, fl.
    replace (IZR (0 * 2) * Pi / IZR longitudeSegments) with 0 by (cbn; unfold Rdiv; ring).
    replace (1 - IZR 0 / IZR longitudeSegments) with 1 by (unfold Rdiv; ring).
    rewrite sin_0, cos_0, !Rmult_1_r, !Rmult_0_r. reflexivity.
  - rewrite sphere_vertex_at by lia. unfold sphere_vertex, fl.
    assert (HL : IZR longitudeSegments <> 0) by (apply not_0_IZR; lia).
    replace (IZR (longitudeSegments * 2) * Pi / IZR longitudeSegments) with (2 * Pi)
      by (rewrite mult_IZR; field; exact HL).
    replace (1 - IZR longitudeSegments / IZR longitudeSegments) with 0
      by (field; exact HL).
    reflexivity.
Qed.

Lemma sphere_seam_vertices_witness :
  vertex_at (verts (LoadSphereMesh_data 2 4 1)) (Z.to_nat (1 * (4 + 1))) =
    vtx (1 * sin (fl 1 * Pi / fl 2)) (1 * cos (fl 1 * Pi / fl 2)) 0
        (sin (fl 1 * Pi / fl 2)) (cos (fl 1 * Pi / fl 2)) 0 1 (1 - fl 1 / fl 2) /\
  vertex_at (verts (LoadSphereMesh_data 2 4 1)) (Z.to_nat (1 * (4 + 1) + 4)) =
    vtx (1 * sin (fl 1 * Pi / fl 2) * cos (2 * Pi)) (1 * cos (fl 1 * Pi / fl 2))
        (1 * sin (fl 1 * Pi / fl 2) * sin (2 * Pi))
        (sin (fl 1 * Pi / fl 2) * cos (2 * Pi)) (cos (fl 1 * Pi / fl 2))
        (sin (fl 1 * Pi / fl 2) * sin (2 * Pi)) 0 (1 - fl 1 / fl 2) /\
  0 < sin (2 * Pi).
Proof. apply (sphere_seam_vertices 2 4 1 1); lia. Defined.

(** ** Drawing: the calls of the Draw functions and what they read *)

Local Open Scope Z_scope.

Lemma vertex_attrs_length (n : nat) (l : list R) :
  length l = (8 * n)%nat -> length (vertex_attrs l) = n.
Proof.
  revert l. induction n as [|n IH]; intros l H.
  - destruct l; [reflexivity | cbn in H; lia].
  - do 8 (destruct l as [|? l]; [cbn in H; lia|]).
    cbn [vertex_attrs length]. rewrite IH; [reflexivity | cbn in H; lia].
Qed.

Lemma vertex_normal_seg (P : vec3 -> Prop) (pre seg post : list R) (np ns : nat) (k : Z) :
  length pre = (8 * np)%nat -> length seg = (8 * ns)%nat ->
  Forall (fun a => P (snd a)) (vertex_attrs seg) ->
  Z.of_nat np <= k < Z.of_nat (np + ns) ->
  P (vertex_normal (pre ++ seg ++ post) k).
Proof.
  intros Hp Hs HP Hk. unfold vertex_normal.
  rewrite (vertex_attrs_app np) by exact Hp.
  rewrite (vertex_attrs_app ns (seg) post) by exact Hs.
  rewrite app_nth2 by (rewrite (vertex_attrs_length np) by exact Hp; lia).
  rewrite app_nth1 by (rewrite (vertex_attrs_length np), (vertex_attrs_length ns) by assumption; lia).
  rewrite (vertex_attrs_length np) by exact Hp.
  rewrite Forall_nth in HP. apply HP.
  rewrite (vertex_attrs_length ns) by exact Hs. lia.
Qed.

Lemma elements_seg (pre seg post : list Z) (count offset : Z) :
  0 <= offset -> 0 <= count ->
  length pre = Z.to_nat offset -> length seg = Z.to_nat count ->
  elements (pre ++ seg ++ post) count offset = seg.
Proof.
  intros Ho Hc Hp Hs. unfold elements.
  rewrite <- Hp, skipn_app, skipn_all, Nat.sub_diag, skipn_O. cbn [app].
  rewrite <- Hs, firstn_app, firstn_all, Nat.sub_diag, firstn_O, app_nil_r.
  reflexivity.
Qed.

Lemma flat_map_ext_in {A B : Type} (f g : A -> list B) (l : list A) :
  (forall x, In x l -> f x = g x) -> flat_map f l = flat_map g l.
Proof.
  induction l as [|x l IH]; intros H; [reflexivity|]. cbn.
  rewrite H by (left; reflexivity). rewrite IH by (intros; apply H; right; assumption).
  reflexivity.
Qed.

Lemma flat_map_if_range {A : Type} (g : Z -> list A) (n : Z) : 0 <= n ->
  flat_map (fun i => if i <? n then g i else []) (range 0 (n + 1)) =
  flat_map g (range 0 n).
Proof.
  intros Hn. rewrite (range_snoc 0 (n + 1)) by lia.
  replace (n + 1 - 1) with n by lia.
  rewrite flat_map_app. cbn [flat_map]. rewrite Z.ltb_irrefl, !app_nil_r.
  apply flat_map_ext_in. intros x Hx%in_range.
  destruct (Z.ltb_spec x n); [reflexivity | lia].
Qed.

Lemma u32_id (z : Z) : 0 <= z < 2 ^ 32 -> u32 z = z.
Proof. intros H. unfold u32. apply Z.mod_small. exact H. Qed.

Lemma cylinder_layout (r h : R) (n : Z) :
  let N := clamp3 n in
  exists ib it is vb vt vs,
    indices (LoadCylinderMesh_data r h n) = ib ++ it ++ is /\
    verts (LoadCylinderMesh_data r h n) = vb ++ vt ++ vs /\
    length ib = Z.to_nat (N * 3) /\ length it = Z.to_nat (N * 3) /\
    length is = Z.to_nat (N * 6) /\
    length vb = (8 * Z.to_nat (N + 2))%nat /\ length vt = (8 * Z.to_nat (N + 2))%nat /\
    length vs = (8 * Z.to_nat (2 * N + 2))%nat /\
    (vertex_count (LoadCylinderMesh_data r h n) <= 2 ^ 32 ->
     part_ok (fun nrm => nrm = V3 0 (-1) 0) 0 ib vb /\
     part_ok (fun nrm => nrm = V3 0 1 0) (N + 2) it vt /\
     part_ok (fun nrm => vy nrm = 0%R) (2 * N + 4) is vs).
Proof.
  intros N. pose proof (clamp3_ge n) as HN. fold N in HN.
  pose proof (cylinder_count r h n) as Hc. fold N in Hc.
  cbn [indices verts LoadCylinderMesh_data] in *. fold N in Hc |- *.
  rewrite !(flat_map_if_range _ N) in * by lia.
  do 6 eexists. split; [reflexivity|]. split; [reflexivity|].
  rewrite Hc. clear Hc.
  unfold part_ok, floats.
  repeat split; try (len_solve; lia).
  all: try (rewrite (flat_map_length_const _ 3%nat) by (intros; reflexivity);
            rewrite range_length; lia).
  all: try (rewrite (flat_map_length_const _ 6%nat) by (intros; reflexivity);
            rewrite range_length; lia).
  all: try (apply Forall_flat_map; intros i Hi%in_range;
    repeat (apply Forall_cons; [rewrite u32_id|]); try apply Forall_nil;
    len_solve; pose proof (mod_bound (i + 1) N); try zsolve).
  all: try (replace (N + 1 - 0) with (N + 1) by lia;
    rewrite !Nat2Z.inj_add, !Nat2Z.inj_mul, !Z2Nat.id by lia; zsolve).
  all: try (rewrite (vertex_attrs_app 1) by reflexivity; apply Forall_app; split;
    [repeat constructor|]).
  all: first
    [ apply (Forall_vertex_attrs_flat_map _ _ 1);
      intros i _; split; [reflexivity|]; repeat constructor
    | apply (Forall_vertex_attrs_flat_map _ _ 2);
      intros i _; split; [reflexivity|]; repeat constructor ].
Qed.

Lemma elements_first (seg post : list Z) (count : Z) :
  0 <= count -> length seg = Z.to_nat count -> elements (seg ++ post) count 0 = seg.
Proof.
  intros Hc Hs. unfold elements. cbn [Z.to_nat skipn].
  rewrite <- Hs, firstn_app, firstn_all, Nat.sub_diag, firstn_O, app_nil_r.
  reflexivity.
Qed.

Lemma elements_last (pre seg : list Z) (count offset : Z) :
  0 <= offset -> 0 <= count ->
  length pre = Z.to_nat offset -> length seg = Z.to_nat count ->
  elements (pre ++ seg) count offset = seg.
Proof.
  intros Ho Hc Hp Hs. rewrite <- (app_nil_r seg) at 1.
  apply elements_seg; assumption.
Qed.

Lemma part_normals (P : vec3 -> Prop) (pre seg post : list R) (i : list Z) (np ns : nat) :
  length pre = (8 * np)%nat -> length seg = (8 * ns)%nat ->
  part_ok P (Z.of_nat np) i seg ->
  Forall (fun k => P (vertex_normal (pre ++ seg ++ post) k)) i.
Proof.
  intros Hp Hs [Hi Hv]. eapply Forall_impl; [|exact Hi]. intros k Hk.
  apply (vertex_normal_seg P pre seg post np ns); try assumption.
  unfold floats in Hk. rewrite Hs in Hk. rewrite Nat2Z.inj_mul in Hk.
  replace (Z.of_nat 8 * Z.of_nat ns / 8) with (Z.of_nat ns) in Hk
    by (rewrite Z.mul_comm; symmetry; apply Z.div_mul; lia).
  lia.
Qed.

Lemma part_range (P : vec3 -> Prop) (lo : Z) (i : list Z) (seg : list R) (ns : nat) :
  length seg = (8 * ns)%nat -> part_ok P lo i seg ->
  Forall (fun k => lo <= k < lo + Z.of_nat ns) i.
Proof.
  intros Hs [Hi _]. eapply Forall_impl; [|exact Hi]. intros k Hk.
  unfold floats in Hk. rewrite Hs, Nat2Z.inj_mul in Hk.
  replace (Z.of_nat 8 * Z.of_nat ns / 8) with (Z.of_nat ns) in Hk
    by (rewrite Z.mul_comm; symmetry; apply Z.div_mul; lia).
  exact Hk.
Qed.

(** Reduce a [draws_in_bounds] / [drawn_elements] goal over a concrete call list. *)
Ltac calls_solve :=
  unfold draws_in_bounds;
  cbn [app mesh index_buffer vertex_buffer numSlices vao nIndices nVertices];
  repeat (apply Forall_cons;
    [cbv beta iota; try exact I; rewrite ?length_app; first [lia | simpl; lia] |]);
  apply Forall_nil.

(** X1: for every flag combination the draws of [DrawCylinderMesh] on a loaded cylinder stay inside its index buffer, and with all three parts enabled they read the whole buffer once, in order. *)
Theorem DrawCylinderMesh_buffer (s : ShapeMeshesState) (vaoName : Z) (radius height : R)
  (slices : Z) :
  let m := LoadCylinderMesh_slot s vaoName radius height slices in
  (forall bDrawTop bDrawBottom bDrawSides wireframe,
     draws_in_bounds m (DrawCylinderMesh m bDrawTop bDrawBottom bDrawSides wireframe)) /\
  (forall wireframe,
     drawn_elements m (DrawCylinderMesh m true true true wireframe) = index_buffer (mesh m)).
Proof.
  cbv zeta. unfold LoadCylinderMesh_slot, slot_of.
  cbn [InitializeMesh snd mesh index_buffer vertex_buffer vao numSlices].
  destruct (cylinder_layout radius height slices)
    as (ib & it & is & vb & vt & vs & Hi & Hv & Lib & Lit & Lis & _ & _ & _ & _).
  rewrite Hi. pose proof (clamp3_ge slices). split.
  - intros [] [] [] w; unfold DrawCylinderMesh, SetWireframeMode; cbn [app]; calls_solve.
  - intros w. unfold drawn_elements, DrawCylinderMesh, SetWireframeMode.
    cbn [flat_map app numSlices mesh index_buffer]. rewrite !app_nil_r.
    rewrite elements_first by lia.
    rewrite elements_seg by lia.
    rewrite (app_assoc ib it is), elements_last by (rewrite ?length_app; lia).
    apply app_assoc.
Qed.

(** X2: on a loaded cylinder (vertex count at most 2^32) the bottom draw reads only vertices with normal (0,-1,0), the top draw only (0,1,0), and the side draw only normals with y = 0. *)
Theorem DrawCylinderMesh_part_normals (s : ShapeMeshesState) (vaoName : Z)
  (radius height : R) (slices : Z) (wireframe : bool) :
  vertex_count (LoadCylinderMesh_data radius height slices) <= 2 ^ 32 ->
  let m := LoadCylinderMesh_slot s vaoName radius height slices in
  let normal_of := vertex_normal (vertex_buffer (mesh m)) in
  Forall (fun k => normal_of k = V3 0 (-1) 0)
    (drawn_elements m (DrawCylinderMesh m false true false wireframe)) /\
  Forall (fun k => normal_of k = V3 0 1 0)
    (drawn_elements m (DrawCylinderMesh m true false false wireframe)) /\
  Forall (fun k => vy (normal_of k) = 0%R)
    (drawn_elements m (DrawCylinderMesh m false false true wireframe)).
Proof.
  intros Hsmall. cbv zeta. unfold LoadCylinderMesh_slot, slot_of.
  cbn [InitializeMesh snd mesh index_buffer vertex_buffer vao numSlices].
  destruct (cylinder_layout radius height slices)
    as (ib & it & is & vb & vt & vs & Hi & Hv & Lib & Lit & Lis & Lvb & Lvt & Lvs & Hp).
  destruct (Hp Hsmall) as (Pb & Pt & Ps). clear Hp.
  pose proof (clamp3_ge slices). set (N := clamp3 slices) in *.
  rewrite Hi, Hv. unfold drawn_elements, DrawCylinderMesh, SetWireframeMode.
  cbn [flat_map app mesh index_buffer numSlices]. rewrite !app_nil_r.
  split; [|split].
  - rewrite elements_first by lia.
    change (vb ++ vt ++ vs) with ([] ++ vb ++ vt ++ vs).
    apply (part_normals (fun nrm => nrm = V3 0 (-1) 0) [] vb (vt ++ vs) ib 0
      (Z.to_nat (N + 2))); try assumption.
    reflexivity.
  - rewrite elements_seg by lia.
    replace (N + 2) with (Z.of_nat (Z.to_nat (N + 2))) in Pt by lia.
    apply (part_normals (fun nrm => nrm = V3 0 1 0) vb vt vs it (Z.to_nat (N + 2)) (Z.to_nat (N + 2))); assumption.
  - rewrite (app_assoc ib it is), elements_last by (rewrite ?length_app; lia).
    rewrite <- (app_nil_r vs), (app_assoc vb vt (vs ++ [])).
    replace (2 * N + 4) with (Z.of_nat (2 * Z.to_nat (N + 2))) in Ps by lia.
    apply (part_normals (fun nrm => vy nrm = 0%R) (vb ++ vt) vs [] is (2 * Z.to_nat (N + 2)) (Z.to_nat (2 * N + 2)));
      try assumption.
    rewrite length_app. lia.
Qed.

Lemma DrawCylinderMesh_part_normals_witness :
  vertex_count (LoadCylinderMesh_data 1 1 3) <= 2 ^ 32 /\
  (let m := LoadCylinderMesh_slot ShapeMeshes_new 1 1 1 3 in
   let normal_of := vertex_normal (vertex_buffer (mesh m)) in
   Forall (fun k => normal_of k = V3 0 (-1) 0)
     (drawn_elements m (DrawCylinderMesh m false true false false)) /\
   Forall (fun k => normal_of k = V3 0 1 0)
     (drawn_elements m (DrawCylinderMesh m true false false false)) /\
   Forall (fun k => vy (normal_of k) = 0%R)
     (drawn_elements m (DrawCylinderMesh m false false true false))).
Proof.
  assert (H : vertex_count (LoadCylinderMesh_data 1 1 3) <= 2 ^ 32)
    by (rewrite cylinder_count; vm_compute; discriminate).
  split; [exact H | exact (DrawCylinderMesh_part_normals ShapeMeshes_new 1 1 1 3 false H)].
Defined.

Lemma normalize_vy_pos (a b c : R) : (0 < b)%R -> (0 < vy (normalize (V3 a b c)))%R.
Proof.
  intros Hb. unfold normalize, vscale, inversesqrt, vdot. cbn [vx vy vz].
  apply Rmult_lt_0_compat; [exact Hb|].
  apply Rinv_0_lt_compat, sqrt_lt_R0.
  pose proof (Rle_0_sqr a) as Ha. pose proof (Rle_0_sqr c) as Hc.
  unfold Rsqr in Ha, Hc. nra.
Qed.

Lemma cone_layout (r h : R) (n : Z) :
  let N := clamp3 n in
  exists ifan iside vs1 vrest,
    indices (LoadConeMesh_data r h n) = ifan ++ iside /\
    verts (LoadConeMesh_data r h n) = vs1 ++ vrest /\
    length ifan = Z.to_nat (N * 3) /\ length iside = Z.to_nat (N * 3) /\
    length vs1 = (8 * Z.to_nat (N + 1))%nat /\ length vrest = (8 * Z.to_nat (2 * N + 1))%nat /\
    (vertex_count (LoadConeMesh_data r h n) <= 2 ^ 32 ->
     part_ok (fun nrm => nrm = V3 0 (-1) 0) 0 ifan vs1 /\
     part_ok (fun nrm => (0 < h)%R -> (0 < vy nrm)%R) (N + 1) iside vrest).
Proof.
  intros N. pose proof (clamp3_ge n) as HN. fold N in HN.
  pose proof (cone_count r h n) as Hc. fold N in Hc.
  cbn [indices verts LoadConeMesh_data] in *. fold N in Hc |- *.
  do 4 eexists. split; [reflexivity|]. split; [reflexivity|].
  rewrite Hc. clear Hc.
  unfold part_ok, floats.
  repeat split; try (len_solve; lia).
  all: try (rewrite (flat_map_length_const _ 3%nat) by (intros; reflexivity);
            rewrite range_length; lia).
  all: try (apply Forall_flat_map; intros i Hi%in_range;
    repeat (apply Forall_cons; [rewrite u32_id|]); try apply Forall_nil;
    len_solve; pose proof (mod_bound (i + 1) N); try zsolve).
  all: try (rewrite (vertex_attrs_app 1) by reflexivity; apply Forall_app; split;
    [repeat constructor; cbn [snd vy]; intros; lra|]).
  - apply (Forall_vertex_attrs_flat_map _ _ 1).
    intros i _; split; [reflexivity|]; repeat constructor.
  - apply (Forall_vertex_attrs_flat_map _ _ 2).
    intros i _; split; [reflexivity|].
    repeat constructor; cbn [snd vy]; intros Hh; apply normalize_vy_pos; lra.
Qed.

Lemma Forall_conj {A : Type} (P Q : A -> Prop) (l : list A) :
  Forall P l -> Forall Q l -> Forall (fun x => P x /\ Q x) l.
Proof.
  rewrite !Forall_forall. intros HP HQ x Hx. split; [apply HP | apply HQ]; exact Hx.
Qed.

(** X3: on a loaded cone with a non-zero VAO the draws stay inside the index buffer; with [bDrawBottom] they read the whole buffer, without it they read the buffer minus its first [numSlices * 3] indices. *)
Theorem DrawConeMesh_buffer (s : ShapeMeshesState) (vaoName : Z) (radius height : R)
  (slices : Z) (bDrawBottom wireframe : bool) :
  vaoName <> 0 ->
  let m := LoadConeMesh_slot s vaoName radius height slices in
  draws_in_bounds m (DrawConeMesh m bDrawBottom wireframe) /\
  drawn_elements m (DrawConeMesh m true wireframe) = index_buffer (mesh m) /\
  drawn_elements m (DrawConeMesh m false wireframe) =
    skipn (Z.to_nat (clamp3 slices * 3)) (index_buffer (mesh m)).
Proof.
  intros Hvao. cbv zeta. unfold LoadConeMesh_slot, slot_of.
  cbn [InitializeMesh snd mesh index_buffer vertex_buffer vao numSlices].
  destruct (cone_layout radius height slices)
    as (ifan & iside & vs1 & vrest & Hi & Hv & Lf & Ls & _ & _ & _).
  rewrite Hi. pose proof (clamp3_ge slices).
  unfold DrawConeMesh. cbn [vao numSlices].
  replace (vaoName =? 0) with false by (symmetry; apply Z.eqb_neq; exact Hvao).
  split; [|split].
  - destruct bDrawBottom; unfold SetWireframeMode; cbn [app]; calls_solve.
  - unfold drawn_elements, SetWireframeMode.
    cbn [flat_map app numSlices mesh index_buffer]. rewrite !app_nil_r.
    rewrite elements_first by lia. rewrite elements_last by lia. reflexivity.
  - unfold drawn_elements, SetWireframeMode.
    cbn [flat_map app numSlices mesh index_buffer]. rewrite !app_nil_r.
    rewrite elements_last by lia.
    rewrite <- Lf, skipn_app, skipn_all, Nat.sub_diag, skipn_O. reflexivity.
Qed.

Lemma DrawConeMesh_buffer_witness :
  1 <> 0 /\
  (let m := LoadConeMesh_slot ShapeMeshes_new 1 1 1 3 in
   draws_in_bounds m (DrawConeMesh m true false) /\
   drawn_elements m (DrawConeMesh m true false) = index_buffer (mesh m) /\
   drawn_elements m (DrawConeMesh m false false) =
     skipn (Z.to_nat (clamp3 3 * 3)) (index_buffer (mesh m))).
Proof.
  assert (H : 1 <> 0) by lia.
  split; [exact H | exact (DrawConeMesh_buffer ShapeMeshes_new 1 1 1 3 true false H)].
Defined.

(** X4: on a loaded cone (vertex count at most 2^32) the side draw reads only vertices from [numSlices + 1] on, whose normals point upward when the height is positive; the bottom draw adds a prefix whose normals are all (0,-1,0). *)
Theorem DrawConeMesh_part_normals (s : ShapeMeshesState) (vaoName : Z) (radius height : R)
  (slices : Z) (wireframe : bool) :
  vertex_count (LoadConeMesh_data radius height slices) <= 2 ^ 32 ->
  let m := LoadConeMesh_slot s vaoName radius height slices in
  let normal_of := vertex_normal (vertex_buffer (mesh m)) in
  Forall (fun k => clamp3 slices + 1 <= k /\ ((0 < height)%R -> (0 < vy (normal_of k))%R))
    (drawn_elements m (DrawConeMesh m false wireframe)) /\
  exists bottom,
    drawn_elements m (DrawConeMesh m true wireframe) =
      bottom ++ drawn_elements m (DrawConeMesh m false wireframe) /\
    Forall (fun k => normal_of k = V3 0 (-1) 0) bottom.
Proof.
  intros Hsmall. cbv zeta. unfold LoadConeMesh_slot, slot_of.
  cbn [InitializeMesh snd mesh index_buffer vertex_buffer vao numSlices].
  destruct (cone_layout radius height slices)
    as (ifan & iside & vs1 & vrest & Hi & Hv & Lf & Ls & Lv1 & Lvr & Hp).
  destruct (Hp Hsmall) as (Pb & Ps). clear Hp.
  pose proof (clamp3_ge slices). set (N := clamp3 slices) in *.
  rewrite Hi, Hv. unfold DrawConeMesh. cbn [vao numSlices].
  destruct (Z.eqb_spec vaoName 0).
  { split; [constructor|]. exists []. split; [reflexivity | constructor]. }
  unfold drawn_elements, SetWireframeMode.
  cbn [flat_map app numSlices mesh index_buffer]. rewrite !app_nil_r.
  rewrite elements_first by lia. rewrite elements_last by lia.
  split.
  - apply Forall_conj.
    + replace (N + 1) with (Z.of_nat (Z.to_nat (N + 1))) in Ps by lia.
      eapply Forall_impl; [|exact (part_range _ _ _ _ _ Lvr Ps)].
      intros k Hk; cbv beta in *; lia.
    + rewrite <- (app_nil_r vrest).
      replace (N + 1) with (Z.of_nat (Z.to_nat (N + 1))) in Ps by lia.
      apply (part_normals (fun nrm => (0 < height)%R -> (0 < vy nrm)%R) vs1 vrest []
        iside (Z.to_nat (N + 1)) (Z.to_nat (2 * N + 1))); assumption.
  - exists ifan. split; [reflexivity|].
    change (vs1 ++ vrest) with ([] ++ vs1 ++ vrest).
    apply (part_normals (fun nrm => nrm = V3 0 (-1) 0) [] vs1 vrest ifan 0
      (Z.to_nat (N + 1))); try assumption. reflexivity.
Qed.

Lemma DrawConeMesh_part_normals_witness :
  vertex_count (LoadConeMesh_data 1 1 3) <= 2 ^ 32 /\
  (let m := LoadConeMesh_slot ShapeMeshes_new 1 1 1 3 in
   let normal_of := vertex_normal (vertex_buffer (mesh m)) in
   Forall (fun k => clamp3 3 + 1 <= k /\ ((0 < 1)%R -> (0 < vy (normal_of k))%R))
     (drawn_elements m (DrawConeMesh m false false)) /\
   exists bottom,
     drawn_elements m (DrawConeMesh m true false) =
       bottom ++ drawn_elements m (DrawConeMesh m false false) /\
     Forall (fun k => normal_of k = V3 0 (-1) 0) bottom).
Proof.
  assert (H : vertex_count (LoadConeMesh_data 1 1 3) <= 2 ^ 32)
    by (rewrite cone_count; vm_compute; discriminate).
  split; [exact H | exact (DrawConeMesh_part_normals ShapeMeshes_new 1 1 1 3 false H)].
Defined.

(** Rewrite the innermost [u32 x] of the goal to [x], leaving the bound
    [0 <= x < 2 ^ 32] as a side goal. *)
Ltac u32_inner :=
  repeat match goal with
  | |- context [u32 ?x] =>
      lazymatch x with
      | context [u32 _] => fail
      | _ => rewrite (u32_id x)
      end
  end.

Lemma tapered_layout (b t h : R) (n : Z) :
  let N := clamp3 n in
  exists ib it is vb vt vs,
    indices (LoadTaperedCylinderMesh_data b t h n) = ib ++ it ++ is /\
    verts (LoadTaperedCylinderMesh_data b t h n) = vb ++ vt ++ vs /\
    length ib = Z.to_nat (N * 3) /\ length it = Z.to_nat (N * 3) /\
    length is = Z.to_nat (N * 6) /\
    length vb = (8 * Z.to_nat (N + 1))%nat /\ length vt = (8 * Z.to_nat (N + 1))%nat /\
    length vs = (8 * Z.to_nat (2 * N))%nat /\
    (vertex_count (LoadTaperedCylinderMesh_data b t h n) <= 2 ^ 32 ->
     part_ok (fun nrm => nrm = V3 0 (-1) 0) 0 ib vb /\
     part_ok (fun nrm => nrm = V3 0 1 0) (N + 1) it vt /\
     part_ok (fun _ => True) (2 * N + 2) is vs).
Proof.
  intros N. pose proof (clamp3_ge n) as HN. fold N in HN.
  assert (Hc : vertex_count (LoadTaperedCylinderMesh_data b t h n) = 4 * N + 2).
  { apply vertex_count_eq; [lia|]. cbn [verts LoadTaperedCylinderMesh_data]. fold N.
    len_solve. lia. }
  rewrite Hc. clear Hc.
  cbn [indices verts LoadTaperedCylinderMesh_data]. fold N.
  do 6 eexists. split; [reflexivity|]. split; [reflexivity|].
  unfold part_ok, floats.
  repeat split; try (len_solve; lia).
  all: try (rewrite (flat_map_length_const _ 3%nat) by (intros; reflexivity);
            rewrite range_length; lia).
  all: try (rewrite (flat_map_length_const _ 6%nat) by (intros; reflexivity);
            rewrite range_length; lia).
  all: try (apply Forall_flat_map; intros i Hi%in_range; cbv zeta;
    repeat (apply Forall_cons; [u32_inner|]); try apply Forall_nil;
    len_solve; pose proof (mod_bound (i + 1) N); try zsolve).
  all: try (apply Forall_forall; intros; exact I).
  all: rewrite (vertex_attrs_app 1) by reflexivity; apply Forall_app; split;
    [repeat constructor|].
  all: apply (Forall_vertex_attrs_flat_map _ _ 1);
    intros i _; split; [reflexivity|]; repeat constructor.
Qed.

(** X5: for every flag combination the draws of [DrawTaperedCylinderMesh] on a loaded tapered cylinder stay inside the index buffer, and with all parts enabled they read the whole buffer. *)
Theorem DrawTaperedCylinderMesh_buffer (s : ShapeMeshesState) (vaoName : Z)
  (bottomRadius topRadius height : R) (slices : Z) :
  let m := LoadTaperedCylinderMesh_slot s vaoName bottomRadius topRadius height slices in
  (forall bDrawTop bDrawBottom bDrawSides wireframe,
     draws_in_bounds m (DrawTaperedCylinderMesh m bDrawTop bDrawBottom bDrawSides wireframe)) /\
  (forall wireframe,
     drawn_elements m (DrawTaperedCylinderMesh m true true true wireframe) =
     index_buffer (mesh m)).
Proof.
  cbv zeta. unfold LoadTaperedCylinderMesh_slot, slot_of.
  cbn [InitializeMesh snd mesh index_buffer vertex_buffer vao numSlices].
  destruct (tapered_layout bottomRadius topRadius height slices)
    as (ib & it & is & vb & vt & vs & Hi & Hv & Lib & Lit & Lis & _ & _ & _ & _).
  rewrite Hi. pose proof (clamp3_ge slices). split.
  - intros [] [] [] w; unfold DrawTaperedCylinderMesh, SetWireframeMode; cbn [app];
      calls_solve.
  - intros w. unfold drawn_elements, DrawTaperedCylinderMesh, SetWireframeMode.
    cbn [flat_map app numSlices mesh index_buffer]. rewrite !app_nil_r.
    rewrite elements_first by lia.
    rewrite elements_seg by lia.
    rewrite (app_assoc ib it is), elements_last by (rewrite ?length_app; lia).
    apply app_assoc.
Qed.

(** X6: on a loaded tapered cylinder (vertex count at most 2^32) the bottom draw reads only normals (0,-1,0), the top draw only (0,1,0), and the side draw only vertices [2N+2, 4N+2). *)
Theorem DrawTaperedCylinderMesh_part_normals (s : ShapeMeshesState) (vaoName : Z)
  (bottomRadius topRadius height : R) (slices : Z) (wireframe : bool) :
  vertex_count (LoadTaperedCylinderMesh_data bottomRadius topRadius height slices)
    <= 2 ^ 32 ->
  let m := LoadTaperedCylinderMesh_slot s vaoName bottomRadius topRadius height slices in
  let normal_of := vertex_normal (vertex_buffer (mesh m)) in
  let N := clamp3 slices in
  Forall (fun k => normal_of k = V3 0 (-1) 0)
    (drawn_elements m (DrawTaperedCylinderMesh m false true false wireframe)) /\
  Forall (fun k => normal_of k = V3 0 1 0)
    (drawn_elements m (DrawTaperedCylinderMesh m true false false wireframe)) /\
  Forall (fun k => 2 * N + 2 <= k < 4 * N + 2)
    (drawn_elements m (DrawTaperedCylinderMesh m false false true wireframe)).
Proof.
  intros Hsmall. cbv zeta. unfold LoadTaperedCylinderMesh_slot, slot_of.
  cbn [InitializeMesh snd mesh index_buffer vertex_buffer vao numSlices].
  destruct (tapered_layout bottomRadius topRadius height slices)
    as (ib & it & is & vb & vt & vs & Hi & Hv & Lib & Lit & Lis & Lvb & Lvt & Lvs & Hp).
  destruct (Hp Hsmall) as (Pb & Pt & Ps). clear Hp.
  pose proof (clamp3_ge slices). set (N := clamp3 slices) in *.
  rewrite Hi, Hv. unfold drawn_elements, DrawTaperedCylinderMesh, SetWireframeMode.
  cbn [flat_map app numSlices mesh index_buffer]. rewrite !app_nil_r.
  split; [|split].
  - rewrite elements_first by lia.
    change (vb ++ vt ++ vs) with ([] ++ vb ++ vt ++ vs).
    apply (part_normals (fun nrm => nrm = V3 0 (-1) 0) [] vb (vt ++ vs) ib 0
      (Z.to_nat (N + 1))); try assumption.
    reflexivity.
  - rewrite elements_seg by lia.
    replace (N + 1) with (Z.of_nat (Z.to_nat (N + 1))) in Pt by lia.
    apply (part_normals (fun nrm => nrm = V3 0 1 0) vb vt vs it (Z.to_nat (N + 1))
      (Z.to_nat (N + 1))); assumption.
  - rewrite (app_assoc ib it is), elements_last by (rewrite ?length_app; lia).
    eapply Forall_impl; [|exact (part_range _ _ _ _ _ Lvs Ps)].
    intros k Hk; cbv beta in *; lia.
Qed.

Lemma DrawTaperedCylinderMesh_part_normals_witness :
  vertex_count (LoadTaperedCylinderMesh_data 1 0.5 1 3) <= 2 ^ 32 /\
  (let m := LoadTaperedCylinderMesh_slot ShapeMeshes_new 1 1 0.5 1 3 in
   let normal_of := vertex_normal (vertex_buffer (mesh m)) in
   let N := clamp3 3 in
   Forall (fun k => normal_of k = V3 0 (-1) 0)
     (drawn_elements m (DrawTaperedCylinderMesh m false true false false)) /\
   Forall (fun k => normal_of k = V3 0 1 0)
     (drawn_elements m (DrawTaperedCylinderMesh m true false false false)) /\
   Forall (fun k => 2 * N + 2 <= k < 4 * N + 2)
     (drawn_elements m (DrawTaperedCylinderMesh m false false true false))).
Proof.
  assert (H : vertex_count (LoadTaperedCylinderMesh_data 1 0.5 1 3) <= 2 ^ 32).
  { unfold vertex_count, floats. cbn [verts LoadTaperedCylinderMesh_data].
    len_solve. vm_compute. discriminate. }
  split; [exact H |
    exact (DrawTaperedCylinderMesh_part_normals ShapeMeshes_new 1 1 0.5 1 3 false H)].
Defined.

(** X7: on a loaded box with a non-zero VAO, [DrawBoxMeshSide] draws 6 in-bounds indices, and the face drawn for each [BoxSide] has the normal of the matching block of [LoadBoxMesh] (front (0,0,-1), back (0,-1,0), left (-1,0,0), right (1,0,0), top (0,1,0), bottom (0,0,1)). *)
Theorem DrawBoxMeshSide_faces (s : ShapeMeshesState) (vaoName ns : Z) (side : BoxSide.t)
  (wireframe : bool) :
  vaoName <> 0 ->
  let m := LoadBoxMesh_slot s vaoName ns in
  draws_in_bounds m (DrawBoxMeshSide m side wireframe) /\
  length (drawn_elements m (DrawBoxMeshSide m side wireframe)) = 6%nat /\
  Forall (fun k => vertex_normal (vertex_buffer (mesh m)) k =
      match side with
      | BoxSide.front => V3 0 0 (-1)
      | BoxSide.back => V3 0 (-1) 0
      | BoxSide.left => V3 (-1) 0 0
      | BoxSide.right => V3 1 0 0
      | BoxSide.top => V3 0 1 0
      | BoxSide.bottom => V3 0 0 1
      end)
    (drawn_elements m (DrawBoxMeshSide m side wireframe)).
Proof.
  intros Hvao. cbv zeta. unfold LoadBoxMesh_slot, slot_of, DrawBoxMeshSide, not_initialized.
  cbn [InitializeMesh snd mesh index_buffer vertex_buffer vao numSlices nIndices].
  replace (vaoName =? 0) with false by (symmetry; apply Z.eqb_neq; exact Hvao).
  cbn [orb]. unfold SetWireframeMode.
  destruct side; (split; [calls_solve | split]);
    unfold drawn_elements; cbn [flat_map app mesh index_buffer vertex_buffer];
    try reflexivity; repeat constructor.
Qed.

Lemma DrawBoxMeshSide_faces_witness :
  1 <> 0 /\
  (let m := LoadBoxMesh_slot ShapeMeshes_new 1 0 in
   draws_in_bounds m (DrawBoxMeshSide m BoxSide.front false) /\
   length (drawn_elements m (DrawBoxMeshSide m BoxSide.front false)) = 6%nat /\
   Forall (fun k => vertex_normal (vertex_buffer (mesh m)) k = V3 0 0 (-1))
     (drawn_elements m (DrawBoxMeshSide m BoxSide.front false))).
Proof.
  assert (H : 1 <> 0) by lia.
  split; [exact H | exact (DrawBoxMeshSide_faces ShapeMeshes_new 1 0 BoxSide.front false H)].
Defined.

(** X8: with VAO 0 [DrawConeMesh] issues nothing and [DrawSpringMesh] only its error line; [DrawSpringMesh] also stops when [nVertices] is 0; with VAO 0 or no indices the box, box-side, half-sphere, torus, half-torus and tube draws write only their error line. *)
Theorem guarded_draws_unloaded (m : MeshSlot) (side : BoxSide.t) (bDrawBottom wireframe : bool) :
  (vao m = 0 ->
   DrawConeMesh m bDrawBottom wireframe = [] /\
   DrawSpringMesh m wireframe = [cerr "Error: Spring mesh not initialized properly."]) /\
  (nVertices (mesh m) = 0 ->
   DrawSpringMesh m wireframe = [cerr "Error: Spring mesh not initialized properly."]) /\
  ((vao m = 0 \/ nIndices (mesh m) = 0) ->
   DrawBoxMesh m wireframe = [cerr "Error: Torus mesh not initialized properly."] /\
   DrawBoxMeshSide m side wireframe = [cerr "Error: BoxSide mesh not initialized properly."] /\
   DrawHalfSphereMesh m wireframe =
     [cerr "Error: Half-Sphere mesh VAO or indices not properly initialized."] /\
   DrawTorusMesh m wireframe = [cerr "Error: Torus mesh VAO or indices not properly initialized."] /\
   DrawHalfTorusMesh m wireframe =
     [cerr "Error: Torus mesh VAO or indices not properly initialized."] /\
   DrawTubeMesh m wireframe = [cerr "Error: Tube mesh not initialized properly."]).
Proof.
  unfold DrawConeMesh, DrawBoxMesh, DrawBoxMeshSide, DrawHalfSphereMesh,
    DrawTorusMesh, DrawHalfTorusMesh, DrawSpringMesh, DrawTubeMesh, not_initialized.
  split; [|split].
  - intros H. rewrite H. split; reflexivity.
  - intros H. rewrite H, Bool.orb_true_r. reflexivity.
  - intros [H | H]; rewrite H; [|rewrite ?Bool.orb_true_r]; repeat split; reflexivity.
Qed.

(** X9: before [LoadFinMesh], the fin draws read past the empty element buffer (they use hard-coded counts), while [DrawCylinderMesh], [DrawSphereMesh] and [DrawFinMesh] of an unloaded slot stay in bounds (their counts are 0). *)
Theorem fin_draws_unloaded :
  ~ draws_in_bounds empty_slot (DrawFinFrontOnly empty_slot) /\
  ~ draws_in_bounds empty_slot (DrawFinBackOnly empty_slot) /\
  ~ draws_in_bounds empty_slot (DrawFinSides empty_slot) /\
  ~ draws_in_bounds empty_slot (DrawFinUntexturedSides empty_slot) /\
  (forall t b s w, draws_in_bounds empty_slot (DrawCylinderMesh empty_slot t b s w)) /\
  (forall w, draws_in_bounds empty_slot (DrawSphereMesh empty_slot w)) /\
  (forall w, draws_in_bounds empty_slot (DrawFinMesh empty_slot w)).
Proof.
  unfold draws_in_bounds, DrawFinFrontOnly, DrawFinBackOnly, DrawFinSides,
    DrawFinUntexturedSides, DrawCylinderMesh, DrawSphereMesh, DrawFinMesh, draw_indexed,
    SetWireframeMode.
  repeat split.
  1-4: intros Hf; repeat (apply Forall_cons_iff in Hf; destruct Hf as [Hh Hf]);
       repeat match goal with H : Forall _ (_ :: _) |- _ => inversion H; subst; clear H end;
       try (cbv in Hh; lia);
       match goal with H : _ |- _ => cbn in H; lia end.
  all: intros; destruct_all bool; calls_solve.
Qed.

(** X10: after [LoadFinMesh] every fin draw stays in bounds; [DrawFinMesh] reads the whole buffer and leaves [GL_FILL]; [DrawFinSides] is front then back; sides plus untextured sides is the whole buffer; front normals are (0,0,-1), back (0,0,1), untextured sides have z = 0. *)
Theorem fin_faces (old : MeshSlot) (vaoName : Z) (b t h th : R) (wireframe : bool) :
  let m := LoadFinMesh_slot old vaoName b t h th in
  let vb := vertex_buffer (mesh m) in
  draws_in_bounds m (DrawFinMesh m wireframe) /\ draws_in_bounds m (DrawFinSides m) /\
  draws_in_bounds m (DrawFinFrontOnly m) /\ draws_in_bounds m (DrawFinBackOnly m) /\
  draws_in_bounds m (DrawFinUntexturedSides m) /\
  drawn_elements m (DrawFinMesh m wireframe) = index_buffer (mesh m) /\
  polygon_modes (DrawFinMesh m wireframe) = [wireframe; false] /\
  drawn_elements m (DrawFinSides m) =
    drawn_elements m (DrawFinFrontOnly m) ++ drawn_elements m (DrawFinBackOnly m) /\
  drawn_elements m (DrawFinSides m) ++ drawn_elements m (DrawFinUntexturedSides m) =
    index_buffer (mesh m) /\
  Forall (fun k => vertex_normal vb k = V3 0 0 (-1)) (drawn_elements m (DrawFinFrontOnly m)) /\
  Forall (fun k => vertex_normal vb k = V3 0 0 1) (drawn_elements m (DrawFinBackOnly m)) /\
  Forall (fun k => vz (vertex_normal vb k) = 0%R)
    (drawn_elements m (DrawFinUntexturedSides m)).
Proof.
  cbv zeta. unfold LoadFinMesh_slot, DrawFinMesh, DrawFinSides, DrawFinFrontOnly,
    DrawFinBackOnly, DrawFinUntexturedSides, draw_indexed.
  cbn [mesh index_buffer vertex_buffer nIndices indices verts LoadFinMesh_data].
  repeat split; try calls_solve; try reflexivity;
    unfold drawn_elements; cbn [flat_map app mesh index_buffer vertex_buffer];
    repeat constructor.
Qed.

(** X11: for any buffers uploaded by [InitializeMesh], the box, plane, prism, pyramid, sphere, hemisphere, half-sphere, torus, half-torus, spring, tube and curved-cone draws never read past the buffers. *)
Theorem initialized_draws_in_bounds (s : ShapeMeshesState) (vaoName ns : Z) (d : MeshData)
  (wireframe : bool) :
  let m := slot_of s vaoName ns d in
  draws_in_bounds m (DrawBoxMesh m wireframe) /\
  draws_in_bounds m (DrawPlaneMesh m wireframe) /\
  draws_in_bounds m (DrawPrismMesh m wireframe) /\
  draws_in_bounds m (DrawPyramid3Mesh m wireframe) /\
  draws_in_bounds m (DrawPyramid4Mesh m wireframe) /\
  draws_in_bounds m (DrawSphereMesh m wireframe) /\
  draws_in_bounds m (DrawHemisphereMesh m wireframe) /\
  draws_in_bounds m (DrawHalfSphereMesh m wireframe) /\
  draws_in_bounds m (DrawTorusMesh m wireframe) /\
  draws_in_bounds m (DrawHalfTorusMesh m wireframe) /\
  draws_in_bounds m (DrawSpringMesh m wireframe) /\
  draws_in_bounds m (DrawTubeMesh m wireframe) /\
  draws_in_bounds m (DrawCurvedConeMesh m).
Proof.
  cbv zeta. unfold slot_of, InitializeMesh.
  cbn [snd mesh index_buffer vertex_buffer nIndices nVertices vao].
  pose proof (u32_le (Z.of_nat (length (indices d)))) as Hi.
  pose proof (u32_le (floats (verts d) / 8)) as Hv.
  assert (0 <= floats (verts d) / 8) by (unfold floats; apply Z.div_pos; lia).
  set (ni := u32 (Z.of_nat (length (indices d)))) in *.
  set (nv := u32 (floats (verts d) / 8)) in *.
  assert (0 <= ni / 2 <= ni) by (split; [apply Z.div_pos | apply Z.div_le_upper_bound]; lia).
  unfold DrawBoxMesh, DrawPlaneMesh, DrawPrismMesh, DrawPyramid3Mesh, DrawPyramid4Mesh,
    DrawSphereMesh, DrawHemisphereMesh, DrawHalfSphereMesh, DrawTorusMesh, DrawHalfTorusMesh,
    DrawSpringMesh, DrawTubeMesh, DrawCurvedConeMesh, draw_indexed, draw_arrays,
    SetWireframeMode, not_initialized.
  repeat split;
    repeat match goal with |- context [if ?b then _ else _] => destruct b end;
    calls_solve.
Qed.

(** X12: for buffers uploaded by [InitializeMesh] with fewer than 2^32 indices, a non-zero VAO, indices and vertices, the full draws read the whole index buffer and the half draws read its first half (rounded down). *)
Theorem initialized_draws_whole (s : ShapeMeshesState) (vaoName ns : Z) (d : MeshData)
  (wireframe : bool) :
  Z.of_nat (length (indices d)) < 2 ^ 32 -> vaoName <> 0 -> indices d <> [] ->
  0 < vertex_count d < 2 ^ 32 ->
  let m := slot_of s vaoName ns d in
  drawn_elements m (DrawBoxMesh m wireframe) = indices d /\
  drawn_elements m (DrawPlaneMesh m wireframe) = indices d /\
  drawn_elements m (DrawSphereMesh m wireframe) = indices d /\
  drawn_elements m (DrawHemisphereMesh m wireframe) = indices d /\
  drawn_elements m (DrawTorusMesh m wireframe) = indices d /\
  drawn_elements m (DrawSpringMesh m wireframe) = indices d /\
  drawn_elements m (DrawTubeMesh m wireframe) = indices d /\
  drawn_elements m (DrawCurvedConeMesh m) = indices d /\
  drawn_elements m (DrawHalfSphereMesh m wireframe) =
    firstn (Nat.div (length (indices d)) 2) (indices d) /\
  drawn_elements m (DrawHalfTorusMesh m wireframe) =
    firstn (Nat.div (length (indices d)) 2) (indices d).
Proof.
  intros Hi Hvao Hne Hv. cbv zeta. unfold slot_of, InitializeMesh.
  cbn [snd mesh index_buffer vertex_buffer nIndices nVertices vao].
  unfold vertex_count in Hv.
  rewrite (u32_id (Z.of_nat (length (indices d)))) by lia.
  rewrite (u32_id (floats (verts d) / 8)) by lia.
  assert (Hl : (Z.of_nat (length (indices d)) =? 0) = false).
  { apply Z.eqb_neq. destruct (indices d); [congruence | simpl; lia]. }
  assert (Hv0 : (floats (verts d) / 8 =? 0) = false) by (apply Z.eqb_neq; lia).
  unfold DrawBoxMesh, DrawPlaneMesh, DrawSphereMesh, DrawHemisphereMesh, DrawHalfSphereMesh,
    DrawTorusMesh, DrawHalfTorusMesh, DrawSpringMesh, DrawTubeMesh, DrawCurvedConeMesh,
    draw_indexed, SetWireframeMode, not_initialized.
  cbn [vao mesh nIndices nVertices index_buffer].
  replace (vaoName =? 0) with false by (symmetry; apply Z.eqb_neq; exact Hvao).
  rewrite Hl, Hv0. cbn [orb].
  unfold drawn_elements, elements. cbn [flat_map app index_buffer mesh].
  change (Z.to_nat 0) with 0%nat. cbn [skipn].
  assert (Hd : Z.to_nat (Z.of_nat (length (indices d)) / 2) = Nat.div (length (indices d)) 2)
    by (rewrite <- (Nat2Z.id (Nat.div _ 2)), Nat2Z.inj_div; reflexivity).
  rewrite Hd, !Nat2Z.id, firstn_all, !app_nil_r.
  repeat split; reflexivity.
Qed.

Lemma initialized_draws_whole_witness :
  let d := LoadBoxMesh_data in
  Z.of_nat (length (indices d)) < 2 ^ 32 /\ 1 <> 0 /\ indices d <> [] /\
  0 < vertex_count d < 2 ^ 32 /\
  drawn_elements (slot_of ShapeMeshes_new 1 0 d) (DrawHalfTorusMesh (slot_of ShapeMeshes_new 1 0 d) false) =
    firstn (Nat.div (length (indices d)) 2) (indices d).
Proof.
  cbv zeta.
  assert (H1 : Z.of_nat (length (indices LoadBoxMesh_data)) < 2 ^ 32) by (vm_compute; reflexivity).
  assert (H2 : 1 <> 0) by lia.
  assert (H3 : indices LoadBoxMesh_data <> []) by (vm_compute; discriminate).
  assert (H4 : 0 < vertex_count LoadBoxMesh_data < 2 ^ 32) by (vm_compute; split; reflexivity).
  refine (conj H1 (conj H2 (conj H3 (conj H4 _)))).
  apply (initialized_draws_whole ShapeMeshes_new 1 0 LoadBoxMesh_data false H1 H2 H3 H4).
Defined.

Lemma call_n_deprecated (msg : String.string) (body : list GLCall) (k : nat) (warned : bool) :
  call_n (S k) (deprecated msg body) warned =
    (true, (if negb warned then [cerr msg] else []) ++ concat (repeat body (S k))).
Proof.
  revert warned. induction k as [|k IH]; intros warned.
  - cbn. rewrite !app_nil_r. reflexivity.
  - change (call_n (S (S k)) (deprecated msg body) warned) with
      (let '(w, out) := deprecated msg body warned in
       let '(w', out') := call_n (S k) (deprecated msg body) w in (w', out ++ out')).
    unfold deprecated at 1. cbv iota beta. rewrite IH. cbn [negb repeat concat].
    rewrite <- !app_assoc. reflexivity.
Qed.

Lemma messages_app (msg : String.string) (a b : list GLCall) :
  messages msg (a ++ b) = (messages msg a + messages msg b)%nat.
Proof. unfold messages. rewrite filter_app, length_app. reflexivity. Qed.

Lemma messages_concat_repeat (msg : String.string) (body : list GLCall) (k : nat) :
  messages msg body = 0%nat -> messages msg (concat (repeat body k)) = 0%nat.
Proof.
  intros H. induction k as [|k IH]; [reflexivity|].
  cbn [repeat concat]. rewrite messages_app, H, IH. reflexivity.
Qed.

Lemma messages_self (msg : String.string) : messages msg [cerr msg] = 1%nat.
Proof. unfold messages. cbn. rewrite String.eqb_refl. reflexivity. Qed.

Lemma call_n_wrapper (f : bool -> bool * list GLCall) (msg : String.string)
  (body : list GLCall) (k : nat) :
  (forall w, f w = deprecated msg body w) ->
  call_n (S k) f false = (true, cerr msg :: concat (repeat body (S k))) /\
  (messages msg body = 0%nat ->
   messages msg (snd (call_n (S k) f false)) = 1%nat).
Proof.
  intros Hf.
  assert (E : forall k w, call_n k f w = call_n k (deprecated msg body) w).
  { induction k0 as [|k0 IH]; intros w; [reflexivity|].
    cbn [call_n]. rewrite Hf. destruct (deprecated msg body w) as [w1 o1].
    cbv beta iota. rewrite IH. reflexivity. }
  rewrite E, call_n_deprecated. split; [reflexivity|].
  intros H0. cbn [snd negb]. change (cerr msg :: ?l) with ([cerr msg] ++ l).
  rewrite messages_app, messages_self, messages_concat_repeat by exact H0. reflexivity.
Qed.

Ltac wrapper_solve :=
  match goal with |- exists msg, call_n (S ?k) ?f false = _ /\ _ =>
    let E := fresh "E" in
    eassert (E : forall w, f w = deprecated _ _ w) by (intros w; reflexivity);
    destruct (call_n_wrapper _ _ _ k E) as [E1 E2];
    eexists; split; [exact E1 | apply E2];
    unfold DrawBoxMesh, DrawConeMesh, DrawCylinderMesh, DrawPlaneMesh, DrawPrismMesh,
      DrawPyramid3Mesh, DrawPyramid4Mesh, DrawSphereMesh, DrawHemisphereMesh,
      DrawTaperedCylinderMesh, DrawTorusMesh, DrawHalfTorusMesh, draw_indexed, draw_arrays,
      SetWireframeMode;
    repeat match goal with |- context [if ?b then _ else _] => destruct b end;
    reflexivity
  end.

(** X13: calling a deprecated Lines wrapper k+1 times from a fresh object writes its warning exactly once, first, followed by k+1 copies of the wrapped call's output, and leaves the flag set. *)
Theorem deprecated_wrappers_warn_once
  (box cone cyl plane prism p3 p4 sphere hemisphere tc torus : MeshSlot) (k : nat) :
  Forall (fun f : bool -> bool * list GLCall =>
    exists msg,
      call_n (S k) f false = (true, cerr msg :: concat (repeat (snd (f true)) (S k))) /\
      messages msg (snd (call_n (S k) f false)) = 1%nat)
    [DrawBoxMeshLines box; DrawConeMeshLines cone; DrawCylinderMeshLines cyl;
     DrawPlaneMeshLines plane; DrawPrismMeshLines prism; DrawPyramid3MeshLines p3;
     DrawPyramid4MeshLines p4; DrawSphereMeshLines sphere; DrawHalfSphereMeshLines hemisphere;
     DrawTaperedCylinderMeshLines tc; DrawTorusMeshLines torus; DrawHalfTorusMeshLines torus].
Proof.
  repeat apply Forall_cons; try apply Forall_nil; wrapper_solve.
Qed.

(** X14: the cone, cylinder and tapered-cylinder Lines wrappers never select [GL_LINE] (they pass [true] to a non-wireframe parameter), while the other wrappers select [GL_LINE] whenever they draw. *)
Theorem deprecated_wrappers_polygon_mode
  (box cone cyl plane prism p3 p4 sphere hemisphere tc torus : MeshSlot) (w : bool) :
  ~ In true (polygon_modes (snd (DrawConeMeshLines cone w))) /\
  ~ In true (polygon_modes (snd (DrawCylinderMeshLines cyl w))) /\
  ~ In true (polygon_modes (snd (DrawTaperedCylinderMeshLines tc w))) /\
  polygon_modes (snd (DrawPlaneMeshLines plane w)) = [true] /\
  polygon_modes (snd (DrawPrismMeshLines prism w)) = [true] /\
  polygon_modes (snd (DrawSphereMeshLines sphere w)) = [true] /\
  polygon_modes (snd (DrawHalfSphereMeshLines hemisphere w)) = [true] /\
  polygon_modes (snd (DrawPyramid3MeshLines p3 w)) =
    (if nVertices (mesh p3) =? 0 then [] else [true]) /\
  polygon_modes (snd (DrawPyramid4MeshLines p4 w)) =
    (if nVertices (mesh p4) =? 0 then [] else [true]) /\
  polygon_modes (snd (DrawBoxMeshLines box w)) =
    (if not_initialized box then [] else [true]) /\
  polygon_modes (snd (DrawTorusMeshLines torus w)) =
    (if not_initialized torus then [] else [true]) /\
  polygon_modes (snd (DrawHalfTorusMeshLines torus w)) =
    (if not_initialized torus then [] else [true]).
Proof.
  unfold DrawConeMeshLines, DrawCylinderMeshLines, DrawTaperedCylinderMeshLines,
    DrawPlaneMeshLines, DrawPrismMeshLines, DrawSphereMeshLines, DrawHalfSphereMeshLines,
    DrawPyramid3MeshLines, DrawPyramid4MeshLines, DrawBoxMeshLines, DrawTorusMeshLines,
    DrawHalfTorusMeshLines, deprecated,
    DrawBoxMesh, DrawConeMesh, DrawCylinderMesh, DrawPlaneMesh, DrawPrismMesh,
    DrawPyramid3Mesh, DrawPyramid4Mesh, DrawSphereMesh, DrawHemisphereMesh,
    DrawTaperedCylinderMesh, DrawTorusMesh, DrawHalfTorusMesh, draw_indexed, draw_arrays,
    SetWireframeMode.
  cbn [snd]. destruct w; cbn [negb app];
  repeat split;
    repeat match goal with |- context [if ?b then _ else _] => destruct b end;
    try reflexivity; cbn; intuition congruence.
Qed.

Local Open Scope R_scope.

Lemma vdot_self_zero (a : vec3) : vdot a a = 0 -> a = vzero.
Proof.
  destruct a as [x y z]. unfold vdot, vzero. cbn [vx vy vz]. intros H.
  assert (x = 0) by nra. assert (y = 0) by nra. assert (z = 0) by nra. subst. reflexivity.
Qed.

Lemma vdot_normalize (a b : vec3) : vdot (normalize a) b = vdot a b * inversesqrt (vdot a a).
Proof. destruct a as [x y z], b as [u v w]. unfold normalize, vscale, vdot. cbn [vx vy vz]. ring. Qed.

Lemma normalize_unit (a : vec3) : a <> vzero -> vlength (normalize a) = 1.
Proof.
  intros Ha. assert (Hd : vdot a a <> 0) by (intros H; apply Ha, vdot_self_zero, H).
  assert (Hpos : 0 < vdot a a).
  { destruct a as [x y z]. unfold vdot in *. cbn [vx vy vz] in *. nra. }
  unfold vlength. rewrite vdot_normalize.
  assert (E : vdot a (normalize a) = vdot a a * inversesqrt (vdot a a)).
  { destruct a as [x y z]. unfold normalize, vscale, vdot. cbn [vx vy vz]. ring. }
  rewrite E. unfold inversesqrt.
  pose proof (sqrt_lt_R0 _ Hpos) as Hs. pose proof (sqrt_sqrt _ (Rlt_le _ _ Hpos)) as Hss.
  replace (vdot a a * / sqrt (vdot a a) * / sqrt (vdot a a)) with 1 by (rewrite <- Hss at 1; field; lra).
  apply sqrt_1.
Qed.

(** X15: for three non-collinear points, [CalculateTriangleNormal] is orthogonal to both edges from [p1] and has length 1. *)
Theorem CalculateTriangleNormal_spec (p1 p2 p3 : vec3) :
  vcross (vsub p2 p1) (vsub p3 p1) <> vzero ->
  vdot (CalculateTriangleNormal p1 p2 p3) (vsub p2 p1) = 0 /\
  vdot (CalculateTriangleNormal p1 p2 p3) (vsub p3 p1) = 0 /\
  vlength (CalculateTriangleNormal p1 p2 p3) = 1.
Proof.
  intros H. unfold CalculateTriangleNormal. rewrite !vdot_normalize.
  split; [|split].
  - replace (vdot (vcross (vsub p2 p1) (vsub p3 p1)) (vsub p2 p1)) with 0
      by (destruct p1 as [x1 y1 z1], p2 as [x2 y2 z2], p3 as [x3 y3 z3]; unfold vdot, vcross, vsub; cbn [vx vy vz]; ring). ring.
  - replace (vdot (vcross (vsub p2 p1) (vsub p3 p1)) (vsub p3 p1)) with 0
      by (destruct p1 as [x1 y1 z1], p2 as [x2 y2 z2], p3 as [x3 y3 z3]; unfold vdot, vcross, vsub; cbn [vx vy vz]; ring). ring.
  - apply normalize_unit, H.
Qed.

Lemma CalculateTriangleNormal_spec_witness :
  vcross (vsub (V3 1 0 0) (V3 0 0 0)) (vsub (V3 0 1 0) (V3 0 0 0)) <> vzero /\
  vlength (CalculateTriangleNormal (V3 0 0 0) (V3 1 0 0) (V3 0 1 0)) = 1.
Proof.
  assert (H : vcross (vsub (V3 1 0 0) (V3 0 0 0)) (vsub (V3 0 1 0) (V3 0 0 0)) <> vzero).
  { unfold vcross, vsub, vzero. cbn [vx vy vz]. intros E. injection E. intros. lra. }
  split; [exact H | apply (CalculateTriangleNormal_spec _ _ _ H)].
Defined.

(** X16: when the sum [n1 + n2] of the two cross products is non-zero, [QuadCrossProduct] returns a unit vector orthogonal to the diagonal [p3 - p1]; for a parallelogram given in cyclic order ([p1 + p3 = p2 + p4]) the two cross products cancel, so [glm::normalize] receives the zero vector and no unit normal is produced. *)
Theorem QuadCrossProduct_spec (p1 p2 p3 p4 : vec3) :
  (QuadCrossProduct_sum p1 p2 p3 p4 <> vzero ->
   vdot (QuadCrossProduct p1 p2 p3 p4) (vsub p3 p1) = 0 /\
   vlength (QuadCrossProduct p1 p2 p3 p4) = 1) /\
  (vadd p1 p3 = vadd p2 p4 -> QuadCrossProduct_sum p1 p2 p3 p4 = vzero).
Proof.
  unfold QuadCrossProduct. split.
  - intros Hn. split; [|exact (normalize_unit _ Hn)].
    rewrite vdot_normalize.
    replace (vdot (QuadCrossProduct_sum p1 p2 p3 p4) (vsub p3 p1)) with 0
      by (destruct p1 as [x1 y1 z1], p2 as [x2 y2 z2], p3 as [x3 y3 z3], p4 as [x4 y4 z4];
          unfold QuadCrossProduct_sum, vdot, vadd, vcross, vsub; cbn [vx vy vz]; ring).
    ring.
  - intros Hp.
    destruct p1 as [x1 y1 z1], p2 as [x2 y2 z2], p3 as [x3 y3 z3], p4 as [x4 y4 z4].
    unfold vadd in Hp. cbn [vx vy vz] in Hp. injection Hp as Ex Ey Ez.
    unfold QuadCrossProduct_sum, vadd, vcross, vsub, vzero. cbn [vx vy vz]. f_equal; nra.
Qed.

Lemma QuadCrossProduct_spec_witness :
  QuadCrossProduct_sum (V3 0 0 0) (V3 1 0 0) (V3 1 1 0) (V3 0 2 0) <> vzero /\
  vlength (QuadCrossProduct (V3 0 0 0) (V3 1 0 0) (V3 1 1 0) (V3 0 2 0)) = 1 /\
  vadd (V3 0 0 0) (V3 1 1 0) = vadd (V3 1 0 0) (V3 0 1 0) /\
  QuadCrossProduct_sum (V3 0 0 0) (V3 1 0 0) (V3 1 1 0) (V3 0 1 0) = vzero.
Proof.
  assert (Hn : QuadCrossProduct_sum (V3 0 0 0) (V3 1 0 0) (V3 1 1 0) (V3 0 2 0) <> vzero).
  { unfold QuadCrossProduct_sum, vadd, vcross, vsub, vzero. cbn [vx vy vz].
    intros E. injection E as _ _ Ez. lra. }
  assert (H : vadd (V3 0 0 0) (V3 1 1 0) = vadd (V3 1 0 0) (V3 0 1 0)).
  { unfold vadd. cbn [vx vy vz]. f_equal; ring. }
  refine (conj Hn (conj (proj2 (proj1 (QuadCrossProduct_spec _ _ _ _) Hn)) (conj H _))).
  exact (proj2 (QuadCrossProduct_spec _ _ _ _) H).
Defined.

Local Open Scope Z_scope.

















